(** * Ultra-2 validation dashboard: identity reconciliation engine

    A shallow embedding of the reconciliation logic of
    [ultra2_validation_dash.py]: the two mapping builders
    ([create_comprehensive_mapping] and the dictionary built inside
    [Dashboard.validation]), the schedule annotators
    ([process_schedule_files] and the loop of [Dashboard.validation]),
    the word-sorted name key of the duplicate screens, the salary and
    tier computation, and the append-total batch.

    Conventions.  Python [str] values are modelled by [string] (the ASCII
    range); a spreadsheet cell is either missing ([NaN]) or holds text;
    a [dict] keyed by identifiers is a [gmap string _]; a [for] loop over
    the rows of a frame is a [foldl] over the list of its rows; binary64
    numbers are [spec_float] values at precision 53. *)

From Stdlib Require Import ZArith Ascii String SpecFloat.
From stdpp Require Import gmap strings list sorting pretty.

Local Open Scope string_scope.
Local Open Scope list_scope.

(** ** Python string primitives *)

Module Py.

(** [str.isspace] on one ASCII character: TAB..CR, FS..US and space. *)
Definition isspace (c : ascii) : bool :=
  let n := nat_of_ascii c in
  (Nat.leb 9 n && Nat.leb n 13) || (Nat.leb 28 n && Nat.leb n 32).

Fixpoint lstrip (s : string) : string :=
  match s with
  | "" => ""
  | String c s' => if isspace c then lstrip s' else s
  end.

Fixpoint rstrip (s : string) : string :=
  match s with
  | "" => ""
  | String c s' =>
      match rstrip s' with
      | "" => if isspace c then "" else String c ""
      | r => String c r
      end
  end.

(** [s.strip()] *)
Definition strip (s : string) : string := rstrip (lstrip s).

Definition upper_char (c : ascii) : ascii :=
  let n := nat_of_ascii c in
  if Nat.leb 97 n && Nat.leb n 122 then ascii_of_nat (n - 32) else c.

(** [s.upper()] *)
Fixpoint upper (s : string) : string :=
  match s with
  | "" => ""
  | String c s' => String (upper_char c) (upper s')
  end.

(** [s.split()]: maximal runs of non-whitespace characters. *)
Fixpoint split (s : string) : list string :=
  match s with
  | "" => []
  | String c s' =>
      if isspace c then split s'
      else match s' with
           | "" => [String c ""]
           | String c' _ =>
               if isspace c' then String c "" :: split s'
               else match split s' with
                    | t :: ts => String c t :: ts
                    | [] => [String c ""]
                    end
           end
  end.

(** [sep.join(ts)] *)
Fixpoint join (sep : string) (ts : list string) : string :=
  match ts with
  | [] => ""
  | [t] => t
  | t :: ts' => t +:+ sep +:+ join sep ts'
  end.

(** [sorted(ts)] on strings: the ascending rearrangement for the
    code-point order. *)
Definition sorted (ts : list string) : list string := merge_sort String.le ts.

(** [s.replace(c, '')] for a one-character pattern. *)
Fixpoint remove_char (x : ascii) (s : string) : string :=
  match s with
  | "" => ""
  | String c s' => if Ascii.eqb c x then remove_char x s' else String c (remove_char x s')
  end.

(** [c in s] for a one-character pattern. *)
Fixpoint contains_char (x : ascii) (s : string) : bool :=
  match s with
  | "" => false
  | String c s' => Ascii.eqb c x || contains_char x s'
  end.

(** [s.startswith(p)] *)
Fixpoint startswith (p s : string) : bool :=
  match p, s with
  | "", _ => true
  | String a p', String b s' => Ascii.eqb a b && startswith p' s'
  | String _ _, "" => false
  end.

(** [s.endswith(p)]: [p] is [s] or the end of what follows its first
    character. *)
Fixpoint endswith (p s : string) : bool :=
  String.eqb p s
  || match s with
     | "" => false
     | String _ s' => endswith p s'
     end.

(** Truthiness of a [str]. *)
Definition nonempty (s : string) : bool :=
  match s with "" => false | _ => true end.

End Py.

(** ** Spreadsheet cells *)

(** A cell read by [pd.read_excel]: missing, or text. *)
Inductive cell := NaN | Text (s : string).

Global Instance cell_eq_dec : EqDecision cell.
Proof. solve_decision. Defined.

(** [pd.notna] *)
Definition notna (c : cell) : bool :=
  match c with NaN => false | Text _ => true end.

(** [str(x)], also the element-wise [astype(str)]: the missing value
    prints as ["nan"]. *)
Definition str (c : cell) : string :=
  match c with NaN => "nan" | Text s => s end.

(** [str(x).strip() if pd.notna(x) else ''] *)
Definition stripped_or_empty (c : cell) : string :=
  if notna c then Py.strip (str c) else "".

(** The two identity sources.  Field names are the column names. *)
Module Vlookup.
Record row := Row {
  Ssnit : cell; Accountno : cell; Surname : cell;
  First_Name : cell; Other_Names : cell }.
End Vlookup.

Module MasterReport.
Record row := Row {
  Ssnit : cell; Client_Account_Number : cell; Surname : cell;
  First_Name : cell; Other_Names : cell }.
End MasterReport.

(** ** [create_comprehensive_mapping] (the definition in force, the second
    one of the module) *)

Inductive origin := VLOOKUP | Master.

Global Instance origin_eq_dec : EqDecision origin.
Proof. solve_decision. Defined.

Record entry := Entry {
  accountno : string; surname : string; first_name : string;
  other_name : string; source : origin }.

Global Instance entry_eq_dec : EqDecision entry.
Proof. solve_decision. Defined.

(** [pd.notna(ssnit) and str(ssnit).strip() and ssnit not in ['NAN', 'NONE', '']] *)
Definition keep_ssnit (c : cell) : bool :=
  notna c && Py.nonempty (Py.strip (str c))
  && negb (bool_decide (str c ∈ ["NAN"; "NONE"; ""])).

Definition vlookup_entry (r : Vlookup.row) : entry :=
  {| accountno := stripped_or_empty (Vlookup.Accountno r);
     surname := stripped_or_empty (Vlookup.Surname r);
     first_name := stripped_or_empty (Vlookup.First_Name r);
     other_name := stripped_or_empty (Vlookup.Other_Names r);
     source := VLOOKUP |}.

Definition master_entry (r : MasterReport.row) : entry :=
  {| accountno := stripped_or_empty (MasterReport.Client_Account_Number r);
     surname := stripped_or_empty (MasterReport.Surname r);
     first_name := stripped_or_empty (MasterReport.First_Name r);
     other_name := stripped_or_empty (MasterReport.Other_Names r);
     source := Master |}.

(** [entry['accountno'] = ...] on the aliased dictionary entry. *)
Definition set_accountno (a : string) (e : entry) : entry :=
  {| accountno := a; surname := surname e; first_name := first_name e;
     other_name := other_name e; source := source e |}.

(** Body of the first loop: [mapping[ssnit] = {...}]. *)
Definition populate_step (mapping : gmap string entry) (r : Vlookup.row)
  : gmap string entry :=
  if keep_ssnit (Vlookup.Ssnit r)
  then <[str (Vlookup.Ssnit r) := vlookup_entry r]> mapping
  else mapping.

(** Body of the second loop. *)
Definition supplement_step (mapping : gmap string entry) (r : MasterReport.row)
  : gmap string entry :=
  if keep_ssnit (MasterReport.Ssnit r) then
    let ssnit := str (MasterReport.Ssnit r) in
    match mapping !! ssnit with
    | None => <[ssnit := master_entry r]> mapping
    | Some e =>
        if Py.nonempty (accountno e) then mapping
        else <[ssnit :=
                 set_accountno
                   (stripped_or_empty (MasterReport.Client_Account_Number r)) e]>
               mapping
    end
  else mapping.

Definition populate_from_vlookup (rows : list Vlookup.row) : gmap string entry :=
  foldl populate_step ∅ rows.

Definition supplement_with_master
  (mapping : gmap string entry) (rows : list MasterReport.row) : gmap string entry :=
  foldl supplement_step mapping rows.

(** The two loops of [create_comprehensive_mapping], run on frames whose
    [Ssnit] columns hold the given cells. *)
Definition mapping_of_rows
  (vlookup_df : list Vlookup.row) (master_df : list MasterReport.row)
  : gmap string entry :=
  supplement_with_master (populate_from_vlookup vlookup_df) master_df.

(** *** The function as a whole *)

Inductive exn :=
  AttributeError | ValueError | FileNotFoundError | FileExistsError.

Inductive result (A : Type) := Ok (a : A) | Raise (e : exn).
Arguments Ok {A} a.
Arguments Raise {A} e.

(** [col.astype(str).str.strip()] *)
Definition Series_astype_str_strip (col : list cell) : list cell :=
  map (λ c, Text (Py.strip (str c))) col.

(** [col.upper()]: the expression [....str.strip()] is a Series, and a
    Series has no attribute [upper] (the element-wise method is
    [col.str.upper()]); the attribute lookup raises. *)
Definition Series_upper (col : list cell) : result (list cell) :=
  Raise AttributeError.

(** [col.astype(str).str.strip().upper()] *)
Definition clean_ssnit_column (col : list cell) : result (list cell) :=
  Series_upper (Series_astype_str_strip col).

Definition set_vlookup_ssnit (r : Vlookup.row) (c : cell) : Vlookup.row :=
  Vlookup.Row c (Vlookup.Accountno r) (Vlookup.Surname r)
    (Vlookup.First_Name r) (Vlookup.Other_Names r).

Definition set_master_ssnit (r : MasterReport.row) (c : cell) : MasterReport.row :=
  MasterReport.Row c (MasterReport.Client_Account_Number r)
    (MasterReport.Surname r) (MasterReport.First_Name r)
    (MasterReport.Other_Names r).

Definition create_comprehensive_mapping
  (vlookup_df : list Vlookup.row) (master_df : list MasterReport.row)
  : result (gmap string entry) :=
  match clean_ssnit_column (map Vlookup.Ssnit vlookup_df) with
  | Raise e => Raise e
  | Ok vcol =>
      match clean_ssnit_column (map MasterReport.Ssnit master_df) with
      | Raise e => Raise e
      | Ok mcol =>
          Ok (mapping_of_rows
                (zip_with set_vlookup_ssnit vlookup_df vcol)
                (zip_with set_master_ssnit master_df mcol))
      end
  end.

(** ** Schedule files *)

Module Schedule.
Record row := Row {
  ssnit : cell; accountno : cell; surname : cell; first_name : cell;
  other_name : cell; salary : cell }.
End Schedule.

Global Instance schedule_row_eq_dec : EqDecision Schedule.row.
Proof. solve_decision. Defined.

(** ** [process_schedule_files]: the row loop of one file *)

Module Unmapped.
Record record := Entry { file : string; ssnit : cell; row : nat }.
End Unmapped.

Record file_state := FileState {
  df : list Schedule.row;
  changes_made : bool;
  file_unmapped : list Unmapped.record }.

(** The four [df.at[idx, ...] = data[...]] assignments. *)
Definition overwrite_identity (data : entry) (r : Schedule.row) : Schedule.row :=
  Schedule.Row (Schedule.ssnit r)
    (Text (accountno data)) (Text (surname data))
    (Text (first_name data)) (Text (other_name data))
    (Schedule.salary r).

(** [ssnit in ssnit_mapping] and [ssnit_mapping[ssnit]]: the missing value
    is not a key. *)
Definition mapping_get (mapping : gmap string entry) (c : cell) : option entry :=
  match c with NaN => None | Text s => mapping !! s end.

(** [ssnit in ['NAN', 'NONE', '']] *)
Definition skipped_ssnit (c : cell) : bool :=
  match c with
  | NaN => false
  | Text s => bool_decide (s ∈ ["NAN"; "NONE"; ""])
  end.

(** Body of [for idx, row in df.iterrows()]. *)
Definition schedule_step (file : string) (ssnit_mapping : gmap string entry)
  (st : file_state) (ir : nat * Schedule.row) : file_state :=
  let '(idx, row) := ir in
  let ssnit := Schedule.ssnit row in
  if skipped_ssnit ssnit then st
  else match mapping_get ssnit_mapping ssnit with
       | Some data =>
           if Py.nonempty (accountno data)
           then FileState (alter (overwrite_identity data) idx (df st))
                  true (file_unmapped st)
           else st
       | None =>
           FileState (df st) (changes_made st)
             (file_unmapped st ++ [Unmapped.Entry file ssnit (idx + 1)])
       end.

(** The loop over the rows of a frame whose [ssnit] column holds the given
    cells. *)
Definition schedule_loop (file : string) (ssnit_mapping : gmap string entry)
  (rows : list Schedule.row) : file_state :=
  foldl (schedule_step file ssnit_mapping) (FileState rows false [])
    (imap (λ idx row, (idx, row)) rows).

Definition set_schedule_ssnit (r : Schedule.row) (c : cell) : Schedule.row :=
  Schedule.Row c (Schedule.accountno r) (Schedule.surname r)
    (Schedule.first_name r) (Schedule.other_name r) (Schedule.salary r).

(** The [try] block of one file: the cleaning statement, then the loop. *)
Definition process_schedule_file (file : string)
  (ssnit_mapping : gmap string entry) (rows : list Schedule.row)
  : result file_state :=
  match clean_ssnit_column (map Schedule.ssnit rows) with
  | Raise e => Raise e
  | Ok col =>
      Ok (schedule_loop file ssnit_mapping (zip_with set_schedule_ssnit rows col))
  end.

(** ** [Dashboard.validation]: the lookup dictionary *)

Module Validation.

(** A value of the dictionary: [None], or a cell. *)
Record entry := Entry {
  accountno : option cell; surname : option cell;
  first_name : option cell; other_name : option cell }.

(** Truthiness: [None] and [''] are false; the float [nan] is true. *)
Definition truthy (v : option cell) : bool :=
  match v with
  | None => false
  | Some NaN => true
  | Some (Text s) => Py.nonempty s
  end.

(** [str(x).strip() if pd.notna(x) else None] *)
Definition stripped_or_None (c : cell) : option cell :=
  if notna c then Some (Text (Py.strip (str c))) else None.

(** [x if pd.notna(x) else None] *)
Definition value_or_None (c : cell) : option cell :=
  if notna c then Some c else None.

(** [df['Ssnit'] = df['Ssnit'].astype(str).str.strip()] on one cell. *)
Definition clean_ssnit (c : cell) : cell := Text (Py.strip (str c)).

(** [str(row['Ssnit']).strip()] read from the cleaned column. *)
Definition key_of (c : cell) : string := Py.strip (str (clean_ssnit c)).

Definition vlookup_entry (r : Vlookup.row) : entry :=
  {| accountno := stripped_or_None (Vlookup.Accountno r);
     surname := value_or_None (Vlookup.Surname r);
     first_name := value_or_None (Vlookup.First_Name r);
     other_name := value_or_None (Vlookup.Other_Names r) |}.

Definition master_entry (r : MasterReport.row) : entry :=
  {| accountno := stripped_or_None (MasterReport.Client_Account_Number r);
     surname := value_or_None (MasterReport.Surname r);
     first_name := value_or_None (MasterReport.First_Name r);
     other_name := value_or_None (MasterReport.Other_Names r) |}.

(** The [else] branch: four guarded assignments on the aliased entry. *)
Definition fill_missing (r : MasterReport.row) (e : entry) : entry :=
  {| accountno :=
       if truthy (accountno e) then accountno e
       else stripped_or_None (MasterReport.Client_Account_Number r);
     surname :=
       if truthy (surname e) then surname e else Some (MasterReport.Surname r);
     first_name :=
       if truthy (first_name e) then first_name e
       else Some (MasterReport.First_Name r);
     other_name :=
       if truthy (other_name e) then other_name e
       else Some (MasterReport.Other_Names r) |}.

Definition vlookup_step (d : gmap string entry) (r : Vlookup.row)
  : gmap string entry :=
  <[key_of (Vlookup.Ssnit r) := vlookup_entry r]> d.

Definition master_step (d : gmap string entry) (r : MasterReport.row)
  : gmap string entry :=
  let ssnit := key_of (MasterReport.Ssnit r) in
  match d !! ssnit with
  | None => <[ssnit := master_entry r]> d
  | Some e => <[ssnit := fill_missing r e]> d
  end.

Definition primary_dict (vlookup_db : list Vlookup.row) : gmap string entry :=
  foldl vlookup_step ∅ vlookup_db.

(** [vlookup_dict] after both loops. *)
Definition vlookup_dict
  (vlookup_db : list Vlookup.row) (master_df : list MasterReport.row)
  : gmap string entry :=
  foldl master_step (primary_dict vlookup_db) master_df.

End Validation.

(** ** Binary64 numbers and [pd.to_numeric] *)

Definition prec : Z := 53.
Definition emax : Z := 1024.

Definition fmul : spec_float → spec_float → spec_float := SFmul prec emax.
Definition fadd : spec_float → spec_float → spec_float := SFadd prec emax.

Definition is_nan (x : spec_float) : bool :=
  match x with S754_nan => true | _ => false end.

(** The binary64 number nearest to [(-1)^neg * m * 10^e10] (ties to even). *)
Definition decimal_to_float (neg : bool) (m : N) (e10 : Z) : spec_float :=
  match m with
  | N0 => S754_zero neg
  | Npos p =>
      if (0 <=? e10)%Z
      then binary_normalize prec emax
             (cond_Zopp neg (Zpos p * 10 ^ e10)%Z) 0 neg
      else SFdiv prec emax (S754_finite neg p 0)
             (S754_finite false (Z.to_pos (10 ^ (- e10))) 0)
  end.

Definition digit_of (c : ascii) : option N :=
  let n := N_of_ascii c in
  if (48 <=? n)%N && (n <=? 57)%N then Some (n - 48)%N else None.

(** Reads a run of digits: the number read so far, how many digits were
    read, and the rest of the text. *)
Fixpoint read_digits (acc : N) (cnt : nat) (s : string) : N * nat * string :=
  match s with
  | "" => (acc, cnt, "")
  | String c s' =>
      match digit_of c with
      | Some d => read_digits (acc * 10 + d)%N (S cnt) s'
      | None => (acc, cnt, s)
      end
  end.

Definition read_sign (s : string) : bool * string :=
  match s with
  | String "-" s' => (true, s')
  | String "+" s' => (false, s')
  | _ => (false, s)
  end.

Definition read_exponent (s : string) : option Z :=
  let '(eneg, s1) := read_sign s in
  let '(ev, n, s2) := read_digits 0 0 s1 in
  match n, s2 with
  | S _, "" => Some (cond_Zopp eneg (Z.of_N ev))
  | _, _ => None
  end.

(** A decimal literal: sign, digits with an optional fraction (at least one
    digit in all), optional exponent.  The result is sign, digit string as
    a number, and decimal exponent. *)
Definition parse_decimal (s : string) : option (bool * N * Z) :=
  let '(neg, s1) := read_sign s in
  let '(ip, n1, s2) := read_digits 0 0 s1 in
  let '(m, n2, s3) :=
    match s2 with
    | String "." s2' => read_digits ip 0 s2'
    | _ => (ip, 0, s2)
    end in
  match n1 + n2 with
  | 0 => None
  | S _ =>
      match s3 with
      | "" => Some (neg, m, (- Z.of_nat n2)%Z)
      | String c s4 =>
          if bool_decide (c = "e"%char ∨ c = "E"%char)
          then match read_exponent s4 with
               | Some e => Some (neg, m, (e - Z.of_nat n2)%Z)
               | None => None
               end
          else None
      end
  end.

(** One element of [pd.to_numeric]: [None] when the text is not a number. *)
Definition parse_float (s : string) : option spec_float :=
  match parse_decimal s with
  | Some (neg, m, e10) => Some (decimal_to_float neg m e10)
  | None =>
      let u := Py.upper s in
      if bool_decide (u ∈ ["NAN"; "+NAN"; "-NAN"]) then Some S754_nan
      else if bool_decide (u ∈ ["INF"; "+INF"; "INFINITY"; "+INFINITY"])
      then Some (S754_infinity false)
      else if bool_decide (u ∈ ["-INF"; "-INFINITY"])
      then Some (S754_infinity true)
      else None
  end.

Inductive errors_mode := errors_raise | errors_coerce.

(** [pd.to_numeric(col, errors=...)] on a column of text. *)
Definition to_numeric (errors : errors_mode) (col : list string)
  : result (list spec_float) :=
  match errors with
  | errors_coerce => Ok (map (λ s, default S754_nan (parse_float s)) col)
  | errors_raise =>
      match mapM parse_float col with
      | Some xs => Ok xs
      | None => Raise ValueError
      end
  end.

(** The literal [0.05]. *)
Definition float_0_05 : spec_float := decimal_to_float false 5 (-2).

(** ** [Dashboard.validation]: annotating one schedule file *)

Module Output.
Record row := Row {
  accountno : cell; surname : cell; first_name : cell; other_name : cell;
  ssnit : cell; tier1 : Z; tier2 : spec_float }.
End Output.

(** [Series.unique]: distinct values in order of first appearance. *)
Fixpoint unique (l : list cell) : list cell :=
  match l with
  | [] => []
  | x :: l' => x :: filter (λ y, y ≠ x) (unique l')
  end.

(** One element of the mask [df['ssnit'] == ssnit_num]: the missing value
    equals nothing. *)
Definition cell_eqb (a b : cell) : bool :=
  match a, b with
  | Text x, Text y => bool_decide (x = y)
  | _, _ => false
  end.

(** [if value: df.loc[mask, field] = value] on one cell of a masked row. *)
Definition assign_if_truthy (value : option cell) (old : cell) : cell :=
  match value with
  | Some c => if Validation.truthy value then c else old
  | None => old
  end.

(** [for field, value in data.items(): ...] on one masked row. *)
Definition update_row (data : Validation.entry) (r : Schedule.row) : Schedule.row :=
  Schedule.Row (Schedule.ssnit r)
    (assign_if_truthy (Validation.accountno data) (Schedule.accountno r))
    (assign_if_truthy (Validation.surname data) (Schedule.surname r))
    (assign_if_truthy (Validation.first_name data) (Schedule.first_name r))
    (assign_if_truthy (Validation.other_name data) (Schedule.other_name r))
    (Schedule.salary r).

Definition dict_get (d : gmap string Validation.entry) (c : cell)
  : option Validation.entry :=
  match c with NaN => None | Text s => d !! s end.

(** Body of [for ssnit_num in df['ssnit'].unique()]. *)
Definition map_ssnit_step (vlookup_dict : gmap string Validation.entry)
  (df : list Schedule.row) (ssnit_num : cell) : list Schedule.row :=
  match dict_get vlookup_dict ssnit_num with
  | Some data =>
      map (λ r, if cell_eqb (Schedule.ssnit r) ssnit_num
                then update_row data r else r) df
  | None => df
  end.

Definition map_ssnit_data (vlookup_dict : gmap string Validation.entry)
  (df : list Schedule.row) : list Schedule.row :=
  foldl (map_ssnit_step vlookup_dict) df (unique (map Schedule.ssnit df)).

(** [df['salary'].astype(str).str.replace(',', '').str.strip()] on one cell. *)
Definition salary_text (c : cell) : string :=
  Py.strip (Py.remove_char "," (str c)).

(** [df[output_columns]] of one row, with the two computed columns. *)
Definition output_row (r : Schedule.row) (salary : spec_float) : Output.row :=
  Output.Row (Schedule.accountno r) (Schedule.surname r)
    (Schedule.first_name r) (Schedule.other_name r) (Schedule.ssnit r)
    0 (fmul salary float_0_05).

(** The [try] block of one file. *)
Definition validate_file (vlookup_dict : gmap string Validation.entry)
  (rows : list Schedule.row) : result (list Output.row) :=
  let df0 :=
    zip_with set_schedule_ssnit rows
      (Series_astype_str_strip (map Schedule.ssnit rows)) in
  let df1 := map_ssnit_data vlookup_dict df0 in
  match to_numeric errors_coerce (map (λ r, salary_text (Schedule.salary r)) df1) with
  | Raise e => Raise e
  | Ok salary => Ok (zip_with output_row df1 salary)
  end.

Inductive status := Pending | Processed | Failed.

Global Instance status_eq_dec : EqDecision status.
Proof. solve_decision. Defined.

Definition status_of {A} (r : result A) : status :=
  match r with Ok _ => Processed | Raise _ => Failed end.

(** The statuses shown after [Start Validation]: every file is tried. *)
Definition validation_statuses (vlookup_dict : gmap string Validation.entry)
  (files : list (list Schedule.row)) : list status :=
  map (λ rows, status_of (validate_file vlookup_dict rows)) files.

(** ** Name keys of the duplicate screens *)


Module Company.
Record row := Row {
  Ssnit : cell; Surname : cell; First_Name : cell; Other_Names : cell;
  Accountno : cell; Accountno2 : cell }.
End Company.

Global Instance cell_countable : Countable cell.
Proof.
  refine (inj_countable'
            (λ c, match c with NaN => None | Text s => Some s end)
            (λ o, match o with None => NaN | Some s => Text s end) _).
  by intros [].
Defined.

(** [.fillna('')] on one cell. *)
Definition fillna_empty (c : cell) : cell :=
  match c with NaN => Text "" | Text _ => c end.

(** [company_df['FullName']]: the three name columns joined by a space. *)
Definition FullName (r : Company.row) : string :=
  Py.join " "
    [str (fillna_empty (Company.Surname r));
     str (fillna_empty (Company.First_Name r));
     str (fillna_empty (Company.Other_Names r))].

(** [company_df['SortedFullName']] *)
Definition SortedFullName (r : Company.row) : string :=
  Py.join " " (Py.sorted (Py.split (FullName r))).

(** [sort_values(by='SortedFullName')]; rows with equal keys come in the
    order the merge sort leaves them. *)
Definition sort_by_name (rows : list Company.row) : list Company.row :=
  merge_sort (λ a b, String.le (SortedFullName a) (SortedFullName b)) rows.

(** One element of [duplicated(subset=..., keep=False)]: the key occurs in
    more than one row. *)
Definition is_duplicated (keys : list string) (k : string) : bool :=
  bool_decide (1 < length (filter (λ k', k' = k) keys)).

(** [company_df[company_df.duplicated(subset='SortedFullName', keep=False)]] *)
Definition duplicates (rows : list Company.row) : list Company.row :=
  let sorted_rows := sort_by_name rows in
  filter (λ r, is_duplicated (map SortedFullName sorted_rows) (SortedFullName r))
    sorted_rows.

(** Body of the loop that fills [duplicate_dict]. *)
Definition duplicate_dict_step (d : gmap string (gset cell)) (r : Company.row)
  : gmap string (gset cell) :=
  let name := SortedFullName r in
  let d' := match d !! name with None => <[name := ∅]> d | Some _ => d end in
  alter (λ ssnits, ssnits ∪ {[Company.Ssnit r]}) name d'.

(** [duplicate_dict]: the duplicate groups, keyed by the name key. *)
Definition duplicate_dict (rows : list Company.row) : gmap string (gset cell) :=
  foldl duplicate_dict_step ∅ (duplicates rows).

(** ** Append total *)

(** [Series.sum()]: missing values are skipped; the additions are taken
    from the first row on. *)
Definition Series_sum (col : list spec_float) : spec_float :=
  foldl (λ acc x, if is_nan x then acc else fadd acc x) (S754_zero false) col.

(** The integer nearest to [m * 2^e], ties to even. *)
Definition round_half_even (m : Z) (e : Z) : Z :=
  if (0 <=? e)%Z then (m * 2 ^ e)%Z
  else
    let d := (2 ^ (- e))%Z in
    let q := (m / d)%Z in
    let r := (m mod d)%Z in
    match (2 * r ?= d)%Z with
    | Lt => q
    | Gt => (q + 1)%Z
    | Eq => if Z.even q then q else (q + 1)%Z
    end.

Definition two_digits (n : Z) : string :=
  pretty (Z.to_N (n / 10)) +:+ pretty (Z.to_N (n mod 10)).

Definition sign_text (neg : bool) : string := if neg then "-" else "".

(** [f"{x:.2f}"] *)
Definition format_2f (x : spec_float) : string :=
  match x with
  | S754_nan => "nan"
  | S754_infinity s => sign_text s +:+ "inf"
  | S754_zero s => sign_text s +:+ "0.00"
  | S754_finite s m e =>
      let n := round_half_even (Zpos m * 100) e in
      sign_text s +:+ pretty (Z.to_N (n / 100)) +:+ "." +:+ two_digits (n mod 100)
  end.

(** The position of the last dot: the text before it and the text from it. *)
Fixpoint split_last_dot (s : string) : option (string * string) :=
  match s with
  | "" => None
  | String c s' =>
      match split_last_dot s' with
      | Some (root, ext) => Some (String c root, ext)
      | None => if Ascii.eqb c "." then Some ("", s) else None
      end
  end.

Fixpoint all_dots (s : string) : bool :=
  match s with
  | "" => true
  | String c s' => Ascii.eqb c "." && all_dots s'
  end.

(** [os.path.splitext] on a file name: leading dots do not start an
    extension. *)
Definition splitext (p : string) : string * string :=
  match split_last_dot p with
  | Some (root, ext) => if all_dots root then (p, "") else (root, ext)
  | None => (p, "")
  end.

(** A workbook: its [tier2] column when it has one, and its other columns. *)
Record workbook := Workbook {
  tier2 : option (list spec_float);
  other_columns : list (string * list cell) }.

Global Instance spec_float_eq_dec : EqDecision spec_float.
Proof. solve_decision. Defined.

Global Instance workbook_eq_dec : EqDecision workbook.
Proof. solve_decision. Defined.

(** The files of the schedule folders, keyed by (folder, file name). *)
Abbreviation filesystem := (gmap (string * string) workbook).

(** [os.rename] replaces an existing destination on POSIX systems and
    raises [FileExistsError] on Windows. *)
Inductive platform := Posix | Windows.

Definition os_rename (p : platform) (fs : filesystem) (src dst : string * string)
  : result filesystem :=
  match fs !! src with
  | None => Raise FileNotFoundError
  | Some wb =>
      match p, fs !! dst with
      | Windows, Some _ => Raise FileExistsError
      | _, _ => Ok (<[dst := wb]> (delete src fs))
      end
  end.

(** The file filter of the preview list. *)
Definition selected (file : string) : bool :=
  Py.endswith ".xlsx" file
  && negb (existsb (λ p, Py.startswith p file)
             ["vlookup_"; "duplicate_ssnit_"; "._"; "~$"])
  && negb (Py.contains_char "_" file).

(** [os.listdir(folder_path)] *)
Definition listdir (fs : filesystem) (folder : string) : list string :=
  map snd (filter (λ k, k.1 = folder) (map fst (map_to_list fs))).

(** [schedule_folders]: the sub-folders that hold the files. *)
Definition schedule_folders (fs : filesystem) : list string :=
  elements (set_map (D := gset string) fst (dom fs)).

Definition folders_to_process (fs : filesystem) (selected_option : string)
  : list string :=
  if bool_decide (selected_option = "Process All Folders")
  then schedule_folders fs else [selected_option].

(** [all_files]: (folder, file name) of every selected file. *)
Definition all_files (fs : filesystem) (folders : list string)
  : list (string * string) :=
  folder ← folders;
  file ← filter (λ f, selected f = true) (listdir fs folder);
  [(folder, file)].

Definition new_filename (file : string) (total_tier2 : spec_float) : string :=
  (splitext file).1 +:+ "_" +:+ format_2f total_tier2 +:+ ".xlsx".

(** The [try] block of one file. *)
Definition append_total_file (p : platform) (fs : filesystem)
  (f : string * string) : result filesystem :=
  match fs !! f with
  | None => Raise FileNotFoundError
  | Some wb =>
      match tier2 wb with
      | None => Raise ValueError
      | Some col =>
          os_rename p fs f (f.1, new_filename f.2 (Series_sum col))
      end
  end.

(** The batch loop: the file system after it and the status column. *)
Fixpoint append_total_loop (p : platform) (fs : filesystem)
  (files : list (string * string)) : filesystem * list status :=
  match files with
  | [] => (fs, [])
  | f :: rest =>
      let r := append_total_file p fs f in
      let fs1 := match r with Ok fs' => fs' | Raise _ => fs end in
      let '(fs2, sts) := append_total_loop p fs1 rest in
      (fs2, status_of r :: sts)
  end.

(** [Start Append Total] on the chosen folders. *)
Definition append_total (p : platform) (fs : filesystem) (selected_option : string)
  : filesystem * list status :=
  append_total_loop p fs (all_files fs (folders_to_process fs selected_option)).

(** ** Per-identifier view of the mapping loops

    What the loops do to the entry of one identifier [k]: the functions
    below act on [mapping.get(k)] alone. *)










(** The same view of the dictionary of [Dashboard.validation]. *)
Definition validation_has_key (k : string) (r : MasterReport.row) : bool :=
  bool_decide (Validation.key_of (MasterReport.Ssnit r) = k).

Definition validation_vlookup_at (k : string) (o : option Validation.entry)
  (r : Vlookup.row) : option Validation.entry :=
  if bool_decide (Validation.key_of (Vlookup.Ssnit r) = k)
  then Some (Validation.vlookup_entry r) else o.

Definition validation_master_at (k : string) (o : option Validation.entry)
  (r : MasterReport.row) : option Validation.entry :=
  if bool_decide (Validation.key_of (MasterReport.Ssnit r) = k) then
    match o with
    | None => Some (Validation.master_entry r)
    | Some e => Some (Validation.fill_missing r e)
    end
  else o.

(** One field of an entry of [Dashboard.validation] under the guarded
    assignments of successive fallback rows offering [cands]. *)
Fixpoint fill_from (v : option cell) (cands : list (option cell)) : option cell :=
  match cands with
  | [] => v
  | c :: l => if Validation.truthy v then v else fill_from c l
  end.




(** ** Per-row view of the annotators *)

(** What [Dashboard.validation] does to one row of a schedule file, and
    what one step of its loop over the distinct identifiers does to it. *)
Definition annotate_row (vlookup_dict : gmap string Validation.entry)
  (r : Schedule.row) : Schedule.row :=
  match dict_get vlookup_dict (Schedule.ssnit r) with
  | Some data => update_row data r
  | None => r
  end.

Definition map_ssnit_row (vlookup_dict : gmap string Validation.entry)
  (r : Schedule.row) (ssnit_num : cell) : Schedule.row :=
  match dict_get vlookup_dict ssnit_num with
  | Some data => if cell_eqb (Schedule.ssnit r) ssnit_num then update_row data r else r
  | None => r
  end.

(** One row of a file as [Dashboard.validation] rewrites it: the identifier
    is cleaned, the identity fields are mapped, the salary is read. *)
Definition salary_of (r : Schedule.row) : spec_float :=
  default S754_nan (parse_float (salary_text (Schedule.salary r))).

Definition validated_row (vlookup_dict : gmap string Validation.entry)
  (r : Schedule.row) : Output.row :=
  output_row
    (annotate_row vlookup_dict
       (set_schedule_ssnit r (Text (Py.strip (str (Schedule.ssnit r))))))
    (salary_of r).




(** ** Name tokens *)



(** ** Names produced by the append-total batch *)

(** The destination of the rename of file [f] whose [tier2] column is
    [col]. *)
Definition target_key (f : string * string) (col : list spec_float)
  : string * string :=
  (f.1, new_filename f.2 (Series_sum col)).

(** The file system after the [try] block of one file. *)
Definition step_state (p : platform) (fs : filesystem) (f : string * string)
  : filesystem :=
  match append_total_file p fs f with Ok fs' => fs' | Raise _ => fs end.

(** File [g] has a [tier2] column and its rename would produce [k]. *)
Definition renames_to (fs : filesystem) (k g : string * string) : bool :=
  match fs !! g with
  | Some wb =>
      match tier2 wb with
      | Some col => bool_decide (k = target_key g col)
      | None => false
      end
  | None => false
  end.

(** ** Sample data *)

(** Two identity sources.  The identifier ["A1"] has an account number in
    the primary source and a different one in the fallback source; ["B2"]
    has none in the primary source and is offered two by the fallback
    source. *)
Definition sample_vlookup : list Vlookup.row :=
  [Vlookup.Row (Text "A1") (Text "111") (Text "Mensah") (Text "Ama") NaN;
   Vlookup.Row (Text "B2") NaN (Text "Owusu") NaN NaN].

Definition sample_master : list MasterReport.row :=
  [MasterReport.Row (Text "A1") (Text "999") (Text "Mensa") (Text "A.") (Text "K");
   MasterReport.Row (Text "B2") (Text " 222 ") (Text "Owusu") (Text "Kofi") NaN;
   MasterReport.Row (Text "B2") (Text "333") (Text "Owusu") (Text "Kojo") NaN].


(** A primary row and a fallback row whose identifier cell holds only
    blanks, and a fallback row whose identifier cell is missing. *)
Definition blank_vlookup_row : Vlookup.row :=
  Vlookup.Row (Text "  ") (Text "111") (Text "Mensah") NaN NaN.

Definition blank_master_row : MasterReport.row :=
  MasterReport.Row (Text " ") (Text "222") (Text "Owusu") NaN NaN.

Definition missing_master_row : MasterReport.row :=
  MasterReport.Row NaN (Text "333") (Text "Boateng") NaN NaN.




(** A primary source in which the identifier ["C3"] has names and no
    account number, the mapping and the dictionary built from it, and a
    schedule file. *)
Definition sample_vlookup_no_account : list Vlookup.row :=
  sample_vlookup ++ [Vlookup.Row (Text "C3") NaN (Text "Boateng") NaN NaN].


Definition sample_dict : gmap string Validation.entry :=
  Validation.vlookup_dict sample_vlookup_no_account sample_master.

Definition sample_schedule : list Schedule.row :=
  [Schedule.Row (Text "A1") (Text "old") (Text "M.") (Text "Ama") (Text "Kwame")
     (Text "12,345.50");
   Schedule.Row (Text "C3") NaN (Text "B.") NaN NaN (Text "n/a");
   Schedule.Row (Text "Z9") (Text "777") NaN NaN NaN (Text " 1,000 ");
   Schedule.Row (Text "NAN") NaN NaN NaN NaN (Text "200")].

(** A row whose salary is written with a thousands separator. *)
Definition salary_row : Schedule.row :=
  Schedule.Row (Text "A1") NaN NaN NaN NaN (Text "12,345.50").

(** Three records of the company table: two carry the same names in a
    different order, the third a longer surname. *)
Definition smith_john : Company.row :=
  Company.Row (Text "S1") (Text "Smith") (Text "John") NaN NaN NaN.

Definition john_smith : Company.row :=
  Company.Row (Text "S2") (Text "John") (Text "Smith") NaN NaN NaN.


(** Workbooks: [workbook_b] has no [tier2] column. *)
Definition one : spec_float := decimal_to_float false 1 0.

Definition workbook_a : workbook :=
  Workbook (Some [one]) [("ssnit", [Text "A1"])].

Definition workbook_b : workbook :=
  Workbook None [("ssnit", [Text "B2"])].

Definition workbook_c : workbook :=
  Workbook (Some [decimal_to_float false 15 (-1); S754_nan;
                  decimal_to_float false 225 (-2)]) [].

Definition workbook_old : workbook :=
  Workbook (Some [one]) [("ssnit", [Text "Z9"])].

(** Three schedule files, one without a [tier2] column. *)
Definition three_files : filesystem :=
  {[ ("Jan", "a.xlsx") := workbook_a;
     ("Jan", "b.xlsx") := workbook_b;
     ("Feb", "c.xlsx") := workbook_c ]}.

(** A folder after an earlier run, in which a new file [a.xlsx] with the
    same total has been put. *)
Definition second_run : filesystem :=
  {[ ("Jan", "a_1.00.xlsx") := workbook_old;
     ("Jan", "a.xlsx") := workbook_a ]}.

(** ** The other duplicate screens *)

(** [get_duplicates]: [df[df.duplicated(subset='FullName', keep=False)]],
    on the name key as it is written. *)
Definition get_duplicates (rows : list Company.row) : list Company.row :=
  filter (λ r, is_duplicated (map FullName rows) (FullName r)) rows.

Module Accounts.

(** [df['Accountno'].astype(str).str.strip().str.upper()] on one row. *)
Definition Accountno (r : Company.row) : string :=
  Py.upper (Py.strip (str (Company.Accountno r))).

(** [df['Full_Name']]: the three name columns, missing values replaced by
    [''], added with a space between them, trimmed and upper-cased. *)
Definition Full_Name (r : Company.row) : string :=
  Py.upper
    (Py.strip
       (str (fillna_empty (Company.Surname r)) +:+ " "
        +:+ str (fillna_empty (Company.First_Name r)) +:+ " "
        +:+ str (fillna_empty (Company.Other_Names r)))).

(** The row after [df['Accountno'] = ...]. *)
Definition clean (r : Company.row) : Company.row :=
  Company.Row (Company.Ssnit r) (Company.Surname r) (Company.First_Name r)
    (Company.Other_Names r) (Text (Accountno r)) (Company.Accountno2 r).

(** [df[df.duplicated(subset='Accountno', keep=False)].sort_values('Accountno')]
    on the frame whose [Accountno] column has been cleaned; rows with equal
    keys come in the order the merge sort leaves them. *)
Definition account_duplicates (rows : list Company.row) : list Company.row :=
  let df := map clean rows in
  merge_sort
    (λ a b, String.le (str (Company.Accountno a)) (str (Company.Accountno b)))
    (filter (λ r, is_duplicated (map (λ r', str (Company.Accountno r')) df)
                    (str (Company.Accountno r))) df).

(** [df[df.duplicated(subset='Full_Name', keep=False)].sort_values('Full_Name')] *)
Definition name_duplicates (rows : list Company.row) : list Company.row :=
  let df := map clean rows in
  merge_sort (λ a b, String.le (Full_Name a) (Full_Name b))
    (filter (λ r, is_duplicated (map Full_Name df) (Full_Name r)) df).

End Accounts.

(** ** [multiple_ssnit]: the scan of one schedule file for a duplicate group *)

(** [set(df[df['ssnit'].isin(ssnit_set)]['ssnit'])]: the cleaned identifiers
    of the file that are elements of the group's set, which holds the
    [Ssnit] cells of the lookup table as they were read. *)
Definition ssnit_in_file (ssnit_set : gset cell) (rows : list Schedule.row)
  : gset string :=
  list_to_set
    (filter (λ s, Text s ∈ ssnit_set)
       (map (λ r, Py.strip (str (Schedule.ssnit r))) rows)).

(** The entry added to [schedule_findings] for the file, if any. *)
Definition schedule_finding (file : string) (ssnit_set : gset cell)
  (rows : list Schedule.row) : option (string * gset string) :=
  let found := ssnit_in_file ssnit_set rows in
  if bool_decide (1 < size found) then Some (file, found) else None.

(** ** [check_individual_schedule_duplicates]: one schedule file *)

(** [df[df.duplicated(subset='ssnit', keep=False)]] on a frame whose
    identifier column has been cleaned (it holds text). *)
Definition ssnit_duplicates (df : list Schedule.row) : list Schedule.row :=
  filter (λ r, is_duplicated (map (λ r', str (Schedule.ssnit r')) df)
                 (str (Schedule.ssnit r))) df.

Definition set_schedule_accountno (r : Schedule.row) (c : cell) : Schedule.row :=
  Schedule.Row (Schedule.ssnit r) c (Schedule.surname r)
    (Schedule.first_name r) (Schedule.other_name r) (Schedule.salary r).

(** Body of [for ssnit in duplicates['ssnit'].unique()]: the account number
    of the first duplicate row of the identifier is written to every row of
    the identifier.  ([ssnit] is the identifier of a row of [duplicates],
    so [ssnit_entries] has a first row.) *)
Definition standardize_account_step (duplicates df : list Schedule.row)
  (ssnit : cell) : list Schedule.row :=
  match filter (λ r, cell_eqb (Schedule.ssnit r) ssnit) duplicates with
  | first :: _ =>
      let primary_account := Schedule.accountno first in
      map (λ r, if cell_eqb (Schedule.ssnit r) ssnit
                then set_schedule_accountno r primary_account else r) df
  | [] => df
  end.

(** The [try] block of one file: the rows the file holds after it.  The
    frame is written back only when it has duplicates. *)
Definition standardize_duplicates (rows : list Schedule.row) : list Schedule.row :=
  let df :=
    zip_with set_schedule_ssnit rows
      (Series_astype_str_strip (map Schedule.ssnit rows)) in
  let duplicates := ssnit_duplicates df in
  match duplicates with
  | [] => rows
  | _ :: _ =>
      foldl (standardize_account_step duplicates) df
        (unique (map Schedule.ssnit duplicates))
  end.

(** The account number of the first row of [df] that has the identifier of
    [r]. *)
Definition first_account (df : list Schedule.row) (r : Schedule.row) : cell :=
  match filter (λ r', cell_eqb (Schedule.ssnit r') (Schedule.ssnit r)) df with
  | first :: _ => Schedule.accountno first
  | [] => Schedule.accountno r
  end.

(** A row with its identifier cleaned. *)
Definition clean_schedule_row (r : Schedule.row) : Schedule.row :=
  set_schedule_ssnit r (Text (Py.strip (str (Schedule.ssnit r)))).

(** What the loop that fills [duplicate_dict] does to the group of one name
    key. *)
Definition group_at (name : string) (o : option (gset cell)) (r : Company.row)
  : option (gset cell) :=
  if bool_decide (SortedFullName r = name)
  then Some (default ∅ o ∪ {[Company.Ssnit r]}) else o.

(** What one step of the loop of [check_individual_schedule_duplicates]
    does to one row. *)
Definition standardize_account_row (duplicates : list Schedule.row)
  (r : Schedule.row) (ssnit : cell) : Schedule.row :=
  match filter (λ r', cell_eqb (Schedule.ssnit r') ssnit) duplicates with
  | first :: _ =>
      if cell_eqb (Schedule.ssnit r) ssnit
      then set_schedule_accountno r (Schedule.accountno first) else r
  | [] => r
  end.

(** ** The file filters of the folder walks *)

Definition lower_char (c : ascii) : ascii :=
  let n := nat_of_ascii c in
  if Nat.leb 65 n && Nat.leb n 90 then ascii_of_nat (n + 32) else c.

(** [s.lower()] *)
Fixpoint lower (s : string) : string :=
  match s with
  | "" => ""
  | String c s' => String (lower_char c) (lower s')
  end.

(** The filter of the walks of [Dashboard.validation],
    [check_and_standardize_accounts], [check_individual_schedule_duplicates]
    and [process_schedule_files]. *)
Definition schedule_file (file : string) : bool :=
  Py.endswith ".xlsx" (lower file)
  && negb (existsb (λ p, Py.startswith p file)
             ["vlookup_"; "duplicate_"; "._"; "~$"]).

(** The filter of the schedule scan of [multiple_ssnit]. *)
Definition scanned_file (file : string) : bool :=
  Py.endswith ".xlsx" (lower file)
  && negb (existsb (λ p, Py.startswith p file)
             ["vlookup_"; "duplicate_ssnit_"; "._"; "~$"]).

(** The identifier cell of the row holds text. *)
Definition text_ssnit (r : Schedule.row) : Prop :=
  ∃ s, Schedule.ssnit r = Text s.

(** ** The name fields of [Dashboard.validation] *)

Inductive name_field := surname_field | first_name_field | other_name_field.

Definition entry_name (f : name_field) (e : Validation.entry) : option cell :=
  match f with
  | surname_field => Validation.surname e
  | first_name_field => Validation.first_name e
  | other_name_field => Validation.other_name e
  end.

Definition master_name (f : name_field) (r : MasterReport.row) : cell :=
  match f with
  | surname_field => MasterReport.Surname r
  | first_name_field => MasterReport.First_Name r
  | other_name_field => MasterReport.Other_Names r
  end.

Definition schedule_name (f : name_field) (r : Schedule.row) : cell :=
  match f with
  | surname_field => Schedule.surname r
  | first_name_field => Schedule.first_name r
  | other_name_field => Schedule.other_name r
  end.

(** A primary row without surname, and two fallback rows of the same
    identifier, the first of them without surname; a schedule row of the
    identifier that carries a surname. *)
Definition nameless_vlookup : list Vlookup.row :=
  [Vlookup.Row (Text "D4") (Text "444") NaN (Text "Esi") NaN].

Definition nameless_master : list MasterReport.row :=
  [MasterReport.Row (Text "D4") (Text "999") NaN (Text "E.") NaN;
   MasterReport.Row (Text "D4") (Text "999") (Text "Danso") (Text "E.") NaN].

Definition named_schedule_row : Schedule.row :=
  Schedule.Row (Text "D4") NaN (Text "Danso") (Text "Esi") NaN (Text "100").

(** ** The callers of [create_comprehensive_mapping] and the walk of
    [process_schedule_files] *)

(** [ssnit_mapping.get(x, {}).get(field, default)] *)
Definition mapped_field (ssnit_mapping : gmap string entry)
  (field : entry → string) (default : string) (x : cell) : cell :=
  match mapping_get ssnit_mapping x with
  | Some data => Text (field data)
  | None => Text default
  end.

(** One row of [result_df]. *)
Definition result_row (ssnit_mapping : gmap string entry) (r : Schedule.row)
  (salary : spec_float) : Output.row :=
  Output.Row
    (mapped_field ssnit_mapping accountno "#N/A" (Schedule.ssnit r))
    (mapped_field ssnit_mapping surname "" (Schedule.ssnit r))
    (mapped_field ssnit_mapping first_name "" (Schedule.ssnit r))
    (mapped_field ssnit_mapping other_name "" (Schedule.ssnit r))
    (Schedule.ssnit r) 0 (fmul salary float_0_05).

(** [process_dataframe] *)
Definition process_dataframe (rows : list Schedule.row)
  (vlookup_dict : list Vlookup.row) (master_dict : list MasterReport.row)
  : result (list Output.row) :=
  match create_comprehensive_mapping vlookup_dict master_dict with
  | Raise e => Raise e
  | Ok ssnit_mapping =>
      let df :=
        zip_with set_schedule_ssnit rows
          (Series_astype_str_strip (map Schedule.ssnit rows)) in
      match to_numeric errors_coerce
              (map (λ r, salary_text (Schedule.salary r)) df) with
      | Raise e => Raise e
      | Ok salary => Ok (zip_with (result_row ssnit_mapping) df salary)
      end
  end.

(** The files a walk meets, in its order: the name of each, and its rows
    when it has an [ssnit] column. *)
Definition folder := list (string * option (list Schedule.row)).

(** Body of the row loop of [check_and_standardize_accounts]: whether the
    row is changed, and the row after it. *)
Definition account_differs (ssnit_mapping : gmap string entry) (r : Schedule.row)
  : bool :=
  match mapping_get ssnit_mapping (Schedule.ssnit r) with
  | Some data => bool_decide (Schedule.accountno r ≠ Text (accountno data))
  | None => false
  end.

Definition standard_account_row (ssnit_mapping : gmap string entry)
  (r : Schedule.row) : Schedule.row :=
  match mapping_get ssnit_mapping (Schedule.ssnit r) with
  | Some data =>
      if bool_decide (Schedule.accountno r ≠ Text (accountno data))
      then set_schedule_accountno r (Text (accountno data)) else r
  | None => r
  end.

(** One file of the walk of [check_and_standardize_accounts]: it is written
    back when a row has changed. *)
Definition standardize_accounts_file (ssnit_mapping : gmap string entry)
  (f : string * option (list Schedule.row)) : string * option (list Schedule.row) :=
  if schedule_file f.1 then
    match f.2 with
    | None => f
    | Some rows =>
        let df :=
          zip_with set_schedule_ssnit rows
            (Series_astype_str_strip (map Schedule.ssnit rows)) in
        if existsb (account_differs ssnit_mapping) df
        then (f.1, Some (map (standard_account_row ssnit_mapping) df))
        else f
    end
  else f.

(** [check_and_standardize_accounts]: its return value and the files after
    it.  (The mapping is a dictionary, never [None].) *)
Definition check_and_standardize_accounts (files : folder)
  (vlookup_dict : list Vlookup.row) (master_dict : list MasterReport.row)
  : result (bool * folder) :=
  match create_comprehensive_mapping vlookup_dict master_dict with
  | Raise e => Raise e
  | Ok ssnit_mapping =>
      Ok (true, map (standardize_accounts_file ssnit_mapping) files)
  end.

(** The state of the walk of [process_schedule_files]: the files met so
    far as the walk leaves them, the two lists it returns, and the files
    for which an error was shown. *)
Record walk_state := WalkState {
  walked : folder;
  modified_files : list string;
  unmapped_records : list Unmapped.record;
  failed_files : list string }.

(** One file of the walk. *)
Definition process_schedule_files_step (ssnit_mapping : gmap string entry)
  (st : walk_state) (f : string * option (list Schedule.row)) : walk_state :=
  if schedule_file f.1 then
    match f.2 with
    | None =>
        WalkState (walked st ++ [f]) (modified_files st) (unmapped_records st)
          (failed_files st)
    | Some rows =>
        match process_schedule_file f.1 ssnit_mapping rows with
        | Ok fst =>
            if changes_made fst
            then WalkState (walked st ++ [(f.1, Some (df fst))])
                   (modified_files st ++ [f.1])
                   (unmapped_records st ++ file_unmapped fst) (failed_files st)
            else WalkState (walked st ++ [f]) (modified_files st)
                   (unmapped_records st ++ file_unmapped fst) (failed_files st)
        | Raise _ =>
            WalkState (walked st ++ [f]) (modified_files st)
              (unmapped_records st) (failed_files st ++ [f.1])
        end
    end
  else
    WalkState (walked st ++ [f]) (modified_files st) (unmapped_records st)
      (failed_files st).

(** [process_schedule_files] *)
Definition process_schedule_files (files : folder)
  (ssnit_mapping : gmap string entry) : walk_state :=
  foldl (process_schedule_files_step ssnit_mapping) (WalkState [] [] [] []) files.

(** ** [Dashboard.vlookup]: the lookup table of a company *)

Module Almighty.
Record row := Row {
  Client_Account_Number : cell; Surname : cell; First_Name : cell;
  Other_Names : cell; Ssnit : cell; Accountno : cell; Employer_Name : cell }.
End Almighty.

(** The almighty report as read: the names of its columns, and its rows
    (of which the function reads the seven required columns only). *)
Record almighty_report := Report {
  report_columns : list string;
  report_rows : list Almighty.row }.

Definition required_columns : list string :=
  ["Client Account Number"; "Surname"; "First Name"; "Other Names";
   "Ssnit"; "Accountno"; "Employer Name"].

(** [col.str.strip()] on a part [col] of the column [whole] of the frame
    read.  A column without any text is read as a column of numbers, which
    has no [str] accessor; in a column with text the accessor trims the
    text and keeps the missing values. *)
Definition Series_str_strip (whole col : list cell) : result (list cell) :=
  if existsb notna whole
  then Ok (map (λ c, match c with NaN => NaN | Text s => Text (Py.strip s) end) col)
  else Raise AttributeError.

(** Selection and renaming of the columns, on one row whose [Ssnit] cell
    has been replaced by [ssnit]. *)
Definition vlookup_row (r : Almighty.row) (ssnit : cell) : Company.row :=
  {| Company.Ssnit := ssnit;
     Company.Surname := Almighty.Surname r;
     Company.First_Name := Almighty.First_Name r;
     Company.Other_Names := Almighty.Other_Names r;
     Company.Accountno := Almighty.Client_Account_Number r;
     Company.Accountno2 := Almighty.Accountno r |}.

Inductive vlookup_outcome :=
  | VlookupTable (selected_columns_df : list Company.row)
  | MissingColumns (missing_columns : list string)
  | NoCompanyData
  | VlookupError (e : exn).

(** [df[df['Employer Name'] == company_name]] *)
Definition company_rows (report : almighty_report) (company_name : string)
  : list Almighty.row :=
  filter (λ r, Almighty.Employer_Name r = Text company_name) (report_rows report).

(** The [try] block of [Dashboard.vlookup], up to the preview of the
    table. *)
Definition vlookup (report : almighty_report) (company_name : string)
  : vlookup_outcome :=
  match filter (λ col, col ∉ report_columns report) required_columns with
  | (_ :: _) as missing_columns => MissingColumns missing_columns
  | [] =>
      let company_df := company_rows report company_name in
      match company_df with
      | [] => NoCompanyData
      | _ :: _ =>
          match Series_str_strip (map Almighty.Ssnit (report_rows report))
                  (map Almighty.Ssnit company_df) with
          | Raise e => VlookupError e
          | Ok ssnit => VlookupTable (zip_with vlookup_row company_df ssnit)
          end
      end
  end.

(** The lookup table as [Dashboard.validation] reads it. *)
Definition as_vlookup_row (r : Company.row) : Vlookup.row :=
  Vlookup.Row (Company.Ssnit r) (Company.Accountno r) (Company.Surname r)
    (Company.First_Name r) (Company.Other_Names r).

(** A report of two companies. *)
Definition sample_report : almighty_report :=
  Report
    ["Employer Name"; "Ssnit"; "Surname"; "First Name"; "Other Names";
     "Client Account Number"; "Accountno"; "Branch"]
    [Almighty.Row (Text "111") (Text "Mensah") (Text "Ama") NaN (Text " A1 ")
       (Text "x1") (Text "Acme");
     Almighty.Row (Text "222") (Text "Owusu") (Text "Kofi") NaN (Text "B2")
       NaN (Text "Other Ltd");
     Almighty.Row (Text "333") (Text "Boateng") NaN NaN NaN
       (Text "x3") (Text "Acme")].

(** ** [Dashboard.validation]: files that lack a column *)

(** A schedule file as read: the names of its columns, and its rows.  A row
    holds the missing value in a column that the file does not have. *)
Record sheet := Sheet {
  sheet_columns : list string;
  sheet_rows : list Schedule.row }.

(** What the [try] block of a file ends with: the frame written, or the
    exception raised; [df[name]] raises [KeyError] for the columns that the
    frame does not have. *)
Inductive outcome (A : Type) :=
  | Written (a : A)
  | KeyError (columns : list string)
  | Raised (e : exn).
Arguments Written {A} a.
Arguments KeyError {A} columns.
Arguments Raised {A} e.

(** [data.items()] *)
Definition entry_items (data : Validation.entry) : list (string * option cell) :=
  [("accountno", Validation.accountno data);
   ("surname", Validation.surname data);
   ("first_name", Validation.first_name data);
   ("other_name", Validation.other_name data)].

(** The fields that the mapping loop assigns in some row:
    [df.loc[mask, field] = value] adds the column [field] to a frame that
    does not have it. *)
Definition assigned_fields (vlookup_dict : gmap string Validation.entry)
  (df : list Schedule.row) : list string :=
  ssnit_num ← unique (map Schedule.ssnit df);
  match dict_get vlookup_dict ssnit_num with
  | Some data =>
      map fst (filter (λ kv, Validation.truthy kv.2 = true) (entry_items data))
  | None => []
  end.

Definition output_columns : list string :=
  ["accountno"; "surname"; "first_name"; "other_name"; "ssnit"; "tier1"; "tier2"].

(** The [try] block of one file, on a file with any columns. *)
Definition validate_sheet (vlookup_dict : gmap string Validation.entry)
  (sh : sheet) : outcome (list Output.row) :=
  if bool_decide ("ssnit" ∈ sheet_columns sh) then
    let df0 :=
      zip_with set_schedule_ssnit (sheet_rows sh)
        (Series_astype_str_strip (map Schedule.ssnit (sheet_rows sh))) in
    let df1 := map_ssnit_data vlookup_dict df0 in
    let columns1 := sheet_columns sh ++ assigned_fields vlookup_dict df0 in
    if bool_decide ("salary" ∈ columns1) then
      match to_numeric errors_coerce
              (map (λ r, salary_text (Schedule.salary r)) df1) with
      | Raise e => Raised e
      | Ok salary =>
          let columns2 := columns1 ++ ["tier1"; "tier2"] in
          match filter (λ col, col ∉ columns2) output_columns with
          | [] => Written (zip_with output_row df1 salary)
          | (_ :: _) as missing => KeyError missing
          end
      end
    else KeyError ["salary"]
  else KeyError ["ssnit"].

(** A schedule file that has an identifier and a salary column only, and a
    row of it. *)
Definition bare_sheet : sheet :=
  Sheet ["ssnit"; "salary"]
    [Schedule.Row (Text "A1") NaN NaN NaN NaN (Text "100");
     Schedule.Row (Text "Z9") NaN NaN NaN NaN (Text "200")].

(** ** [Dashboard.find_my_schedule] *)

Definition is_digit (c : ascii) : bool :=
  match digit_of c with Some _ => true | None => false end.

(** The underscores of the text given to [float]: each stands after a digit
    and before a digit.  [prev] is the character before [s]. *)
Fixpoint underscores_ok (prev : ascii) (s : string) : bool :=
  match s with
  | "" => negb (Ascii.eqb prev "_")
  | String c s' =>
      (if Ascii.eqb c "_" then is_digit prev
       else if Ascii.eqb prev "_" then is_digit c else true)
      && underscores_ok c s'
  end.

(** [float(s)] on text: surrounding whitespace is dropped, underscores
    between digits are dropped, and the rest is a decimal literal, an
    infinity or a NaN; [None] stands for [ValueError]. *)
Definition float (s : string) : option spec_float :=
  let t := Py.strip s in
  if underscores_ok Ascii.zero t then parse_float (Py.remove_char "_" t)
  else None.

Module Search.

Inductive search_type := VLOOKUP_File | Schedule_Files | Both.

(** A row of a schedule file, and the file as the search reads it: the
    names of its columns, and its rows. *)
Record row := Row { ssnit : cell; name : cell; salary : cell }.

Record sheet := Sheet { columns : list string; rows : list row }.

(** An element of [found_records]; the keys [Name] and [Salary] are set
    when the file has the column. *)
Record record := Record {
  Folder : string; File : string; SSNIT : string;
  Name : option cell; Salary : option spec_float }.

End Search.

(** [str(row['salary']).strip().replace(',', '').replace(' ', '')] *)
Definition salary_str (c : cell) : string :=
  Py.remove_char " " (Py.remove_char "," (Py.strip (str c))).

(** The record of a matching row whose salary, if read, is [salary_value]. *)
Definition found_record (folder file ssnit_number : string) (columns : list string)
  (row : Search.row) (salary_value : option spec_float) : Search.record :=
  {| Search.Folder := folder; Search.File := file; Search.SSNIT := ssnit_number;
     Search.Name :=
       if bool_decide ("name" ∈ columns) then Some (Search.name row) else None;
     Search.Salary := salary_value |}.

(** [for _, row in matches.iterrows()]: the records found so far, and the
    exception that ends the loop, if any. *)
Fixpoint search_matches (folder file ssnit_number : string) (columns : list string)
  (matches : list Search.row) (found_records : list Search.record)
  : list Search.record * option exn :=
  match matches with
  | [] => (found_records, None)
  | row :: rest =>
      if bool_decide ("salary" ∈ columns) then
        match float (salary_str (Search.salary row)) with
        | Some salary_value =>
            search_matches folder file ssnit_number columns rest
              (found_records
               ++ [found_record folder file ssnit_number columns row
                     (Some salary_value)])
        | None => (found_records, Some ValueError)
        end
      else
        search_matches folder file ssnit_number columns rest
          (found_records
           ++ [found_record folder file ssnit_number columns row None])
  end.

(** [df[df['ssnit'] == ssnit_number]] on the cleaned column. *)
Definition ssnit_matches (ssnit_number : string) (rows : list Search.row)
  : list Search.row :=
  filter (λ r, Py.strip (str (Search.ssnit r)) = ssnit_number) rows.

(** The [try] block of one file. *)
Definition search_file (folder file ssnit_number : string) (sh : Search.sheet)
  (found_records : list Search.record) : list Search.record * option exn :=
  if bool_decide ("ssnit" ∈ Search.columns sh) then
    search_matches folder file ssnit_number (Search.columns sh)
      (ssnit_matches ssnit_number (Search.rows sh)) found_records
  else (found_records, None).

(** The file filter of the search. *)
Definition searched_file (company_name file : string) : bool :=
  Py.endswith ".xlsx" (lower file)
  && negb (existsb (λ p, Py.startswith p file)
             ["vlookup_" +:+ company_name; "duplicate_ssnit_" +:+ company_name;
              "._"; "~$"; "duplicate_"]).

(** The loops over the folders and their files: the records found, and the
    files for which an error is shown.  A file is given with its folder and
    its name. *)
Definition search_step (company_name ssnit_number : string)
  (st : list Search.record * list (string * string))
  (f : string * string * Search.sheet)
  : list Search.record * list (string * string) :=
  let '(folder, file, sh) := f in
  if searched_file company_name file then
    match search_file folder file ssnit_number sh st.1 with
    | (found_records, None) => (found_records, st.2)
    | (found_records, Some _) => (found_records, st.2 ++ [(folder, file)])
    end
  else st.

Definition search_schedules (company_name ssnit_number : string)
  (files : list (string * string * Search.sheet))
  : list Search.record * list (string * string) :=
  foldl (search_step company_name ssnit_number) ([], []) files.

(** [vlookup_matches]: assigned only when the lookup table is searched and
    exists. *)
Definition vlookup_matches (search_type : Search.search_type)
  (vlookup_file : option (list Vlookup.row)) (ssnit_number : string)
  : option (list Vlookup.row) :=
  match search_type with
  | Search.Schedule_Files => None
  | _ =>
      filter (λ r, Py.strip (str (Vlookup.Ssnit r)) = ssnit_number)
      <$> vlookup_file
  end.

(** [found_records] after the searches. *)
Definition found_records (search_type : Search.search_type)
  (company_name ssnit_number : string)
  (files : list (string * string * Search.sheet)) : list Search.record :=
  match search_type with
  | Search.VLOOKUP_File => []
  | _ => (search_schedules company_name ssnit_number files).1
  end.

(** The end of the search: whether the export is offered, or the exception
    that the outer handler reports; reading a local name that has not been
    assigned raises [UnboundLocalError]. *)
Inductive search_end := ExportOffered (offered : bool) | UnboundLocalError.

(** The condition of the export, evaluated from left to right. *)
Definition export_condition (search_type : Search.search_type)
  (vlookup_matches : option (list Vlookup.row))
  (found_records : list Search.record) : search_end :=
  let schedule_part :=
    match search_type with
    | Search.VLOOKUP_File => false
    | _ => bool_decide (found_records ≠ [])
    end in
  match search_type with
  | Search.Schedule_Files => ExportOffered schedule_part
  | _ =>
      match vlookup_matches with
      | None => UnboundLocalError
      | Some [] => ExportOffered schedule_part
      | Some (_ :: _) => ExportOffered true
      end
  end.

(** [Find SSNIT Number]: the records shown and the end of the search. *)
Definition find_my_schedule (search_type : Search.search_type)
  (company_name ssnit_number : string)
  (vlookup_file : option (list Vlookup.row))
  (files : list (string * string * Search.sheet))
  : list Search.record * search_end :=
  let records := found_records search_type company_name ssnit_number files in
  (records,
   export_condition search_type
     (vlookup_matches search_type vlookup_file ssnit_number) records).

(** Two schedule files: in the second, the second row of the identifier
    ["A1"] has a salary that is not a number. *)
Definition search_files : list (string * string * Search.sheet) :=
  [("Jan", "jan.xlsx",
    Search.Sheet ["ssnit"; "name"; "salary"]
      [Search.Row (Text " A1") (Text "Ama Mensah") (Text "1 000");
       Search.Row (Text "B2") (Text "Kofi Owusu") (Text "200")]);
   ("Feb", "feb.xlsx",
    Search.Sheet ["ssnit"; "salary"]
      [Search.Row (Text "A1") NaN (Text "1_000.5");
       Search.Row (Text "A1") NaN (Text "n/a");
       Search.Row (Text "A1") NaN (Text "300")])].

(** ** Characters of a text *)




(** ** [Dashboard.ssnit_search] *)

(** The end of the search: the table of results, the message that nothing
    was found, or the exception that the handler around the whole search
    reports. *)
Inductive ssnit_search_end :=
  | ResultsTable (results : list (string * string))
  | NoMatchesFound
  | NameKeyError
  | JoinTypeError.

(** [match['name'].tolist()] when every name is text; [', '.join] raises
    [TypeError] on a missing value. *)
Definition match_names (matches : list Search.row) : option (list string) :=
  mapM (λ r, match Search.name r with Text s => Some s | NaN => None end) matches.

(** The body of the loop over the files, for one file: nothing to add, an
    entry [(File, Names)] to add, or an exception. *)
Inductive file_search :=
  | Nothing
  | AddEntry (File Names : string)
  | Stop (e : ssnit_search_end).

Definition ssnit_search_file (ssnit_number : string) (f : string * Search.sheet)
  : file_search :=
  if existsb (λ p, Py.startswith p f.1) ["vlookup_"; "duplicate_ssnit_"]
  then Nothing
  else if bool_decide ("ssnit" ∈ Search.columns f.2) then
    match ssnit_matches ssnit_number (Search.rows f.2) with
    | [] => Nothing
    | (_ :: _) as matches =>
        if bool_decide ("name" ∈ Search.columns f.2) then
          match match_names matches with
          | Some names => AddEntry f.1 (Py.join ", " names)
          | None => Stop JoinTypeError
          end
        else Stop NameKeyError
    end
  else Nothing.

(** The loop over the files that [glob("*.xlsx")] gives. *)
Fixpoint ssnit_search_loop (ssnit_number : string)
  (files : list (string * Search.sheet)) (results : list (string * string))
  : ssnit_search_end :=
  match files with
  | [] =>
      match results with
      | [] => NoMatchesFound
      | _ :: _ => ResultsTable results
      end
  | f :: rest =>
      match ssnit_search_file ssnit_number f with
      | Nothing => ssnit_search_loop ssnit_number rest results
      | AddEntry File Names =>
          ssnit_search_loop ssnit_number rest (results ++ [(File, Names)])
      | Stop e => e
      end
  end.

(** [Search], for a number that is not empty. *)
Definition ssnit_search (ssnit_number : string)
  (files : list (string * Search.sheet)) : ssnit_search_end :=
  ssnit_search_loop ssnit_number files [].

(** The entries that the files add when none raises. *)
Definition search_entries (ssnit_number : string)
  (files : list (string * Search.sheet)) : list (string * string) :=
  f ← files;
  match ssnit_search_file ssnit_number f with
  | AddEntry File Names => [(File, Names)]
  | _ => []
  end.

(** Three files of a folder: the last has a row of the identifier ["A1"]
    and no [name] column. *)
Definition searched_folder : list (string * Search.sheet) :=
  [("jan.xlsx",
    Search.Sheet ["ssnit"; "name"; "salary"]
      [Search.Row (Text " A1") (Text "Ama Mensah") (Text "100");
       Search.Row (Text "A1") (Text "A. Mensah") (Text "100")]);
   ("vlookup_Acme.xlsx",
    Search.Sheet ["ssnit"] [Search.Row (Text "A1") NaN NaN]);
   ("feb.xlsx",
    Search.Sheet ["ssnit"; "salary"] [Search.Row (Text "A1") NaN (Text "100")])].

(** A row of the lookup table without identifier, and a schedule row
    without identifier. *)
Definition unidentified_vlookup_row : Vlookup.row :=
  Vlookup.Row NaN (Text " 777 ") (Text "Ghost") NaN NaN.

Definition unidentified_schedule_row : Schedule.row :=
  Schedule.Row NaN (Text "old") (Text "Mensah") NaN NaN (Text "50").

(** * Properties *)

(** ** Strings *)

Lemma rstrip_idemp s : Py.rstrip (Py.rstrip s) = Py.rstrip s.
Proof.
  induction s as [|a s IH]; [done|]. simpl.
  destruct (Py.rstrip s) as [|b r] eqn:E.
  - destruct (Py.isspace a) eqn:Ha; [done|]. simpl. by rewrite Ha.
  - simpl in *. by rewrite IH.
Qed.

Lemma lstrip_head s :
  match Py.lstrip s with
  | "" => True
  | String c _ => Py.isspace c = false
  end.
Proof.
  induction s as [|a s IH]; [done|]. simpl.
  destruct (Py.isspace a) eqn:Ha; [done|]. by simpl.
Qed.

Lemma rstrip_keeps_head c s :
  Py.isspace c = false → ∃ r, Py.rstrip (String c s) = String c r.
Proof.
  intros Hc. simpl. destruct (Py.rstrip s); rewrite ?Hc; eauto.
Qed.

Lemma strip_idemp s : Py.strip (Py.strip s) = Py.strip s.
Proof.
  unfold Py.strip. pose proof (lstrip_head s) as Hh.
  destruct (Py.lstrip s) as [|c t] eqn:E; [done|].
  destruct (rstrip_keeps_head c t Hh) as [r Hr]. rewrite Hr.
  replace (Py.lstrip (String c r)) with (String c r) by (simpl; by rewrite Hh).
  rewrite <- Hr. apply rstrip_idemp.
Qed.

(** ** The loops of [create_comprehensive_mapping], one identifier at a time *)

Lemma foldl_lookup {A R} (step : gmap string A → R → gmap string A)
  (at_key : string → option A → R → option A) :
  (∀ m r k, step m r !! k = at_key k (m !! k) r) →
  ∀ rows m k, foldl step m rows !! k = foldl (at_key k) (m !! k) rows.
Proof.
  intros Hstep rows. induction rows as [|r rows IH]; intros m k; [done|].
  simpl. by rewrite IH, Hstep.
Qed.

Lemma foldl_filter {A R} (f : A → R → A) (P : R → bool) :
  (∀ a r, P r = false → f a r = a) →
  ∀ rows a, foldl f a rows = foldl f a (filter (λ r, P r = true) rows).
Proof.
  intros Hf rows. induction rows as [|r rows IH]; intros a; [done|].
  rewrite filter_cons. destruct (P r) eqn:HP.
  - rewrite decide_True by done. simpl. apply IH.
  - rewrite decide_False by (by intros ?). simpl. rewrite Hf by done. apply IH.
Qed.










Lemma Forall_filter_true {A} (P : A → bool) (l : list A) :
  Forall (λ r, P r = true) (filter (λ r, P r = true) l).
Proof. apply Forall_forall. intros x Hx. by apply list_elem_of_filter in Hx as [? _]. Qed.





(** ** The dictionary of [Dashboard.validation], one identifier at a time *)

Lemma validation_vlookup_step_lookup m r k :
  Validation.vlookup_step m r !! k = validation_vlookup_at k (m !! k) r.
Proof.
  unfold Validation.vlookup_step, validation_vlookup_at.
  case_bool_decide as Hk.
  - subst k. by rewrite lookup_insert_eq.
  - by rewrite lookup_insert_ne.
Qed.

Lemma validation_master_step_lookup m r k :
  Validation.master_step m r !! k = validation_master_at k (m !! k) r.
Proof.
  unfold Validation.master_step, validation_master_at.
  case_bool_decide as Hk.
  - subst k. destruct (m !! _); by rewrite lookup_insert_eq.
  - destruct (m !! Validation.key_of _); by rewrite lookup_insert_ne.
Qed.

Lemma validation_dict_lookup vl ms k :
  Validation.vlookup_dict vl ms !! k
  = foldl (validation_master_at k) (Validation.primary_dict vl !! k)
      (filter (λ r, validation_has_key k r = true) ms).
Proof.
  unfold Validation.vlookup_dict.
  rewrite (foldl_lookup _ validation_master_at validation_master_step_lookup).
  apply (foldl_filter _ (validation_has_key k)). intros a r Hr.
  unfold validation_master_at. unfold validation_has_key in Hr. by rewrite Hr.
Qed.

Lemma fill_from_truthy v l : Validation.truthy v = true → fill_from v l = v.
Proof. intros Hv. destruct l; [done|]. simpl. by rewrite Hv. Qed.


(** The fallback loop on an existing entry: each field keeps a populated
    value, and the account number follows [fill_from]. *)
Lemma validation_master_at_Some k e ms :
  Forall (λ r, validation_has_key k r = true) ms →
  ∃ e', foldl (validation_master_at k) (Some e) ms = Some e'
    ∧ Validation.accountno e'
      = fill_from (Validation.accountno e)
          (map (λ r, Validation.stripped_or_None (MasterReport.Client_Account_Number r)) ms)
    ∧ Validation.surname e'
      = fill_from (Validation.surname e) (map (λ r, Some (MasterReport.Surname r)) ms)
    ∧ Validation.first_name e'
      = fill_from (Validation.first_name e) (map (λ r, Some (MasterReport.First_Name r)) ms)
    ∧ Validation.other_name e'
      = fill_from (Validation.other_name e) (map (λ r, Some (MasterReport.Other_Names r)) ms).
Proof.
  intros Hall. revert e. induction Hall as [|r ms Hr _ IH]; intros e.
  - exists e. by simpl.
  - simpl foldl. unfold validation_master_at at 2.
    unfold validation_has_key in Hr. rewrite Hr.
    destruct (IH (Validation.fill_missing r e)) as (e' & -> & Ha & Hs & Hf & Ho).
    exists e'. split; [done|]. rewrite Ha, Hs, Hf, Ho. simpl.
    repeat split.
    + destruct (Validation.truthy (Validation.accountno e)) eqn:E; [|done].
      by apply fill_from_truthy.
    + destruct (Validation.truthy (Validation.surname e)) eqn:E; [|done].
      by apply fill_from_truthy.
    + destruct (Validation.truthy (Validation.first_name e)) eqn:E; [|done].
      by apply fill_from_truthy.
    + destruct (Validation.truthy (Validation.other_name e)) eqn:E; [|done].
      by apply fill_from_truthy.
Qed.

(** ** Precedence of the primary source *)



(** ** Identifiers that are empty after trimming *)

(** C4, at the failing input.  The dictionary that [Dashboard.validation]
    builds takes no notice of an empty identifier: a primary row, or a
    fallback row, whose identifier cell holds only blanks is stored under
    the key [""], and a row whose identifier cell is missing is stored
    under the key ["nan"].  The loops of [create_comprehensive_mapping]
    skip the same rows. *)
Theorem validation_dict_keeps_empty_identifier :
  Py.strip (str (Vlookup.Ssnit blank_vlookup_row)) = ""
  ∧ Validation.vlookup_dict [blank_vlookup_row] [] !! ""
    = Some (Validation.Entry (Some (Text "111")) (Some (Text "Mensah")) None None)
  ∧ Validation.vlookup_dict [] [blank_master_row] !! ""
    = Some (Validation.Entry (Some (Text "222")) (Some (Text "Owusu")) None None)
  ∧ Validation.vlookup_dict [] [missing_master_row] !! "nan"
    = Some (Validation.Entry (Some (Text "333")) (Some (Text "Boateng")) None None)
  ∧ mapping_of_rows [blank_vlookup_row] [blank_master_row; missing_master_row] = ∅.
Proof. repeat split; reflexivity. Qed.




(** ** Order of the rows *)






(** ** The annotator of [Dashboard.validation] is a map over the rows *)

Lemma elem_of_unique x l : x ∈ unique l ↔ x ∈ l.
Proof.
  induction l as [|y l IH]; [done|]. simpl.
  rewrite !elem_of_cons, list_elem_of_filter, IH.
  split; [intros [?|[? ?]]; auto|].
  intros [?|?]; [by left|]. destruct (decide (x = y)); auto.
Qed.

Lemma NoDup_unique l : NoDup (unique l).
Proof.
  induction l as [|y l IH]; simpl; [constructor|].
  constructor; [|by apply NoDup_filter].
  rewrite list_elem_of_filter. by intros [? _].
Qed.

Lemma ssnit_map_ssnit_row d r u :
  Schedule.ssnit (map_ssnit_row d r u) = Schedule.ssnit r.
Proof.
  unfold map_ssnit_row. destruct (dict_get d u); [|done].
  by destruct (cell_eqb _ _).
Qed.

Lemma map_ssnit_foldl_rows d us df :
  foldl (map_ssnit_step d) df us = map (λ r, foldl (map_ssnit_row d) r us) df.
Proof.
  revert df. induction us as [|u us IH]; intros df; simpl.
  - symmetry. apply map_id.
  - rewrite IH. unfold map_ssnit_step. destruct (dict_get d u) eqn:E.
    + rewrite map_map. apply map_ext. intros r. f_equal.
      unfold map_ssnit_row. by rewrite E.
    + apply map_ext. intros r. f_equal. unfold map_ssnit_row. by rewrite E.
Qed.

Lemma cell_eqb_true a b : cell_eqb a b = true → a = b ∧ ∃ s, a = Text s.
Proof.
  destruct a, b; simpl; try done. intros ->%bool_decide_eq_true. eauto.
Qed.

Lemma map_ssnit_row_unmatched d r us :
  Forall (λ u, cell_eqb (Schedule.ssnit r) u = false) us →
  foldl (map_ssnit_row d) r us = r.
Proof.
  induction 1 as [|u us Hu _ IH]; [done|]. simpl.
  assert (map_ssnit_row d r u = r) as ->; [|done].
  unfold map_ssnit_row. rewrite Hu. by destruct (dict_get d u).
Qed.

Lemma map_ssnit_row_fold d r us :
  NoDup us → Schedule.ssnit r ∈ us →
  foldl (map_ssnit_row d) r us = annotate_row d r.
Proof.
  intros Hnd Hin. destruct (Schedule.ssnit r) as [|s] eqn:Es.
  { unfold annotate_row. rewrite Es. simpl.
    apply map_ssnit_row_unmatched, Forall_forall. intros u _. by rewrite Es. }
  induction Hnd as [|u us Hu Hnd IH]; [by apply elem_of_nil in Hin|].
  simpl. apply elem_of_cons in Hin as [Hin|Hin].
  - subst u.
    assert (map_ssnit_row d r (Text s) = annotate_row d r) as ->.
    { unfold map_ssnit_row, annotate_row. rewrite Es. simpl.
      by rewrite bool_decide_eq_true_2. }
    assert (∀ r', Schedule.ssnit r' = Text s → foldl (map_ssnit_row d) r' us = r')
      as Hrest.
    { intros r' Er'. apply map_ssnit_row_unmatched, Forall_forall.
      intros u Hin. rewrite Er'. destruct (cell_eqb (Text s) u) eqn:E; [|done].
      apply cell_eqb_true in E as [<- _]. done. }
    apply Hrest. unfold annotate_row. rewrite Es. simpl.
    by destruct (d !! s).
  - assert (cell_eqb (Schedule.ssnit r) u = false) as Hne.
    { rewrite Es. destruct (cell_eqb (Text s) u) eqn:E; [|done].
      apply cell_eqb_true in E as [<- _]. done. }
    assert (map_ssnit_row d r u = r) as ->; [|by apply IH].
    unfold map_ssnit_row. rewrite Hne. by destruct (dict_get d u).
Qed.

Lemma map_ssnit_data_map d df :
  map_ssnit_data d df = map (annotate_row d) df.
Proof.
  unfold map_ssnit_data. rewrite map_ssnit_foldl_rows.
  apply map_ext_in. intros r Hr. apply map_ssnit_row_fold.
  - apply NoDup_unique.
  - apply elem_of_unique, list_elem_of_fmap. exists r. split; [done|].
    by apply list_elem_of_In.
Qed.

(** ** The row loop of [process_schedule_files] is a map over the rows *)




Lemma filter_none {A} (P : A → Prop) `{∀ x, Decision (P x)} (l : list A) :
  Forall (λ x, ¬ P x) l → filter P l = [].
Proof.
  induction 1 as [|x l Hx _ IH]; [done|]. by rewrite filter_cons_False.
Qed.





(** ** What the annotators do to one row *)




(** ** Salary and tiers *)

Lemma zip_with_map_r {A B C} (f : A → B → C) (g : A → B) (l : list A) :
  zip_with f l (map g l) = map (λ x, f x (g x)) l.
Proof. induction l as [|x l IH]; simpl; [done|]. by rewrite IH. Qed.

Lemma validate_file_rows d rows :
  validate_file d rows = Ok (map (validated_row d) rows).
Proof.
  unfold validate_file, to_numeric, Series_astype_str_strip.
  rewrite map_map, zip_with_map_r, map_ssnit_data_map, !map_map.
  f_equal.
  rewrite <- (map_map (λ r, annotate_row d
                 (set_schedule_ssnit r (Text (Py.strip (str (Schedule.ssnit r))))))
            (λ r', default S754_nan (parse_float (salary_text (Schedule.salary r'))))).
  rewrite <- (map_map (λ r, set_schedule_ssnit r (Text (Py.strip (str (Schedule.ssnit r)))))
                (annotate_row d)).
  rewrite zip_with_map_r, !map_map. apply map_ext. intros r.
  unfold validated_row, salary_of. f_equal.
  unfold annotate_row. simpl. destruct (d !! _); done.
Qed.

(** C3, as amended.  Every row that [Dashboard.validation] writes has
    [tier1 = 0] and [tier2] equal to the binary64 product of its salary
    and [0.05], the salary being the number read from the cell after the
    commas and the surrounding blanks are removed.  For the salary
    ["12,345.50"] the salary is 12345.5 and [tier2] is
    5429608320283444 * 2^-43 (617.2750000000001 to sixteen digits): it
    exceeds 617.275 by less than 2^-43, is one unit in the last place
    above the binary64 number nearest to 617.275, and prints as 617.28
    with two decimals. *)
Theorem tiers_of_validated_rows
  (vlookup_dict : gmap string Validation.entry) (rows : list Schedule.row)
  (i : nat) (r : Schedule.row) :
  rows !! i = Some r →
  (∃ outs out,
     validate_file vlookup_dict rows = Ok outs
     ∧ outs !! i = Some out
     ∧ Output.tier1 out = 0%Z
     ∧ Output.tier2 out
       = fmul (default S754_nan
                 (parse_float (Py.strip (Py.remove_char "," (str (Schedule.salary r))))))
           float_0_05)
  ∧ parse_float (Py.strip (Py.remove_char "," "12,345.50"))
    = Some (S754_finite false 6787010400354304 (-39))
  ∧ (6787010400354304 = 12345 * 2 ^ 39 + 2 ^ 38)%Z
  ∧ fmul (S754_finite false 6787010400354304 (-39)) float_0_05
    = S754_finite false 5429608320283444 (-43)
  ∧ (0 < 5429608320283444 * 1000 - 617275 * 2 ^ 43 < 1000)%Z
  ∧ decimal_to_float false 617275 (-3)
    = S754_finite false 5429608320283443 (-43)
  ∧ format_2f (S754_finite false 5429608320283444 (-43)) = "617.28".
Proof.
  intros Hi. split; [|by vm_compute].
  exists (map (validated_row vlookup_dict) rows), (validated_row vlookup_dict r).
  split; [apply validate_file_rows|].
  split; [by rewrite list_lookup_fmap, Hi|]. done.
Qed.

Lemma tiers_of_validated_rows_witness :
  ∃ outs out,
    validate_file sample_dict sample_schedule = Ok outs
    ∧ outs !! 0%nat = Some out
    ∧ Output.tier1 out = 0%Z
    ∧ Output.tier2 out = S754_finite false 5429608320283444 (-43).
Proof.
  destruct (tiers_of_validated_rows sample_dict sample_schedule 0%nat
              (Schedule.Row (Text "A1") (Text "old") (Text "M.") (Text "Ama")
                 (Text "Kwame") (Text "12,345.50")) eq_refl)
    as [(outs & out & Hv & Ho & H1 & H2) _].
  exists outs, out. repeat split; [exact Hv|exact Ho|exact H1|].
  rewrite H2. reflexivity.
Defined.

(** C3, as stated, fails in its example: the [tier2] stored for the salary
    ["12,345.50"] is not the number 617.275 (the binary64 number nearest to
    it), and does not print like it with two decimals. *)
Lemma tier2_of_12345_50_is_not_617_275 :
  ∃ out, validate_file ∅ [salary_row] = Ok [out]
    ∧ Output.tier2 out ≠ decimal_to_float false 617275 (-3)
    ∧ format_2f (Output.tier2 out) = "617.28"
    ∧ format_2f (decimal_to_float false 617275 (-3)) = "617.27".
Proof.
  eexists. split; [reflexivity|]. split; [|split; reflexivity].
  vm_compute. discriminate.
Qed.

(** ** Salaries that are not numbers *)

Lemma mapM_parse_None (col : list string) (s : string) :
  s ∈ col → parse_float s = None → mapM parse_float col = None.
Proof.
  intros Hin Hs. destruct (mapM parse_float col) as [xs|] eqn:E; [|done].
  apply mapM_Some in E.
  apply list_elem_of_lookup in Hin as [j Hj].
  destruct (Forall2_lookup_l _ _ _ _ _ E Hj) as (x & _ & Hx). congruence.
Qed.

(** C8.  [Dashboard.validation] reads the salaries with
    [errors='coerce']: a file is always processed, whatever its salary
    cells hold; it keeps all its rows; a row whose salary is not a number
    gets the missing value as salary and as [tier2]; every row whose salary
    is a number gets its [tier2], whatever the other rows hold.  With
    [errors='raise'] the same column would raise.  Every file of a run is
    tried and processed. *)
Theorem unparseable_salary_is_coerced
  (vlookup_dict : gmap string Validation.entry) (rows : list Schedule.row) :
  (∃ outs salaries,
     validate_file vlookup_dict rows = Ok outs
     ∧ to_numeric errors_coerce (map (λ r, salary_text (Schedule.salary r)) rows)
       = Ok salaries
     ∧ length outs = length rows
     ∧ ∀ (i : nat) (r : Schedule.row),
         rows !! i = Some r →
         ∃ out, outs !! i = Some out
           ∧ (parse_float (salary_text (Schedule.salary r)) = None →
              salaries !! i = Some S754_nan
              ∧ Output.tier2 out = S754_nan
              ∧ to_numeric errors_raise
                  (map (λ r, salary_text (Schedule.salary r)) rows)
                = Raise ValueError)
           ∧ (∀ x, parse_float (salary_text (Schedule.salary r)) = Some x →
              salaries !! i = Some x
              ∧ Output.tier2 out = fmul x float_0_05))
  ∧ (∀ files : list (list Schedule.row),
       validation_statuses vlookup_dict files = replicate (length files) Processed).
Proof.
  split.
  - exists (map (validated_row vlookup_dict) rows),
      (map (λ s, default S754_nan (parse_float s))
         (map (λ r, salary_text (Schedule.salary r)) rows)).
    split; [apply validate_file_rows|]. split; [done|].
    split; [by rewrite length_map|].
    intros i r Hi. exists (validated_row vlookup_dict r).
    split; [by rewrite list_lookup_fmap, Hi|].
    rewrite !list_lookup_fmap, Hi. simpl. unfold salary_of. split.
    + intros Hp. rewrite Hp. simpl. repeat split.
      erewrite mapM_parse_None; [done| |exact Hp].
      apply list_elem_of_fmap. exists r. split; [done|].
      by apply list_elem_of_lookup_2 in Hi.
    + intros x Hp. by rewrite Hp.
  - intros files. unfold validation_statuses.
    induction files as [|f files IH]; [done|].
    by rewrite map_cons, validate_file_rows, IH.
Qed.

Lemma unparseable_salary_is_coerced_witness :
  ∃ outs out,
    validate_file sample_dict sample_schedule = Ok outs
    ∧ outs !! 1%nat = Some out
    ∧ Output.tier2 out = S754_nan
    ∧ length outs = 4%nat.
Proof.
  destruct (unparseable_salary_is_coerced sample_dict sample_schedule)
    as [(outs & salaries & Hv & _ & Hlen & Hrows) _].
  destruct (Hrows 1%nat (Schedule.Row (Text "C3") NaN (Text "B.") NaN NaN (Text "n/a"))
              eq_refl) as (out & Ho & Hnan & _).
  exists outs, out. repeat split; [exact Hv|exact Ho| |exact Hlen].
  by destruct (Hnan eq_refl) as (_ & H & _).
Defined.

(** ** The word-sorted name key *)















(** ** Identifiers and keys *)


Lemma key_of_strip c : Validation.key_of c = Py.strip (str c).
Proof. unfold Validation.key_of, Validation.clean_ssnit. simpl. apply strip_idemp. Qed.






(** ** The cleaning statement of [create_comprehensive_mapping] *)

(** The statement that cleans the identifier column calls [upper] on a
    Series: [create_comprehensive_mapping] raises [AttributeError] for
    every pair of frames, before any row is read, and the [try] block of
    [process_schedule_files] raises it for every file. *)
Theorem create_comprehensive_mapping_raises :
  (∀ (vlookup_df : list Vlookup.row) (master_df : list MasterReport.row),
     create_comprehensive_mapping vlookup_df master_df = Raise AttributeError)
  ∧ (∀ (file : string) (ssnit_mapping : gmap string entry)
       (rows : list Schedule.row),
       process_schedule_file file ssnit_mapping rows = Raise AttributeError).
Proof. split; reflexivity. Qed.

(** ** File names *)

Lemma contains_char_app x a b :
  Py.contains_char x (a +:+ b) = Py.contains_char x a || Py.contains_char x b.
Proof.
  induction a as [|c a IH]; [done|].
  change (String c a +:+ b) with (String c (a +:+ b)). simpl.
  by rewrite IH, orb_assoc.
Qed.

Lemma new_filename_underscore file total :
  Py.contains_char "_" (new_filename file total) = true.
Proof.
  unfold new_filename. rewrite !contains_char_app. simpl.
  by rewrite orb_true_r.
Qed.

Lemma selected_no_underscore file :
  selected file = true → Py.contains_char "_" file = false.
Proof.
  unfold selected. intros H. apply andb_true_iff in H as [_ H].
  by apply negb_true_iff in H.
Qed.

Lemma new_filename_not_selected file total :
  selected (new_filename file total) = false.
Proof.
  unfold selected. rewrite new_filename_underscore. simpl.
  by rewrite andb_false_r.
Qed.

Lemma target_key_ne f col k :
  Py.contains_char "_" k.2 = false → k ≠ target_key f col.
Proof.
  intros Hk ->. unfold target_key in Hk. simpl in Hk.
  by rewrite new_filename_underscore in Hk.
Qed.

Lemma endswith_app p s : Py.endswith p s = true → ∃ root, s = root +:+ p.
Proof.
  induction s as [|c s IH]; simpl.
  - rewrite orb_false_r. intros ->%String.eqb_eq. by exists "".
  - intros [->%String.eqb_eq|H]%orb_true_iff; [by exists ""|].
    destruct (IH H) as [root ->]. by exists (String c root).
Qed.

Lemma split_last_dot_xlsx root :
  split_last_dot (root +:+ ".xlsx") = Some (root, ".xlsx").
Proof.
  induction root as [|c root IH]; [done|].
  change (String c root +:+ ".xlsx") with (String c (root +:+ ".xlsx")).
  simpl. by rewrite IH.
Qed.

(** The extension of a selected file is [.xlsx], unless its name is dots
    followed by [xlsx]. *)
Lemma splitext_xlsx root :
  splitext (root +:+ ".xlsx")
  = if all_dots root then (root +:+ ".xlsx", "") else (root, ".xlsx").
Proof. unfold splitext. by rewrite split_last_dot_xlsx. Qed.

(** ** One file of the batch *)

Lemma append_total_file_Ok p fs f fs1 :
  append_total_file p fs f = Ok fs1 →
  ∃ wb col, fs !! f = Some wb ∧ tier2 wb = Some col
    ∧ (p = Posix ∨ fs !! target_key f col = None)
    ∧ fs1 = <[target_key f col := wb]> (delete f fs).
Proof.
  unfold append_total_file, os_rename, target_key.
  destruct (fs !! f) as [wb|] eqn:Hf; [|done].
  destruct (tier2 wb) as [col|] eqn:Hcol; [|done].
  intros H. exists wb, col. split; [done|]. split; [done|].
  destruct p.
  - split; [by left|]. by injection H as <-.
  - destruct (fs !! (f.1, new_filename f.2 (Series_sum col))) eqn:Ht; [done|].
    split; [by right|]. by injection H as <-.
Qed.

Lemma append_total_file_Raise p fs f e :
  append_total_file p fs f = Raise e →
  fs !! f = None
  ∨ (∃ wb, fs !! f = Some wb ∧ tier2 wb = None)
  ∨ (∃ wb col, fs !! f = Some wb ∧ tier2 wb = Some col
       ∧ p = Windows ∧ is_Some (fs !! target_key f col)).
Proof.
  unfold append_total_file, os_rename, target_key.
  destruct (fs !! f) as [wb|] eqn:Hf; [|by left].
  destruct (tier2 wb) as [col|] eqn:Hcol; [|right; left; eauto].
  intros H. right. right. exists wb, col.
  split; [done|]. split; [done|]. destruct p; [done|].
  split; [done|]. destruct (fs !! (f.1, new_filename f.2 (Series_sum col))); [eauto|done].
Qed.

Lemma step_state_other p fs f k :
  k ≠ f →
  (∀ wb col, fs !! f = Some wb → tier2 wb = Some col → k ≠ target_key f col) →
  step_state p fs f !! k = fs !! k.
Proof.
  intros Hkf Hkt. unfold step_state.
  destruct (append_total_file p fs f) as [fs1|e] eqn:E; [|done].
  apply append_total_file_Ok in E as (wb & col & Hf & Hcol & _ & ->).
  rewrite lookup_insert_ne by (intros ?; by eapply Hkt).
  by rewrite lookup_delete_ne.
Qed.

Lemma append_total_loop_cons p fs f rest :
  append_total_loop p fs (f :: rest)
  = ((append_total_loop p (step_state p fs f) rest).1,
     status_of (append_total_file p fs f)
       :: (append_total_loop p (step_state p fs f) rest).2).
Proof.
  simpl. unfold step_state.
  by destruct (append_total_loop p _ rest).
Qed.


(** A name that is neither a file of the batch nor the destination of one
    of its renames is not touched. *)
Lemma append_total_loop_frame p files : ∀ fs k,
  NoDup files →
  (∀ g, g ∈ files → Py.contains_char "_" g.2 = false) →
  k ∉ files →
  (∀ g, g ∈ files → renames_to fs k g = false) →
  (append_total_loop p fs files).1 !! k = fs !! k.
Proof.
  induction files as [|f rest IH]; intros fs k Hnd Hsel Hk Ht; [done|].
  rewrite append_total_loop_cons. simpl.
  apply NoDup_cons in Hnd as [Hf Hnd].
  apply not_elem_of_cons in Hk as [Hkf Hk].
  assert (∀ wb col, fs !! f = Some wb → tier2 wb = Some col → k ≠ target_key f col)
    as Hkt.
  { intros wb col Hwb Hcol ->. specialize (Ht f ltac:(left)).
    unfold renames_to in Ht. rewrite Hwb, Hcol in Ht.
    by rewrite bool_decide_eq_true_2 in Ht. }
  rewrite IH; try done.
  - by apply step_state_other.
  - intros g Hg. apply Hsel. by right.
  - intros g Hg. unfold renames_to.
    rewrite step_state_other.
    + apply (Ht g). by right.
    + intros ->. done.
    + intros wb col _ _. apply target_key_ne. apply Hsel. by right.
Qed.

Lemma renames_to_underscore fs k g :
  Py.contains_char "_" k.2 = false → renames_to fs k g = false.
Proof.
  intros Hk. unfold renames_to. destruct (fs !! g) as [wb|]; [|done].
  destruct (tier2 wb) as [col|]; [|done].
  apply bool_decide_eq_false. by apply target_key_ne.
Qed.

Lemma renames_to_step p fs f k g :
  g ≠ f → Py.contains_char "_" g.2 = false →
  renames_to (step_state p fs f) k g = renames_to fs k g.
Proof.
  intros Hg Hu. unfold renames_to. rewrite step_state_other; [done..|].
  intros wb col _ _. by apply target_key_ne.
Qed.

(** ** The batch, file by file *)

Lemma append_total_file_outcome p files : ∀ fs i f wb,
  NoDup files →
  (∀ g, g ∈ files → selected g.2 = true) →
  files !! i = Some f →
  fs !! f = Some wb →
  (tier2 wb = None →
     (append_total_loop p fs files).2 !! i = Some Failed
     ∧ (append_total_loop p fs files).1 !! f = Some wb)
  ∧ (∀ col, tier2 wb = Some col →
       (((append_total_loop p fs files).2 !! i = Some Processed
         ∧ (append_total_loop p fs files).1 !! f = None)
        ∨ (p = Windows
           ∧ (append_total_loop p fs files).2 !! i = Some Failed
           ∧ (append_total_loop p fs files).1 !! f = Some wb))
       ∧ ((∀ g, g ∈ files → g ≠ f → renames_to fs (target_key f col) g = false) →
          p = Posix ∨ fs !! target_key f col = None →
          (append_total_loop p fs files).2 !! i = Some Processed
          ∧ (append_total_loop p fs files).1 !! f = None
          ∧ (append_total_loop p fs files).1 !! target_key f col = Some wb)).
Proof.
  induction files as [|f0 rest IH]; intros fs i f wb Hnd Hsel Hi Hf; [done|].
  assert (∀ g, g ∈ f0 :: rest → Py.contains_char "_" g.2 = false) as Hund.
  { intros g Hg. by apply selected_no_underscore, Hsel. }
  apply NoDup_cons in Hnd as [Hf0 Hnd].
  assert (∀ g, g ∈ rest → selected g.2 = true) as Hsel'.
  { intros g Hg. apply Hsel. by right. }
  assert (∀ g, g ∈ rest → Py.contains_char "_" g.2 = false) as Hund'.
  { intros g Hg. apply Hund. by right. }
  rewrite append_total_loop_cons. simpl.
  destruct i as [|i]; simpl in Hi.
  - injection Hi as ->. simpl.
    assert (∀ fs1, (append_total_loop p fs1 rest).1 !! f = fs1 !! f) as Hframe.
    { intros fs1. apply append_total_loop_frame; try done.
      intros g _. apply renames_to_underscore, Hund. left. }
    rewrite Hframe. unfold step_state.
    destruct (append_total_file p fs f) as [fs1|e] eqn:E.
    + apply append_total_file_Ok in E as (wb' & col' & Hf' & Hcol' & Hfree & ->).
      assert (wb' = wb) as -> by congruence.
      assert (f ≠ target_key f col') as Hne.
      { apply target_key_ne, Hund. left. }
      rewrite lookup_insert_ne, lookup_delete_eq by done.
      split; [congruence|]. intros col Hcol.
      assert (col' = col) as -> by congruence.
      split; [by left|]. intros Hdist _. split; [done|]. split; [done|].
      rewrite append_total_loop_frame; try done.
      * by rewrite lookup_insert_eq.
      * intros Hin. apply Hund' in Hin. unfold target_key in Hin.
        simpl in Hin. by rewrite new_filename_underscore in Hin.
      * intros g Hg. unfold renames_to.
        assert (g ≠ f) as Hgf by (by intros ->).
        rewrite lookup_insert_ne, lookup_delete_ne by
          (try done; intros ?; subst g; apply Hund' in Hg; unfold target_key in Hg;
           simpl in Hg; by rewrite new_filename_underscore in Hg).
        apply (Hdist g); [by right|done].
    + apply append_total_file_Raise in E
        as [E|[(wb' & Hf' & Hnone)|(wb' & col' & Hf' & Hcol' & -> & Hex)]].
      * congruence.
      * assert (wb' = wb) as -> by congruence.
        split; [done|]. intros col Hcol. congruence.
      * assert (wb' = wb) as -> by congruence.
        split; [congruence|]. intros col Hcol.
        assert (col' = col) as -> by congruence.
        split; [by right|]. intros _ [?|Hnone]; [done|].
        rewrite Hnone in Hex. by destruct Hex.
  - assert (f ∈ rest) as Hin by (by apply list_elem_of_lookup_2 in Hi).
    assert (f ≠ f0) as Hne by (by intros ->).
    assert (step_state p fs f0 !! f = Some wb) as Hf1.
    { rewrite step_state_other; [done..|].
      intros ? ? _ _. by apply target_key_ne, Hund'. }
    destruct (IH (step_state p fs f0) i f wb Hnd Hsel' Hi Hf1) as [Hn Hs].
    split; [exact Hn|]. intros col Hcol.
    destruct (Hs col Hcol) as [Hor Hfree]. split; [exact Hor|].
    intros Hdist Hp. apply Hfree.
    + intros g Hg Hgf. rewrite renames_to_step.
      * apply Hdist; [by right|done].
      * by intros ->.
      * by apply Hund'.
    + destruct Hp as [?|Hnone]; [by left|]. right.
      rewrite step_state_other; [done| |].
      * intros Heq. apply (target_key_ne f col f0); [apply Hund; left|done].
      * intros wb0 col0 Hwb0 Hcol0 Heq.
        specialize (Hdist f0 ltac:(left) ltac:(done)).
        unfold renames_to in Hdist. rewrite Hwb0, Hcol0 in Hdist.
        by rewrite bool_decide_eq_true_2 in Hdist.
Qed.

(** ** The files the batch selects *)

Lemma elem_of_listdir (fs : filesystem) folder file :
  file ∈ listdir fs folder ↔ is_Some (fs !! (folder, file)).
Proof.
  unfold listdir. rewrite list_elem_of_fmap. split.
  - intros (k & -> & [Hk Hin]%list_elem_of_filter).
    apply list_elem_of_fmap in Hin as ([k' wb] & -> & Hin).
    apply elem_of_map_to_list in Hin. simpl in *. subst folder.
    exists wb. by destruct k'.
  - intros [wb Hwb]. exists (folder, file). split; [done|].
    apply list_elem_of_filter. split; [done|].
    apply list_elem_of_fmap. exists ((folder, file), wb). split; [done|].
    by apply elem_of_map_to_list.
Qed.

Lemma NoDup_listdir (fs : filesystem) folder : NoDup (listdir fs folder).
Proof.
  unfold listdir. apply NoDup_fmap_2_strong.
  - intros [a1 b1] [a2 b2] [H1 _]%list_elem_of_filter [H2 _]%list_elem_of_filter.
    simpl in *. congruence.
  - apply NoDup_filter, NoDup_fst_map_to_list.
Qed.

Lemma elem_of_all_files (fs : filesystem) folders g :
  g ∈ all_files fs folders
  ↔ g.1 ∈ folders ∧ selected g.2 = true ∧ is_Some (fs !! g).
Proof.
  unfold all_files. rewrite list_elem_of_bind. split.
  - intros (folder & Hg & Hfolder).
    apply list_elem_of_bind in Hg as (file & Hg & Hfile).
    apply list_elem_of_singleton in Hg as ->. simpl.
    apply list_elem_of_filter in Hfile as [Hsel Hfile].
    by apply elem_of_listdir in Hfile.
  - intros (Hfolder & Hsel & Hfs). destruct g as [folder file]. simpl in *.
    exists folder. split; [|done]. apply list_elem_of_bind.
    exists file. split; [by apply list_elem_of_singleton|].
    apply list_elem_of_filter. split; [done|]. by apply elem_of_listdir.
Qed.

Lemma NoDup_all_files (fs : filesystem) folders :
  NoDup folders → NoDup (all_files fs folders).
Proof.
  intros Hnd. unfold all_files. apply NoDup_bind; [| |done].
  - intros x1 x2 y _ _ (f1 & ->%list_elem_of_singleton & _)%list_elem_of_bind
      (f2 & Hy%list_elem_of_singleton & _)%list_elem_of_bind.
    congruence.
  - intros folder _. apply NoDup_bind.
    + intros f1 f2 y _ _ ->%list_elem_of_singleton Hy%list_elem_of_singleton.
      congruence.
    + intros file _. apply NoDup_singleton.
    + apply NoDup_filter, NoDup_listdir.
Qed.

Lemma NoDup_folders_to_process (fs : filesystem) selected_option :
  NoDup (folders_to_process fs selected_option).
Proof.
  unfold folders_to_process, schedule_folders. case_bool_decide.
  - apply NoDup_elements.
  - apply NoDup_singleton.
Qed.




(** ** Files the batch does not select *)

Lemma step_state_present p fs f k :
  k ≠ f → is_Some (fs !! k) → is_Some (step_state p fs f !! k).
Proof.
  intros Hkf Hk. unfold step_state.
  destruct (append_total_file p fs f) as [fs1|e] eqn:E; [|done].
  apply append_total_file_Ok in E as (wb & col & _ & _ & _ & ->).
  destruct (decide (k = target_key f col)) as [->|Hne].
  - rewrite lookup_insert_eq. eauto.
  - by rewrite lookup_insert_ne, lookup_delete_ne.
Qed.

Lemma append_total_loop_present p files : ∀ fs k,
  k ∉ files → is_Some (fs !! k) →
  is_Some ((append_total_loop p fs files).1 !! k).
Proof.
  induction files as [|f rest IH]; intros fs k Hk Hfs; [done|].
  apply not_elem_of_cons in Hk as [Hkf Hk].
  rewrite append_total_loop_cons. simpl.
  apply IH; [done|]. by apply step_state_present.
Qed.

Lemma append_total_loop_windows files : ∀ fs k wb,
  k ∉ files → fs !! k = Some wb →
  (append_total_loop Windows fs files).1 !! k = Some wb.
Proof.
  induction files as [|f rest IH]; intros fs k wb Hk Hfs; [done|].
  apply not_elem_of_cons in Hk as [Hkf Hk].
  rewrite append_total_loop_cons. simpl.
  apply IH; [done|]. unfold step_state.
  destruct (append_total_file Windows fs f) as [fs1|e] eqn:E; [|done].
  apply append_total_file_Ok in E as (wb' & col & _ & _ & [?|Hfree] & ->); [done|].
  rewrite lookup_insert_ne by (intros <-; congruence).
  by rewrite lookup_delete_ne.
Qed.

(** C10, as amended.  The batch selects no file whose name holds an
    underscore or starts with [vlookup_], [duplicate_ssnit_], [._] or
    [~$], and every name it produces holds an underscore, so that a file
    it has renamed is never selected, read or renamed again.  A file that
    is not selected keeps its name through every run; it keeps its
    content too, except where [os.rename] replaces an existing
    destination and a selected file of the run is renamed to that very
    name.  Where [os.rename] refuses an existing destination it is left
    unchanged by every run. *)
Theorem append_total_leaves_unselected_files
  (p : platform) (fs : filesystem) (selected_option : string) :
  (∀ file, selected file = true →
     Py.endswith ".xlsx" file = true
     ∧ Py.contains_char "_" file = false
     ∧ Forall (λ prefix, Py.startswith prefix file = false)
         ["vlookup_"; "duplicate_ssnit_"; "._"; "~$"])
  ∧ (∀ g, g ∈ all_files fs (folders_to_process fs selected_option) →
          selected g.2 = true)
  ∧ (∀ file total,
       Py.contains_char "_" (new_filename file total) = true
       ∧ selected (new_filename file total) = false)
  ∧ (∀ k wb, fs !! k = Some wb → selected k.2 = false →
       is_Some ((append_total p fs selected_option).1 !! k)
       ∧ ((append_total p fs selected_option).1 !! k = Some wb
          ∨ (p = Posix
             ∧ ∃ f, f ∈ all_files fs (folders_to_process fs selected_option)
                    ∧ renames_to fs k f = true))
       ∧ (p = Windows → (append_total p fs selected_option).1 !! k = Some wb)).
Proof.
  split.
  { intros file Hsel. unfold selected in Hsel.
    apply andb_true_iff in Hsel as [Hsel Hu].
    apply andb_true_iff in Hsel as [He Hp].
    apply negb_true_iff in Hu. apply negb_true_iff in Hp.
    split; [done|]. split; [done|].
    simpl in Hp. repeat (apply orb_false_iff in Hp as [? Hp]).
    repeat constructor; done. }
  split.
  { intros g Hg. by apply elem_of_all_files in Hg as (_ & ? & _). }
  split.
  { intros file total.
    split; [apply new_filename_underscore|apply new_filename_not_selected]. }
  intros k wb Hk Hnsel. unfold append_total.
  set (files := all_files fs (folders_to_process fs selected_option)).
  assert (k ∉ files) as Hnotin.
  { intros (_ & Hsel & _)%elem_of_all_files. congruence. }
  assert (NoDup files) as Hnd
    by apply NoDup_all_files, NoDup_folders_to_process.
  assert (∀ g, g ∈ files → Py.contains_char "_" g.2 = false) as Hund.
  { intros g (_ & Hsel & _)%elem_of_all_files. by apply selected_no_underscore. }
  split; [apply append_total_loop_present; eauto|]. split.
  - destruct p; [|left; by apply append_total_loop_windows].
    destruct (decide (Exists (λ f, renames_to fs k f = true) files)) as [Hex|Hno].
    + right. split; [done|]. by apply Exists_exists in Hex.
    + left. rewrite append_total_loop_frame; try done.
      intros g Hg. destruct (renames_to fs k g) eqn:E; [|done].
      exfalso. apply Hno, Exists_exists. eauto.
  - intros ->. by apply append_total_loop_windows.
Qed.

Lemma append_total_leaves_unselected_files_witness :
  (append_total Windows second_run "Jan").1 !! ("Jan", "a_1.00.xlsx")
  = Some workbook_old
  ∧ is_Some ((append_total Posix second_run "Jan").1 !! ("Jan", "a_1.00.xlsx")).
Proof.
  destruct (append_total_leaves_unselected_files Windows second_run "Jan")
    as (_ & _ & _ & Hw).
  destruct (append_total_leaves_unselected_files Posix second_run "Jan")
    as (_ & _ & _ & Hp).
  destruct (Hw ("Jan", "a_1.00.xlsx") workbook_old eq_refl eq_refl) as (_ & _ & H).
  destruct (Hp ("Jan", "a_1.00.xlsx") workbook_old eq_refl eq_refl) as (H' & _).
  split; [by apply H|exact H'].
Defined.

(** C10, as stated, fails where [os.rename] replaces an existing
    destination: the file [a_1.00.xlsx] of an earlier run is not selected,
    and the run replaces its content by that of the new [a.xlsx], whose
    total is the same. *)
Lemma renamed_file_can_be_replaced :
  selected "a_1.00.xlsx" = false
  ∧ second_run !! ("Jan", "a_1.00.xlsx") = Some workbook_old
  ∧ (append_total Posix second_run "Jan").1 !! ("Jan", "a_1.00.xlsx")
    = Some workbook_a
  ∧ workbook_a ≠ workbook_old
  ∧ (append_total Posix second_run "Jan").2 = [Processed].
Proof. repeat split; by vm_compute. Qed.

(** ** Duplicated keys *)

Lemma filter_eq_nonempty (keys : list string) k j :
  keys !! j = Some k → 0 < length (filter (λ k', k' = k) keys).
Proof.
  revert j. induction keys as [|x l IH]; intros j Hj; [done|].
  destruct j as [|j]; simpl in Hj.
  - injection Hj as ->. rewrite filter_cons_True by done. simpl. lia.
  - specialize (IH j Hj). destruct (decide (x = k)).
    + rewrite filter_cons_True by done. simpl. lia.
    + by rewrite filter_cons_False.
Qed.

Lemma filter_eq_lookup (keys : list string) k :
  0 < length (filter (λ k', k' = k) keys) → ∃ j, keys !! j = Some k.
Proof.
  induction keys as [|x l IH]; simpl; [lia|].
  destruct (decide (x = k)) as [->|Hne].
  - intros _. by exists 0.
  - rewrite filter_cons_False by done. intros H.
    destruct (IH H) as [j Hj]. by exists (S j).
Qed.

(** A key is duplicated exactly when it stands at two positions. *)
Lemma is_duplicated_true keys k :
  is_duplicated keys k = true ↔
  ∃ i j, i ≠ j ∧ keys !! i = Some k ∧ keys !! j = Some k.
Proof.
  unfold is_duplicated. rewrite bool_decide_eq_true. split.
  - induction keys as [|x l IH]; simpl; [lia|].
    destruct (decide (x = k)) as [->|Hne].
    + rewrite filter_cons_True by done. simpl. intros H.
      destruct (filter_eq_lookup l k) as [j Hj]; [lia|].
      exists 0, (S j). by repeat split.
    + rewrite filter_cons_False by done. intros H.
      destruct (IH H) as (i & j & Hij & Hi & Hj).
      exists (S i), (S j). repeat split; [lia|done..].
  - intros (i & j & Hij & Hi & Hj).
    revert i j Hij Hi Hj. induction keys as [|x l IH]; intros i j Hij Hi Hj; [done|].
    destruct i as [|i], j as [|j]; simpl in *; [done| | |].
    + injection Hi as ->. rewrite filter_cons_True by done. simpl.
      pose proof (filter_eq_nonempty l k j Hj). lia.
    + injection Hj as ->. rewrite filter_cons_True by done. simpl.
      pose proof (filter_eq_nonempty l k i Hi). lia.
    + assert (1 < length (filter (λ k', k' = k) l)) by (apply (IH i j); [lia|done..]).
      destruct (decide (x = k)).
      * rewrite filter_cons_True by done. simpl. lia.
      * by rewrite filter_cons_False.
Qed.

Lemma is_duplicated_Permutation keys keys' k :
  keys ≡ₚ keys' → is_duplicated keys k = is_duplicated keys' k.
Proof.
  intros H. unfold is_duplicated. apply bool_decide_ext.
  assert (filter (λ k', k' = k) keys ≡ₚ filter (λ k', k' = k) keys') as Hp
    by (by f_equiv).
  by rewrite (Permutation_length Hp).
Qed.

(** A coarser key keeps every duplicate. *)
Lemma is_duplicated_fmap {A} (f : A → string) (g : string → string) (l : list A) x :
  is_duplicated (map f l) (f x) = true →
  is_duplicated (map (λ y, g (f y)) l) (g (f x)) = true.
Proof.
  rewrite !is_duplicated_true. intros (i & j & Hij & Hi & Hj).
  exists i, j. split; [done|].
  change (map f l) with (f <$> l) in *.
  change (map (λ y, g (f y)) l) with ((λ y, g (f y)) <$> l).
  rewrite !list_lookup_fmap. rewrite list_lookup_fmap in Hi, Hj.
  destruct (l !! i) as [a|]; [|done]. destruct (l !! j) as [b|]; [|done].
  simpl in *. injection Hi as Hi. injection Hj as Hj. by rewrite Hi, Hj.
Qed.

(** The rows a [duplicated(keep=False)] filter keeps: those whose key is
    the key of a row at another position. *)
Lemma elem_of_duplicated_rows {A} (key : A → string) (l : list A) r :
  r ∈ filter (λ r, is_duplicated (map key l) (key r)) l ↔
  ∃ i j r2, i ≠ j ∧ l !! i = Some r ∧ l !! j = Some r2 ∧ key r2 = key r.
Proof.
  rewrite list_elem_of_filter, Is_true_true, is_duplicated_true. split.
  - intros [(i & j & Hij & Hi & Hj) Hr].
    change (map key l) with (key <$> l) in *.
    rewrite list_lookup_fmap in Hi, Hj.
    apply list_elem_of_lookup in Hr as [n Hn].
    destruct (l !! i) as [ri|] eqn:Ei; [|done].
    destruct (l !! j) as [rj|] eqn:Ej; [|done]. simpl in *.
    destruct (decide (n = i)) as [->|Hni].
    + exists i, j, rj. repeat split; [done..|congruence].
    + exists n, i, ri. repeat split; [done..|congruence].
  - intros (i & j & r2 & Hij & Hi & Hj & Hk). split.
    + exists i, j. split; [done|].
      change (map key l) with (key <$> l). rewrite !list_lookup_fmap, Hi, Hj.
      simpl. by rewrite Hk.
    + by eapply list_elem_of_lookup_2.
Qed.

(** ** Duplicate groups *)

Lemma duplicate_dict_step_lookup d r name :
  duplicate_dict_step d r !! name = group_at name (d !! name) r.
Proof.
  unfold duplicate_dict_step, group_at. case_bool_decide as Hk.
  - subst name. destruct (d !! SortedFullName r) as [s|] eqn:Hd.
    + by rewrite lookup_alter_eq, Hd.
    + rewrite lookup_alter_eq, lookup_insert_eq. simpl. done.
  - destruct (d !! SortedFullName r) as [s|] eqn:Hd.
    + by rewrite lookup_alter_ne.
    + by rewrite lookup_alter_ne, lookup_insert_ne.
Qed.

Lemma group_at_fold name l : ∀ o,
  foldl (group_at name) o l =
  match filter (λ r, SortedFullName r = name) l with
  | [] => o
  | rs => Some (default ∅ o ∪ list_to_set (map Company.Ssnit rs))
  end.
Proof.
  induction l as [|r l IH]; intros o; [done|]. simpl. rewrite IH.
  destruct (decide (SortedFullName r = name)) as [Hk|Hk].
  - assert (group_at name o r = Some (default ∅ o ∪ {[Company.Ssnit r]})) as ->
      by (unfold group_at; by rewrite bool_decide_eq_true_2).
    rewrite filter_cons_True by done.
    destruct (filter (λ r0, SortedFullName r0 = name) l) as [|r1 rs]; simpl.
    + by rewrite (right_id_L ∅ (∪)).
    + f_equal. symmetry. apply (assoc_L (∪)).
  - assert (group_at name o r = o) as ->
      by (unfold group_at; by rewrite bool_decide_eq_false_2).
    by rewrite filter_cons_False.
Qed.

Lemma sort_by_name_Permutation rows : sort_by_name rows ≡ₚ rows.
Proof. apply merge_sort_Permutation. Qed.

Lemma duplicates_Permutation rows :
  duplicates rows ≡ₚ
  filter (λ r, is_duplicated (map SortedFullName rows) (SortedFullName r)) rows.
Proof.
  unfold duplicates.
  assert (map SortedFullName (sort_by_name rows) ≡ₚ map SortedFullName rows) as Hk
    by (by rewrite sort_by_name_Permutation).
  rewrite (list_filter_iff _
             (λ r, is_duplicated (map SortedFullName rows) (SortedFullName r))).
  - by rewrite sort_by_name_Permutation.
  - intros r. by rewrite (is_duplicated_Permutation _ _ _ Hk).
Qed.

(** The rows a screen reports: those whose name key occurs at another
    position of the table. *)
Lemma elem_of_duplicates rows r :
  r ∈ duplicates rows ↔
  ∃ i j r2, i ≠ j ∧ rows !! i = Some r ∧ rows !! j = Some r2
            ∧ SortedFullName r2 = SortedFullName r.
Proof. by rewrite duplicates_Permutation, elem_of_duplicated_rows. Qed.

(** [multiple_ssnit] keeps a group for a name key exactly when the key
    is borne by more than one row of the lookup table, and the group is
    the set of the identifiers of all the rows that bear it. *)
Theorem duplicate_groups rows name :
  duplicate_dict rows !! name =
  if is_duplicated (map SortedFullName rows) name
  then Some (list_to_set
               (map Company.Ssnit (filter (λ r, SortedFullName r = name) rows)))
  else None.
Proof.
  unfold duplicate_dict.
  rewrite (foldl_lookup _ group_at duplicate_dict_step_lookup), lookup_empty.
  rewrite group_at_fold.
  assert (filter (λ r, SortedFullName r = name) (duplicates rows) ≡ₚ
          if is_duplicated (map SortedFullName rows) name
          then filter (λ r, SortedFullName r = name) rows else []) as Hp.
  { rewrite duplicates_Permutation, list_filter_filter.
    destruct (is_duplicated (map SortedFullName rows) name) eqn:Hd.
    - rewrite (list_filter_iff _ (λ r, SortedFullName r = name)); [done|].
      intros r. split; [tauto|]. intros <-. by rewrite Hd.
    - rewrite filter_none; [done|]. apply Forall_forall.
      intros r _ [<- H1]. by rewrite Hd in H1. }
  destruct (is_duplicated (map SortedFullName rows) name) eqn:Hd.
  - destruct (filter (λ r, SortedFullName r = name) (duplicates rows))
      as [|r1 rs] eqn:Hf.
    + apply is_duplicated_true in Hd as (i & j & _ & Hi & _).
      change (map SortedFullName rows) with (SortedFullName <$> rows) in Hi.
      rewrite list_lookup_fmap in Hi.
      destruct (rows !! i) as [r|] eqn:Hr; [|done]. injection Hi as Hi.
      apply Permutation_nil_l in Hp.
      assert (r ∈ filter (λ r, SortedFullName r = name) rows) as Hin
        by (apply list_elem_of_filter; split; [done|by eapply list_elem_of_lookup_2]).
      rewrite <- Hp in Hin. by apply elem_of_nil in Hin.
    + f_equal. simpl default. rewrite (left_id_L ∅ (∪)).
      apply set_eq. intros c. rewrite !elem_of_list_to_set.
      change (map Company.Ssnit) with (fmap (M := list) Company.Ssnit).
      by rewrite Hp.
  - apply Permutation_nil_r in Hp. by rewrite Hp.
Qed.

(** ** The plain name screen and the account screen *)

(** [get_duplicates] reports a row exactly when its name key, as written,
    is the key of a row at another position; every row it reports is
    reported by [multiple_ssnit] as well, whose key also ignores the order
    of the words, and not the other way round. *)
Theorem get_duplicates_within_multiple_ssnit :
  (∀ rows r,
     r ∈ get_duplicates rows ↔
     ∃ i j r2, i ≠ j ∧ rows !! i = Some r ∧ rows !! j = Some r2
               ∧ FullName r2 = FullName r)
  ∧ (∀ rows r, r ∈ get_duplicates rows → r ∈ duplicates rows)
  ∧ get_duplicates [smith_john; john_smith] = []
  ∧ duplicates [smith_john; john_smith] ≡ₚ [smith_john; john_smith].
Proof.
  split; [|split; [|split]].
  - intros rows r. apply elem_of_duplicated_rows.
  - intros rows r. rewrite elem_of_duplicates.
    unfold get_duplicates. rewrite elem_of_duplicated_rows.
    intros (i & j & r2 & Hij & Hi & Hj & Hk).
    exists i, j, r2. repeat split; [done..|].
    unfold SortedFullName. by rewrite Hk.
  - reflexivity.
  - vm_compute. first [reflexivity | apply perm_swap].
Qed.

Lemma Sorted_by_key {A} (key : A → string) (l : list A) :
  Sorted String.le
    (map key (merge_sort (λ a b, String.le (key a) (key b)) l)).
Proof.
  apply (Sorted_fmap key (λ a b, String.le (key a) (key b))); [done|].
  apply Sorted_merge_sort. intros a b. apply (total String.le).
Qed.

(** [multiple_account_names] reports a row, with its account number
    trimmed and upper-cased, exactly when a row at another position has
    the same account number after trimming and upper-casing, and likewise
    for the upper-cased full name; both reports are in ascending order of
    their key; and the missing account number is the key ["NAN"], so that
    rows without an account number are reported as duplicates of one
    another. *)
Theorem multiple_account_names_reports :
  (∀ rows r',
     r' ∈ Accounts.account_duplicates rows ↔
     ∃ i j r r2, i ≠ j ∧ rows !! i = Some r ∧ rows !! j = Some r2
                 ∧ Accounts.Accountno r2 = Accounts.Accountno r
                 ∧ r' = Accounts.clean r)
  ∧ (∀ rows r',
       r' ∈ Accounts.name_duplicates rows ↔
       ∃ i j r r2, i ≠ j ∧ rows !! i = Some r ∧ rows !! j = Some r2
                   ∧ Accounts.Full_Name r2 = Accounts.Full_Name r
                   ∧ r' = Accounts.clean r)
  ∧ (∀ rows,
       Sorted String.le
         (map (λ r, str (Company.Accountno r)) (Accounts.account_duplicates rows))
       ∧ Sorted String.le
           (map Accounts.Full_Name (Accounts.name_duplicates rows)))
  ∧ (∀ rows i j r r2,
       i ≠ j → rows !! i = Some r → rows !! j = Some r2 →
       Company.Accountno r = NaN → Company.Accountno r2 = NaN →
       Accounts.clean r ∈ Accounts.account_duplicates rows
       ∧ Company.Accountno (Accounts.clean r) = Text "NAN").
Proof.
  assert (∀ rows r',
     r' ∈ Accounts.account_duplicates rows ↔
     ∃ i j r r2, i ≠ j ∧ rows !! i = Some r ∧ rows !! j = Some r2
                 ∧ Accounts.Accountno r2 = Accounts.Accountno r
                 ∧ r' = Accounts.clean r) as Hacc.
  { intros rows r'. unfold Accounts.account_duplicates.
    rewrite merge_sort_Permutation, elem_of_duplicated_rows.
    change (map Accounts.clean rows) with (Accounts.clean <$> rows). split.
    - intros (i & j & r2 & Hij & Hi & Hj & Hk).
      rewrite list_lookup_fmap in Hi, Hj.
      destruct (rows !! i) as [a|] eqn:Ha; [|done].
      destruct (rows !! j) as [b|] eqn:Hb; [|done].
      simpl in Hi, Hj. injection Hi as <-. injection Hj as <-.
      exists i, j, a, b. by repeat split.
    - intros (i & j & r & r2 & Hij & Hi & Hj & Hk & ->).
      exists i, j, (Accounts.clean r2).
      rewrite !list_lookup_fmap, Hi, Hj. by repeat split; [..|simpl; congruence]. }
  split; [exact Hacc|]. split; [|split].
  - intros rows r'. unfold Accounts.name_duplicates.
    rewrite merge_sort_Permutation, elem_of_duplicated_rows.
    change (map Accounts.clean rows) with (Accounts.clean <$> rows). split.
    + intros (i & j & r2 & Hij & Hi & Hj & Hk).
      rewrite list_lookup_fmap in Hi, Hj.
      destruct (rows !! i) as [a|] eqn:Ha; [|done].
      destruct (rows !! j) as [b|] eqn:Hb; [|done].
      simpl in Hi, Hj. injection Hi as <-. injection Hj as <-.
      exists i, j, a, b. by repeat split.
    + intros (i & j & r & r2 & Hij & Hi & Hj & Hk & ->).
      exists i, j, (Accounts.clean r2).
      rewrite !list_lookup_fmap, Hi, Hj. by repeat split.
  - intros rows. split.
    + apply (Sorted_by_key (λ r, str (Company.Accountno r))).
    + apply (Sorted_by_key Accounts.Full_Name).
  - intros rows i j r r2 Hij Hi Hj Hr Hr2. split.
    + apply Hacc. exists i, j, r, r2. repeat split; [done..|].
      unfold Accounts.Accountno. by rewrite Hr, Hr2.
    + unfold Accounts.clean, Accounts.Accountno. simpl. by rewrite Hr.
Qed.

(** ** The duplicate check of a schedule file *)

Lemma clean_frame rows :
  zip_with set_schedule_ssnit rows
    (Series_astype_str_strip (map Schedule.ssnit rows))
  = map clean_schedule_row rows.
Proof.
  unfold Series_astype_str_strip. by rewrite map_map, zip_with_map_r.
Qed.

Lemma clean_schedule_row_idemp r :
  clean_schedule_row (clean_schedule_row r) = clean_schedule_row r.
Proof.
  unfold clean_schedule_row, set_schedule_ssnit. simpl. by rewrite strip_idemp.
Qed.

(** A loop over distinct identifiers that, at each step, rewrites the rows
    of the identifier and keeps their identifier, rewrites every row at
    most once: at the step of its own identifier. *)
Lemma foldl_row_at (f : Schedule.row → cell → Schedule.row) :
  (∀ r u, u ≠ Schedule.ssnit r → f r u = r) →
  (∀ r u, Schedule.ssnit (f r u) = Schedule.ssnit r) →
  ∀ us r, NoDup us →
  foldl f r us = if decide (Schedule.ssnit r ∈ us) then f r (Schedule.ssnit r) else r.
Proof.
  intros Hne Hid us. induction us as [|u us IH]; intros r Hnd.
  { cbn [foldl]. rewrite decide_False; [done|]. apply not_elem_of_nil. }
  apply NoDup_cons in Hnd as [Hu Hnd]. cbn [foldl]. rewrite IH by done.
  destruct (decide (u = Schedule.ssnit r)) as [->|Hur].
  - rewrite Hid. rewrite decide_False by done.
    rewrite decide_True; [done|]. apply list_elem_of_here.
  - rewrite (Hne r u) by done.
    destruct (decide (Schedule.ssnit r ∈ us)) as [Hin|Hin].
    + rewrite decide_True; [done|]. by apply list_elem_of_further.
    + rewrite decide_False; [done|]. rewrite elem_of_cons.
      intros [Heq|Hin']; [by subst u|done].
Qed.

Lemma foldl_map_rows (f : Schedule.row → cell → Schedule.row) us : ∀ df,
  foldl (λ df u, map (λ r, f r u) df) df us = map (λ r, foldl f r us) df.
Proof.
  induction us as [|u us IH]; intros df; simpl.
  - by rewrite map_id.
  - by rewrite IH, map_map.
Qed.

Lemma standardize_account_step_rows dups df u :
  standardize_account_step dups df u
  = map (λ r, standardize_account_row dups r u) df.
Proof.
  unfold standardize_account_step, standardize_account_row.
  destruct (filter _ dups); [by rewrite map_id|done].
Qed.

Lemma standardize_account_row_other dups r u :
  u ≠ Schedule.ssnit r → standardize_account_row dups r u = r.
Proof.
  intros Hu. unfold standardize_account_row.
  destruct (filter _ dups); [done|].
  destruct (cell_eqb (Schedule.ssnit r) u) eqn:He; [|done].
  apply cell_eqb_true in He as [He _]. by subst u.
Qed.

Lemma standardize_account_row_ssnit dups r u :
  Schedule.ssnit (standardize_account_row dups r u) = Schedule.ssnit r.
Proof.
  unfold standardize_account_row. destruct (filter _ dups); [done|].
  by destruct (cell_eqb _ _).
Qed.

(** The position of the head of a filtered list. *)
Lemma filter_head_first {A} (P : A → Prop) `{∀ x, Decision (P x)} (l : list A) x rest :
  filter P l = x :: rest →
  ∃ j, l !! j = Some x ∧ P x ∧ ∀ j' y, (j' < j)%nat → l !! j' = Some y → ¬ P y.
Proof.
  induction l as [|a l IH]; [done|]. rewrite filter_cons.
  destruct (decide (P a)) as [Ha|Ha].
  - intros [= -> _]. exists 0. repeat split; [done|]. intros; lia.
  - intros Hf. destruct (IH Hf) as (j & Hj & Hx & Hlt).
    exists (S j). repeat split; [done..|].
    intros [|j'] y Hj' Hy; simpl in Hy; [by injection Hy as <-|].
    apply (Hlt j' y); [lia|done].
Qed.

Lemma filter_head_elem {A} (P : A → Prop) `{∀ x, Decision (P x)} (l : list A) x :
  x ∈ l → P x → ∃ y rest, filter P l = y :: rest.
Proof.
  intros Hx HP.
  assert (x ∈ filter P l) as Hin by (by apply list_elem_of_filter).
  destruct (filter P l) as [|y rest]; [by apply elem_of_nil in Hin|eauto].
Qed.

Lemma text_ssnit_clean rows : Forall text_ssnit (map clean_schedule_row rows).
Proof.
  apply Forall_forall. intros r Hr. apply list_elem_of_In, in_map_iff in Hr.
  destruct Hr as (r0 & <- & _). eexists. reflexivity.
Qed.

Lemma length_filter_ssnit df s :
  Forall text_ssnit df →
  length (filter (λ r', cell_eqb (Schedule.ssnit r') (Text s)) df)
  = length (filter (λ k, k = s) (map (λ r', str (Schedule.ssnit r')) df)).
Proof.
  induction 1 as [|r df [s' Hr] _ IH]; [done|]. simpl.
  rewrite !filter_cons, Hr. simpl.
  destruct (decide (s' = s)) as [->|Hne].
  - rewrite bool_decide_eq_true_2 by done. simpl. by rewrite IH.
  - rewrite bool_decide_eq_false_2 by done. simpl. done.
Qed.

Lemma foldl_ext_eq {A B} (f g : A → B → A) (l : list B) :
  (∀ a b, f a b = g a b) → ∀ a, foldl f a l = foldl g a l.
Proof.
  intros Hfg. induction l as [|b l IH]; intros a; [done|].
  simpl. by rewrite Hfg, IH.
Qed.

Lemma set_schedule_accountno_same r :
  set_schedule_accountno r (Schedule.accountno r) = r.
Proof. by destruct r. Qed.

Lemma filter_ssnit_duplicates df s :
  is_duplicated (map (λ r', str (Schedule.ssnit r')) df) s = true →
  filter (λ r', cell_eqb (Schedule.ssnit r') (Text s)) (ssnit_duplicates df)
  = filter (λ r', cell_eqb (Schedule.ssnit r') (Text s)) df.
Proof.
  intros Hd. unfold ssnit_duplicates. rewrite list_filter_filter.
  apply list_filter_iff. intros r'. split; [tauto|].
  intros He. split; [done|].
  apply Is_true_true, cell_eqb_true in He as [He _]. rewrite He. simpl.
  by rewrite Hd.
Qed.

(** The rows of a cleaned frame after the loop. *)
Lemma standardize_loop_rows df :
  Forall text_ssnit df →
  foldl (standardize_account_step (ssnit_duplicates df)) df
    (unique (map Schedule.ssnit (ssnit_duplicates df)))
  = map (λ r, set_schedule_accountno r (first_account df r)) df.
Proof.
  intros Htext.
  rewrite (foldl_ext_eq _ (λ df' u,
             map (λ r, standardize_account_row (ssnit_duplicates df) r u) df'))
    by (intros; apply standardize_account_step_rows).
  rewrite (foldl_map_rows (standardize_account_row (ssnit_duplicates df))).
  apply map_ext_in. intros r Hr. apply list_elem_of_In in Hr.
  rewrite (foldl_row_at _ (standardize_account_row_other _)
             (standardize_account_row_ssnit _)) by apply NoDup_unique.
  pose proof (proj1 (Forall_forall _ _) Htext r Hr) as [s Hs].
  assert (Is_true (cell_eqb (Schedule.ssnit r) (Text s))) as Hself
    by (rewrite Hs; simpl; by rewrite bool_decide_eq_true_2).
  destruct (filter_head_elem
              (λ r', cell_eqb (Schedule.ssnit r') (Text s)) df r Hr Hself)
    as (first & rest & Hf).
  unfold first_account. rewrite Hs, Hf.
  destruct (is_duplicated (map (λ r', str (Schedule.ssnit r')) df) s) eqn:Hd.
  - rewrite decide_True.
    + unfold standardize_account_row.
      rewrite filter_ssnit_duplicates, Hf by done.
      rewrite Hs. simpl. by rewrite bool_decide_eq_true_2.
    + apply elem_of_unique, list_elem_of_In, in_map_iff.
      exists r. split; [done|]. apply list_elem_of_In.
      unfold ssnit_duplicates. apply list_elem_of_filter. split; [|done].
      rewrite Hs. simpl. by rewrite Hd.
  - assert (filter (λ r', cell_eqb (Schedule.ssnit r') (Text s)) df = [r]) as Hone.
    { assert (length (filter (λ r', cell_eqb (Schedule.ssnit r') (Text s)) df) ≤ 1)%nat
        as Hlen.
      { rewrite length_filter_ssnit by done.
        unfold is_duplicated in Hd. apply bool_decide_eq_false in Hd. lia. }
      assert (r ∈ filter (λ r', cell_eqb (Schedule.ssnit r') (Text s)) df) as Hin
        by (by apply list_elem_of_filter).
      destruct (filter (λ r', cell_eqb (Schedule.ssnit r') (Text s)) df)
        as [|a [|b l]]; simpl in Hlen; [by apply elem_of_nil in Hin| |lia].
      by apply list_elem_of_singleton in Hin as ->. }
    rewrite Hone in Hf. injection Hf as <- _.
    rewrite set_schedule_accountno_same.
    destruct (decide _) as [Hin|Hin]; [|done].
    apply elem_of_unique, list_elem_of_In, in_map_iff in Hin as (r' & Hr' & Hin).
    apply list_elem_of_In in Hin. unfold ssnit_duplicates in Hin.
    apply list_elem_of_filter in Hin as [Hdup _].
    rewrite Hr' in Hdup. rewrite ?Hs in Hdup. simpl in Hdup. by rewrite Hd in Hdup.
Qed.

Lemma filter_map_ssnit (g : Schedule.row → Schedule.row) u df :
  (∀ x, Schedule.ssnit (g x) = Schedule.ssnit x) →
  filter (λ r, cell_eqb (Schedule.ssnit r) u) (map g df)
  = map g (filter (λ r, cell_eqb (Schedule.ssnit r) u) df).
Proof.
  intros Hg. induction df as [|a df IH]; [done|]. simpl.
  rewrite !filter_cons, Hg, IH. by destruct (decide _).
Qed.

Lemma first_account_head df r s first rest :
  Schedule.ssnit r = Text s →
  filter (λ r', cell_eqb (Schedule.ssnit r') (Text s)) df = first :: rest →
  first_account df r = Schedule.accountno first
  ∧ first_account df first = Schedule.accountno first.
Proof.
  intros Hs Hf. unfold first_account. rewrite Hs, Hf. split; [done|].
  assert (first ∈ filter (λ r', cell_eqb (Schedule.ssnit r') (Text s)) df) as Hin
    by (rewrite Hf; apply list_elem_of_here).
  apply list_elem_of_filter in Hin as [He _].
  apply Is_true_true, cell_eqb_true in He as [He _]. by rewrite He, Hf.
Qed.

Lemma standardize_duplicates_written rows :
  ssnit_duplicates (map clean_schedule_row rows) ≠ [] →
  standardize_duplicates rows
  = map (λ r, set_schedule_accountno r
                (first_account (map clean_schedule_row rows) r))
      (map clean_schedule_row rows).
Proof.
  intros Hne. unfold standardize_duplicates. rewrite clean_frame.
  destruct (ssnit_duplicates (map clean_schedule_row rows)) as [|d ds] eqn:Hd;
    [done|].
  rewrite <- Hd. apply standardize_loop_rows, text_ssnit_clean.
Qed.

Lemma standardize_duplicates_fixed df :
  Forall text_ssnit df →
  (∀ a, a ∈ df → clean_schedule_row a = a) →
  standardize_duplicates
    (map (λ r, set_schedule_accountno r (first_account df r)) df)
  = map (λ r, set_schedule_accountno r (first_account df r)) df.
Proof.
  intros Htext Hclean.
  set (g := λ r, set_schedule_accountno r (first_account df r)).
  assert (∀ x, Schedule.ssnit (g x) = Schedule.ssnit x) as Hg by done.
  assert (map clean_schedule_row (map g df) = map g df) as Hc.
  { rewrite map_map. apply map_ext_in. intros a Ha.
    apply list_elem_of_In, Hclean in Ha.
    apply (f_equal Schedule.ssnit) in Ha. simpl in Ha.
    unfold g, clean_schedule_row, set_schedule_ssnit, set_schedule_accountno.
    simpl. by rewrite Ha. }
  unfold standardize_duplicates. rewrite clean_frame, Hc.
  destruct (ssnit_duplicates (map g df)) as [|d ds] eqn:Hd; [done|].
  rewrite <- Hd, standardize_loop_rows.
  2:{ apply Forall_forall. intros r Hr.
      apply list_elem_of_In, in_map_iff in Hr as (a & <- & Ha).
      apply list_elem_of_In in Ha.
      apply (proj1 (Forall_forall _ _) Htext a Ha). }
  rewrite map_map. apply map_ext_in. intros a Ha. apply list_elem_of_In in Ha.
  pose proof (proj1 (Forall_forall _ _) Htext a Ha) as [s Hs].
  assert (Is_true (cell_eqb (Schedule.ssnit a) (Text s))) as Hself
    by (rewrite Hs; simpl; by rewrite bool_decide_eq_true_2).
  destruct (filter_head_elem
              (λ r', cell_eqb (Schedule.ssnit r') (Text s)) df a Ha Hself)
    as (first & rest & Hf).
  destruct (first_account_head df a s first rest Hs Hf) as [Ha1 Hf1].
  assert (first_account (map g df) (g a) = Schedule.accountno first) as ->.
  { unfold first_account at 1. rewrite Hg, Hs, filter_map_ssnit, Hf by done.
    simpl. exact Hf1. }
  unfold g. rewrite Ha1. by destruct a.
Qed.

(** [check_individual_schedule_duplicates] on one file.  A file in which
    no trimmed identifier occurs twice is left as it is.  Otherwise the
    file is rewritten with its identifiers trimmed and with the account
    number of every row replaced by the account number of the first row
    of the file that has the same trimmed identifier, all other columns
    being kept.  In both cases the file keeps its number of rows, rows
    with equal identifiers end with equal account numbers, and a second
    run changes nothing. *)
Theorem duplicate_check_first_account_wins (rows : list Schedule.row) :
  length (standardize_duplicates rows) = length rows
  ∧ (ssnit_duplicates (map clean_schedule_row rows) = [] →
       standardize_duplicates rows = rows)
  ∧ (ssnit_duplicates (map clean_schedule_row rows) ≠ [] →
       ∀ i r, rows !! i = Some r →
         ∃ j r0,
           (j ≤ i)%nat ∧ rows !! j = Some r0
           ∧ Py.strip (str (Schedule.ssnit r0)) = Py.strip (str (Schedule.ssnit r))
           ∧ (∀ j' r', (j' < j)%nat → rows !! j' = Some r' →
                Py.strip (str (Schedule.ssnit r')) ≠ Py.strip (str (Schedule.ssnit r)))
           ∧ standardize_duplicates rows !! i
             = Some (Schedule.Row (Text (Py.strip (str (Schedule.ssnit r))))
                       (Schedule.accountno r0) (Schedule.surname r)
                       (Schedule.first_name r) (Schedule.other_name r)
                       (Schedule.salary r)))
  ∧ (∀ r1 r2,
       r1 ∈ standardize_duplicates rows → r2 ∈ standardize_duplicates rows →
       Schedule.ssnit r1 = Schedule.ssnit r2 →
       Schedule.accountno r1 = Schedule.accountno r2)
  ∧ standardize_duplicates (standardize_duplicates rows)
    = standardize_duplicates rows.
Proof.
  destruct (decide (ssnit_duplicates (map clean_schedule_row rows) = []))
    as [Hnil|Hne].
  - assert (standardize_duplicates rows = rows) as Hsame.
    { unfold standardize_duplicates. by rewrite clean_frame, Hnil. }
    rewrite !Hsame. split; [done|]. split; [done|]. split; [done|].
    split; [|done].
    intros r1 r2 H1 H2 Heq.
    apply list_elem_of_lookup in H1 as [i Hi].
    apply list_elem_of_lookup in H2 as [j Hj].
    destruct (decide (i = j)) as [->|Hij]; [congruence|].
    assert (clean_schedule_row r1 ∈ ssnit_duplicates (map clean_schedule_row rows))
      as Hin.
    { unfold ssnit_duplicates. apply elem_of_duplicated_rows.
      exists i, j, (clean_schedule_row r2).
      change (map clean_schedule_row rows) with (clean_schedule_row <$> rows).
      rewrite !list_lookup_fmap, Hi, Hj. repeat split; [done|].
      simpl. by rewrite Heq. }
    rewrite Hnil in Hin. by apply elem_of_nil in Hin.
  - pose proof (standardize_duplicates_written rows Hne) as Hw.
    split; [by rewrite Hw, !length_map|]. split; [done|]. split; [|split].
    + intros _ i r Hi.
      set (df := map clean_schedule_row rows) in *.
      set (s := Py.strip (str (Schedule.ssnit r))).
      assert (df !! i = Some (clean_schedule_row r)) as Hdi.
      { unfold df. change (map clean_schedule_row rows)
          with (clean_schedule_row <$> rows).
        by rewrite list_lookup_fmap, Hi. }
      assert (Is_true (cell_eqb (Schedule.ssnit (clean_schedule_row r)) (Text s)))
        as Hself by (simpl; by rewrite bool_decide_eq_true_2).
      destruct (filter_head_elem
                  (λ r', cell_eqb (Schedule.ssnit r') (Text s)) df
                  (clean_schedule_row r)
                  (list_elem_of_lookup_2 _ _ _ Hdi) Hself)
        as (first & rest & Hf).
      destruct (filter_head_first _ _ _ _ Hf) as (j & Hj & HP & Hmin).
      unfold df in Hj. change (map clean_schedule_row rows)
        with (clean_schedule_row <$> rows) in Hj.
      rewrite list_lookup_fmap in Hj.
      destruct (rows !! j) as [r0|] eqn:Hr0; [|done]. injection Hj as <-.
      apply Is_true_true, cell_eqb_true in HP as [HP _].
      simpl in HP. injection HP as HP.
      exists j, r0. split; [|split; [done|split; [done|split]]].
      * destruct (decide (j ≤ i)%nat) as [|Hgt]; [done|].
        exfalso. apply (Hmin i (clean_schedule_row r)); [lia|done..].
      * intros j' r' Hlt Hj' Heq.
        apply (Hmin j' (clean_schedule_row r')); [done| |].
        -- unfold df. change (map clean_schedule_row rows)
             with (clean_schedule_row <$> rows).
           by rewrite list_lookup_fmap, Hj'.
        -- simpl. rewrite Heq. by rewrite bool_decide_eq_true_2.
      * rewrite Hw. fold df.
        change (map ?f df) with (f <$> df).
        rewrite list_lookup_fmap, Hdi. simpl. do 2 f_equal.
        unfold first_account. simpl. fold s. by rewrite Hf.
    + intros r1 r2 H1 H2 Heq. rewrite Hw in H1, H2.
      apply list_elem_of_In, in_map_iff in H1 as (a & <- & Ha).
      apply list_elem_of_In, in_map_iff in H2 as (b & <- & Hb).
      simpl in *. apply list_elem_of_In in Ha.
      pose proof (proj1 (Forall_forall _ _) (text_ssnit_clean rows) a Ha) as [s Hs].
      assert (Is_true (cell_eqb (Schedule.ssnit a) (Text s))) as Hself
        by (rewrite Hs; simpl; by rewrite bool_decide_eq_true_2).
      destruct (filter_head_elem
                  (λ r', cell_eqb (Schedule.ssnit r') (Text s)) _ a Ha Hself)
        as (first & rest & Hf).
      rewrite (proj1 (first_account_head _ a s first rest Hs Hf)).
      rewrite Heq in Hs.
      by rewrite (proj1 (first_account_head _ b s first rest Hs Hf)).
    + rewrite Hw. apply standardize_duplicates_fixed.
      * apply text_ssnit_clean.
      * intros a Ha. apply list_elem_of_In, in_map_iff in Ha as (a0 & <- & _).
        apply clean_schedule_row_idemp.
Qed.

(** ** The schedule scan of [multiple_ssnit] *)

(** The scan compares the trimmed identifiers of a schedule file with the
    identifiers of the group as the lookup table stores them.  The
    identifiers it finds are those of the file that, once trimmed, equal a
    stored text identifier; each is its own trimming, so that a stored
    identifier with surrounding blanks, or a missing one, is never found,
    and a group with at most one other identifier never lists a file. *)
Theorem scan_finds_trimmed_identifiers_only
  (ssnit_set : gset cell) (rows : list Schedule.row) :
  (∀ s, s ∈ ssnit_in_file ssnit_set rows ↔
        Text s ∈ ssnit_set
        ∧ ∃ r, r ∈ rows ∧ Py.strip (str (Schedule.ssnit r)) = s)
  ∧ (∀ s, s ∈ ssnit_in_file ssnit_set rows → Py.strip s = s)
  ∧ (∀ file c0,
       (∀ c, c ∈ ssnit_set →
             c = c0 ∨ c = NaN ∨ ∃ s, c = Text s ∧ Py.strip s ≠ s) →
       schedule_finding file ssnit_set rows = None).
Proof.
  assert (∀ s, s ∈ ssnit_in_file ssnit_set rows ↔
               Text s ∈ ssnit_set
               ∧ ∃ r, r ∈ rows ∧ Py.strip (str (Schedule.ssnit r)) = s) as Hin.
  { intros s. unfold ssnit_in_file.
    rewrite elem_of_list_to_set, list_elem_of_filter, list_elem_of_In, in_map_iff.
    split.
    - intros [Hs (r & <- & Hr)]. split; [done|].
      exists r. split; [by apply list_elem_of_In|done].
    - intros [Hs (r & Hr & <-)]. split; [done|].
      exists r. split; [done|by apply list_elem_of_In]. }
  assert (∀ s, s ∈ ssnit_in_file ssnit_set rows → Py.strip s = s) as Hstrip.
  { intros s [_ (r & _ & <-)]%Hin. apply strip_idemp. }
  split; [exact Hin|]. split; [exact Hstrip|].
  intros file c0 Hset. unfold schedule_finding.
  rewrite bool_decide_eq_false_2; [done|].
  assert (ssnit_in_file ssnit_set rows ⊆ {[str c0]}) as Hsub.
  { intros s Hs. apply elem_of_singleton.
    pose proof (Hstrip s Hs) as Hst. apply Hin in Hs as [Hs _].
    destruct (Hset _ Hs) as [<-|[?|(s' & [= <-] & Hne)]]; done. }
  apply subseteq_size in Hsub. rewrite size_singleton in Hsub. lia.
Qed.

(** ** The file filters *)

Lemma lower_app a b : lower (a +:+ b) = lower a +:+ lower b.
Proof.
  induction a as [|c a IH]; [done|].
  change (String c a +:+ b) with (String c (a +:+ b)). simpl. by rewrite IH.
Qed.

Lemma endswith_suffix p root : Py.endswith p (root +:+ p) = true.
Proof.
  induction root as [|c root IH].
  - change ("" +:+ p) with p. destruct p; simpl; [done|].
    by rewrite Ascii.eqb_refl, String.eqb_refl.
  - change (String c root +:+ p) with (String c (root +:+ p)).
    simpl. by rewrite IH, orb_true_r.
Qed.

Lemma append_assoc (a b c : string) : a +:+ (b +:+ c) = (a +:+ b) +:+ c.
Proof.
  induction a as [|x a IH]; [done|].
  change (String x a +:+ (b +:+ c)) with (String x (a +:+ (b +:+ c))).
  by rewrite IH.
Qed.

Lemma startswith_app p a b :
  Py.startswith p a = true → Py.startswith p (a +:+ b) = true.
Proof.
  revert a. induction p as [|x p IH]; intros a; [done|].
  destruct a as [|y a]; [done|].
  change (String y a +:+ b) with (String y (a +:+ b)). simpl.
  intros [-> H]%andb_true_iff. by rewrite IH.
Qed.

Lemma startswith_prefix p q s :
  Py.startswith (p +:+ q) s = true → Py.startswith p s = true.
Proof.
  revert s. induction p as [|x p IH]; intros s; [done|].
  change (String x p +:+ q) with (String x (p +:+ q)).
  destruct s as [|y s]; [done|]. simpl.
  intros [-> H]%andb_true_iff. by rewrite (IH s).
Qed.

Lemma startswith_contains x p s :
  Py.startswith p s = true → Py.contains_char x p = true →
  Py.contains_char x s = true.
Proof.
  revert s. induction p as [|a p IH]; intros s; [done|].
  destruct s as [|b s]; [done|]. simpl.
  intros [Hab H]%andb_true_iff [Hx|Hx]%orb_true_iff.
  - apply Ascii.eqb_eq in Hab as ->. by rewrite Hx.
  - by rewrite (IH s), orb_true_r.
Qed.

(** A prefix without underscore of a name [root_...] is a prefix of
    [root]; a prefix that ends with its only underscore is [root_]. *)
Lemma startswith_before_underscore p root rest :
  Py.contains_char "_" p = false →
  Py.startswith p (root +:+ "_" +:+ rest) = true →
  Py.startswith p root = true.
Proof.
  revert root. induction p as [|a p IH]; intros root Hp; [done|].
  cbn [Py.contains_char] in Hp. apply orb_false_iff in Hp as [Ha Hp].
  destruct root as [|b root].
  - change ("" +:+ "_" +:+ rest) with (String "_" rest). cbn [Py.startswith].
    intros [Hab _]%andb_true_iff. by rewrite Hab in Ha.
  - change (String b root +:+ "_" +:+ rest)
      with (String b (root +:+ "_" +:+ rest)). cbn [Py.startswith].
    intros [-> H]%andb_true_iff. by rewrite (IH root).
Qed.

Lemma startswith_upto_underscore p root rest :
  Py.contains_char "_" p = false → Py.contains_char "_" root = false →
  Py.startswith (p +:+ "_") (root +:+ "_" +:+ rest) = true → root = p.
Proof.
  revert root. induction p as [|a p IH]; intros root Hp Hroot.
  - destruct root as [|b root]; [done|].
    change (String b root +:+ "_" +:+ rest)
      with (String b (root +:+ "_" +:+ rest)).
    change ("" +:+ "_") with (String "_" ""). cbn [Py.startswith].
    cbn [Py.contains_char] in Hroot. apply orb_false_iff in Hroot as [Hb _].
    intros [Hab _]%andb_true_iff.
    apply Ascii.eqb_eq in Hab as <-. done.
  - cbn [Py.contains_char] in Hp. apply orb_false_iff in Hp as [Ha Hp].
    change (String a p +:+ "_") with (String a (p +:+ "_")).
    destruct root as [|b root].
    + change ("" +:+ "_" +:+ rest) with (String "_" rest). cbn [Py.startswith].
      intros [Hab _]%andb_true_iff. by rewrite Hab in Ha.
    + change (String b root +:+ "_" +:+ rest)
        with (String b (root +:+ "_" +:+ rest)). cbn [Py.startswith].
      cbn [Py.contains_char] in Hroot. apply orb_false_iff in Hroot as [_ Hroot].
      intros [Hab H]%andb_true_iff. apply Ascii.eqb_eq in Hab as ->.
      by rewrite (IH root).
Qed.

Lemma selected_schedule_file file :
  selected file = true → schedule_file file = true ∧ scanned_file file = true.
Proof.
  intros Hsel. pose proof (selected_no_underscore file Hsel) as Hund.
  unfold selected in Hsel.
  apply andb_true_iff in Hsel as [Hsel _].
  apply andb_true_iff in Hsel as [Hend Hpre].
  apply negb_true_iff in Hpre. cbn [existsb] in Hpre.
  apply orb_false_iff in Hpre as [_ Hpre].
  apply orb_false_iff in Hpre as [_ Hpre].
  apply orb_false_iff in Hpre as [_ Hpre].
  apply orb_false_iff in Hpre as [Htilde _].
  assert (Py.endswith ".xlsx" (lower file) = true) as Hlow.
  { apply endswith_app in Hend as [root ->].
    rewrite lower_app. apply endswith_suffix. }
  assert (∀ p, Py.contains_char "_" p = true → Py.startswith p file = false)
    as Hno.
  { intros p Hp. destruct (Py.startswith p file) eqn:Hs; [|done].
    by rewrite (startswith_contains "_" p file Hs Hp) in Hund. }
  unfold schedule_file, scanned_file. rewrite Hlow. cbn [existsb].
  rewrite (Hno "vlookup_"), (Hno "duplicate_"), (Hno "duplicate_ssnit_"),
    (Hno "._"), Htilde by done.
  done.
Qed.

Lemma schedule_file_scanned file :
  schedule_file file = true → scanned_file file = true.
Proof.
  unfold schedule_file, scanned_file.
  intros [-> Hpre]%andb_true_iff. apply negb_true_iff in Hpre.
  cbn [existsb] in *.
  apply orb_false_iff in Hpre as [-> Hpre].
  apply orb_false_iff in Hpre as [Hdup Hpre].
  apply orb_false_iff in Hpre as [-> Hpre].
  apply orb_false_iff in Hpre as [-> _].
  destruct (Py.startswith "duplicate_ssnit_" file) eqn:Hs; [|done].
  by rewrite (startswith_prefix "duplicate_" "ssnit_" file Hs) in Hdup.
Qed.

(** The three file filters are nested: a file that append-total selects is
    a schedule file for validation and the other walks, and a schedule
    file for these is scanned by [multiple_ssnit].  Neither inclusion can
    be reversed: the walks also take names with an underscore or an
    upper-case extension, and the scan also takes the export of
    [multiple_account_names]. *)
Theorem file_filters_nested :
  (∀ file, selected file = true → schedule_file file = true)
  ∧ (∀ file, schedule_file file = true → scanned_file file = true)
  ∧ (schedule_file "jan_2024.xlsx" = true ∧ selected "jan_2024.xlsx" = false)
  ∧ (schedule_file "JAN.XLSX" = true ∧ selected "JAN.XLSX" = false)
  ∧ (∀ company,
       scanned_file ("duplicate_analysis_" +:+ company +:+ ".xlsx") = true
       ∧ schedule_file ("duplicate_analysis_" +:+ company +:+ ".xlsx") = false).
Proof.
  split; [intros file H; by apply selected_schedule_file|].
  split; [exact schedule_file_scanned|].
  split; [by vm_compute|]. split; [by vm_compute|].
  intros company. split.
  - unfold scanned_file.
    rewrite lower_app, lower_app, append_assoc, endswith_suffix. reflexivity.
  - unfold schedule_file.
    assert (existsb
              (λ p, Py.startswith p ("duplicate_analysis_" +:+ company +:+ ".xlsx"))
              ["vlookup_"; "duplicate_"; "._"; "~$"] = true) as -> by reflexivity.
    apply andb_false_r.
Qed.

Lemma selected_root file :
  selected file = true →
  let root := (splitext file).1 in
  Py.contains_char "_" root = false
  ∧ root ≠ "."
  ∧ (∀ p, Py.startswith p root = true → Py.startswith p file = true).
Proof.
  intros Hsel. pose proof (selected_no_underscore file Hsel) as Hund.
  unfold selected in Hsel.
  apply andb_true_iff in Hsel as [Hsel _].
  apply andb_true_iff in Hsel as [Hend _].
  apply endswith_app in Hend as [r ->]. rewrite splitext_xlsx.
  destruct (all_dots r) eqn:Hdots; simpl.
  - split; [done|]. split; [|done].
    by destruct r as [|c [|c' r]].
  - rewrite contains_char_app in Hund. apply orb_false_iff in Hund as [Hr _].
    split; [done|]. split; [by intros ->|].
    intros p Hp. by apply startswith_app.
Qed.

(** The names the program gives to the files it writes, against the
    filters.  The lookup table [vlookup_<company>.xlsx] and the exports
    [duplicate_ssnit_<company>.xlsx] and [duplicate_analysis_<company>.xlsx]
    are never taken for schedule files by validation or by append-total.
    The exports [ssnit_search_<number>.xlsx] of [find_my_schedule] and
    [duplicates.xlsx] of [get_duplicates] are taken for schedule files by
    validation, and a file renamed by append-total still is one, unless
    its base name is [vlookup] or [duplicate]. *)
Theorem generated_names_and_filters :
  (∀ company,
     schedule_file ("vlookup_" +:+ company +:+ ".xlsx") = false
     ∧ selected ("vlookup_" +:+ company +:+ ".xlsx") = false
     ∧ schedule_file ("duplicate_ssnit_" +:+ company +:+ ".xlsx") = false
     ∧ selected ("duplicate_ssnit_" +:+ company +:+ ".xlsx") = false
     ∧ schedule_file ("duplicate_analysis_" +:+ company +:+ ".xlsx") = false
     ∧ selected ("duplicate_analysis_" +:+ company +:+ ".xlsx") = false)
  ∧ (∀ ssnit_number,
       schedule_file ("ssnit_search_" +:+ ssnit_number +:+ ".xlsx") = true)
  ∧ schedule_file "duplicates.xlsx" = true
  ∧ (∀ file total_tier2,
       selected file = true →
       schedule_file (new_filename file total_tier2)
       = negb (bool_decide ((splitext file).1 ∈ ["vlookup"; "duplicate"]))).
Proof.
  split; [|split; [|split]].
  - intros company.
    assert (∀ file, Py.contains_char "_" file = true → selected file = false)
      as Hsel by (intros file H; unfold selected; rewrite H; apply andb_false_r).
    repeat split.
    + unfold schedule_file.
      assert (existsb
                (λ p, Py.startswith p ("vlookup_" +:+ company +:+ ".xlsx"))
                ["vlookup_"; "duplicate_"; "._"; "~$"] = true) as -> by reflexivity.
      apply andb_false_r.
    + by apply Hsel.
    + unfold schedule_file.
      assert (existsb
                (λ p, Py.startswith p ("duplicate_ssnit_" +:+ company +:+ ".xlsx"))
                ["vlookup_"; "duplicate_"; "._"; "~$"] = true) as -> by reflexivity.
      apply andb_false_r.
    + by apply Hsel.
    + unfold schedule_file.
      assert (existsb
                (λ p, Py.startswith p ("duplicate_analysis_" +:+ company +:+ ".xlsx"))
                ["vlookup_"; "duplicate_"; "._"; "~$"] = true) as -> by reflexivity.
      apply andb_false_r.
    + by apply Hsel.
  - intros n. unfold schedule_file.
    rewrite lower_app, lower_app, append_assoc, endswith_suffix. reflexivity.
  - by vm_compute.
  - intros file total Hsel.
    destruct (selected_root file Hsel) as (Hund & Hdot & Hpre).
    pose proof Hsel as Hsel'. unfold selected in Hsel'.
    apply andb_true_iff in Hsel' as [Hsel' _].
    apply andb_true_iff in Hsel' as [_ Htilde].
    apply negb_true_iff in Htilde. cbn [existsb] in Htilde.
    apply orb_false_iff in Htilde as [_ Htilde].
    apply orb_false_iff in Htilde as [_ Htilde].
    apply orb_false_iff in Htilde as [_ Htilde].
    apply orb_false_iff in Htilde as [Htilde _].
    unfold schedule_file, new_filename.
    set (root := (splitext file).1) in *.
    assert (Py.endswith ".xlsx"
              (lower (root +:+ "_" +:+ format_2f total +:+ ".xlsx")) = true) as ->.
    { rewrite !lower_app, !append_assoc. apply endswith_suffix. }
    cbn [existsb andb].
    assert (Py.startswith "._" (root +:+ "_" +:+ format_2f total +:+ ".xlsx")
            = false) as ->.
    { destruct (Py.startswith "._" (root +:+ _)) eqn:Hs; [|done].
      by apply (startswith_upto_underscore "." root) in Hs. }
    assert (Py.startswith "~$" (root +:+ "_" +:+ format_2f total +:+ ".xlsx")
            = false) as ->.
    { destruct (Py.startswith "~$" (root +:+ _)) eqn:Hs; [|done].
      apply startswith_before_underscore in Hs; [|done].
      by rewrite (Hpre _ Hs) in Htilde. }
    rewrite !orb_false_r.
    destruct (decide (root = "vlookup")) as [Hv|Hv].
    { rewrite Hv. reflexivity. }
    destruct (decide (root = "duplicate")) as [Hd|Hd].
    { rewrite Hd. reflexivity. }
    rewrite bool_decide_eq_false_2.
    2:{ rewrite !elem_of_cons, elem_of_nil. tauto. }
    assert (Py.startswith "vlookup_" (root +:+ "_" +:+ format_2f total +:+ ".xlsx")
            = false) as ->.
    { destruct (Py.startswith "vlookup_" (root +:+ _)) eqn:Hs; [|done].
      by apply (startswith_upto_underscore "vlookup" root) in Hs. }
    assert (Py.startswith "duplicate_" (root +:+ "_" +:+ format_2f total +:+ ".xlsx")
            = false) as ->.
    { destruct (Py.startswith "duplicate_" (root +:+ _)) eqn:Hs; [|done].
      by apply (startswith_upto_underscore "duplicate" root) in Hs. }
    done.
Qed.

Lemma generated_names_and_filters_witness :
  selected "jan.xlsx" = true
  ∧ schedule_file (new_filename "jan.xlsx" one) = true
  ∧ selected "vlookup.xlsx" = true
  ∧ schedule_file (new_filename "vlookup.xlsx" one) = false.
Proof.
  split; [reflexivity|]. split.
  - rewrite (proj2 (proj2 (proj2 generated_names_and_filters)) "jan.xlsx" one);
      reflexivity.
  - split; [reflexivity|].
    rewrite (proj2 (proj2 (proj2 generated_names_and_filters)) "vlookup.xlsx" one);
      reflexivity.
Defined.

(** ** Destinations of a batch *)






(** ** Missing names in the fallback source *)

Lemma entry_name_fill_missing f r e :
  entry_name f (Validation.fill_missing r e)
  = if Validation.truthy (entry_name f e) then entry_name f e
    else Some (master_name f r).
Proof. by destruct f. Qed.

Lemma schedule_name_update_row f data r :
  schedule_name f (update_row data r)
  = assign_if_truthy (entry_name f data) (schedule_name f r).
Proof. by destruct f. Qed.

(** In [Dashboard.validation] the account number of the fallback source is
    guarded by [pd.notna], the three names are not.  When the primary
    record of an identifier lacks a name and the first fallback row of the
    identifier lacks it too, the record takes the missing value, which is
    truthy: later fallback rows do not replace it, and the annotator
    writes it over the name that the schedule rows of the identifier
    carry. *)
Theorem missing_fallback_name_is_written
  (f : name_field) (vl : list Vlookup.row) (ms : list MasterReport.row)
  (k : string) (e : Validation.entry) (r0 : MasterReport.row)
  (rest : list MasterReport.row) :
  Validation.primary_dict vl !! k = Some e →
  Validation.truthy (entry_name f e) = false →
  filter (λ r, validation_has_key k r = true) ms = r0 :: rest →
  master_name f r0 = NaN →
  (∃ e', Validation.vlookup_dict vl ms !! k = Some e'
         ∧ entry_name f e' = Some NaN)
  ∧ (∀ rows i r,
       rows !! i = Some r → Schedule.ssnit r = Text k →
       ∃ r', map_ssnit_data (Validation.vlookup_dict vl ms) rows !! i = Some r'
             ∧ schedule_name f r' = NaN).
Proof.
  intros He Hempty Hms Hr0.
  assert (∃ e', Validation.vlookup_dict vl ms !! k = Some e'
                ∧ entry_name f e' = Some NaN) as (e' & He' & Hname).
  { rewrite validation_dict_lookup, He, Hms. cbn [foldl].
    assert (validation_master_at k (Some e) r0
            = Some (Validation.fill_missing r0 e)) as ->.
    { unfold validation_master_at.
      assert (r0 ∈ filter (λ r, validation_has_key k r = true) ms) as Hin
        by (rewrite Hms; apply list_elem_of_here).
      apply list_elem_of_filter in Hin as [Hin _].
      unfold validation_has_key in Hin. by rewrite Hin. }
    assert (Forall (λ r, validation_has_key k r = true) rest) as Hrest.
    { pose proof (Forall_filter_true (validation_has_key k) ms) as Hall.
      rewrite Hms in Hall. by apply Forall_cons in Hall as [_ ?]. }
    destruct (validation_master_at_Some k (Validation.fill_missing r0 e) rest Hrest)
      as (e' & -> & Ha & Hs & Hf & Ho).
    exists e'. split; [done|].
    assert (entry_name f e'
            = fill_from (entry_name f (Validation.fill_missing r0 e))
                (map (λ r, Some (master_name f r)) rest)) as ->
      by (by destruct f).
    rewrite entry_name_fill_missing, Hempty, Hr0.
    by apply fill_from_truthy. }
  split; [by exists e'|].
  intros rows i r Hi Hk. rewrite map_ssnit_data_map.
  change (map ?g rows) with (g <$> rows). rewrite list_lookup_fmap, Hi. simpl.
  eexists. split; [done|].
  unfold annotate_row. rewrite Hk. simpl. rewrite He'.
  by rewrite schedule_name_update_row, Hname.
Qed.

Lemma missing_fallback_name_is_written_witness :
  ∃ r', map_ssnit_data (Validation.vlookup_dict nameless_vlookup nameless_master)
          [named_schedule_row] !! 0%nat = Some r'
        ∧ Schedule.surname r' = NaN.
Proof.
  assert (Validation.primary_dict nameless_vlookup !! "D4"
          = Some (Validation.Entry (Some (Text "444")) None (Some (Text "Esi")) None))
    as He by (by vm_compute).
  assert (filter (λ r, validation_has_key "D4" r = true) nameless_master
          = nameless_master) as Hms by (by vm_compute).
  exact (proj2 (missing_fallback_name_is_written surname_field
                  nameless_vlookup nameless_master "D4" _ _ _
                  He eq_refl Hms eq_refl)
           [named_schedule_row] 0%nat named_schedule_row eq_refl eq_refl).
Defined.

(** ** Running an annotator twice *)






(** ** What the cleaning statement does to its callers *)

Lemma process_schedule_files_from ssnit_mapping files : ∀ st,
  foldl (process_schedule_files_step ssnit_mapping) st files
  = WalkState (walked st ++ files) (modified_files st) (unmapped_records st)
      (failed_files st
       ++ map fst (filter (λ f, schedule_file f.1 = true ∧ is_Some f.2) files)).
Proof.
  induction files as [|f files IH]; intros st.
  - simpl. rewrite !app_nil_r. by destruct st.
  - cbn [foldl]. rewrite IH. rewrite filter_cons.
    unfold process_schedule_files_step.
    destruct (schedule_file f.1) eqn:Hf.
    + destruct f.2 as [rows|] eqn:Hrows.
      * rewrite decide_True by (split; [done|by eexists]).
        simpl. by rewrite <- !app_assoc.
      * rewrite decide_False by (intros [_ [? ?]]; done).
        simpl. by rewrite <- !app_assoc.
    + rewrite decide_False by (intros [? _]; done).
      simpl. by rewrite <- !app_assoc.
Qed.

(** Every function that starts from [create_comprehensive_mapping] or from
    the cleaning statement of [process_schedule_files] stops there:
    [process_dataframe] and [check_and_standardize_accounts] raise
    [AttributeError] for every input, before any file is read, and
    [process_schedule_files] shows an error for every schedule file that
    has an [ssnit] column, leaves every file as it is, and returns two
    empty lists, whatever the mapping. *)
Theorem mapping_callers_never_standardize :
  (∀ rows vlookup_dict master_dict,
     process_dataframe rows vlookup_dict master_dict = Raise AttributeError)
  ∧ (∀ files vlookup_dict master_dict,
       check_and_standardize_accounts files vlookup_dict master_dict
       = Raise AttributeError)
  ∧ (∀ files ssnit_mapping,
       process_schedule_files files ssnit_mapping
       = WalkState files [] []
           (map fst (filter (λ f, schedule_file f.1 = true ∧ is_Some f.2) files))).
Proof.
  split; [done|]. split; [done|].
  intros files ssnit_mapping. unfold process_schedule_files.
  by rewrite process_schedule_files_from.
Qed.

(** ** The lookup table that [Dashboard.vlookup] generates *)

Lemma vlookup_table report company table :
  vlookup report company = VlookupTable table →
  Forall (λ col, col ∈ report_columns report) required_columns
  ∧ company_rows report company ≠ []
  ∧ table
    = map (λ a, vlookup_row a
                  (match Almighty.Ssnit a with
                   | NaN => NaN
                   | Text s => Text (Py.strip s)
                   end))
        (company_rows report company).
Proof.
  unfold vlookup.
  destruct (filter (λ col, col ∉ report_columns report) required_columns)
    as [|c cs] eqn:Hmiss; [|done].
  destruct (company_rows report company) as [|a rows] eqn:Hrows; [done|].
  unfold Series_str_strip. destruct (existsb notna _); [|done].
  intros [= <-]. split; [|split; [done|]].
  - apply Forall_forall. intros col Hcol.
    destruct (decide (col ∈ report_columns report)) as [|Hn]; [done|].
    assert (col ∈ filter (λ col, col ∉ report_columns report) required_columns)
      as Hin by (by apply list_elem_of_filter).
    rewrite Hmiss in Hin. by apply elem_of_nil in Hin.
  - by rewrite map_map, zip_with_map_r.
Qed.

Lemma vlookup_table_rows
  (report : almighty_report) (company_name : string) (table : list Company.row) :
  vlookup report company_name = VlookupTable table →
  Forall (λ col, col ∈ report_columns report) required_columns
  ∧ table ≠ []
  ∧ length table = length (company_rows report company_name)
  ∧ (∀ i r, table !! i = Some r →
       ∃ a, company_rows report company_name !! i = Some a
            ∧ Almighty.Employer_Name a = Text company_name
            ∧ Company.Accountno r = Almighty.Client_Account_Number a
            ∧ Company.Accountno2 r = Almighty.Accountno a
            ∧ Company.Surname r = Almighty.Surname a
            ∧ Company.First_Name r = Almighty.First_Name a
            ∧ Company.Other_Names r = Almighty.Other_Names a
            ∧ Company.Ssnit r
              = match Almighty.Ssnit a with
                | NaN => NaN
                | Text s => Text (Py.strip s)
                end)
  ∧ (∀ r s, r ∈ table → Company.Ssnit r = Text s →
       Py.strip s = s
       ∧ Validation.key_of (Vlookup.Ssnit (as_vlookup_row r)) = s
       ∧ (∀ (ssnit_set : gset cell) rows row,
            Company.Ssnit r ∈ ssnit_set → row ∈ rows →
            Py.strip (str (Schedule.ssnit row)) = s →
            s ∈ ssnit_in_file ssnit_set rows)).
Proof.
  intros H. destruct (vlookup_table _ _ _ H) as (Hcols & Hne & ->).
  split; [done|]. split; [by destruct (company_rows report company_name)|].
  split; [by rewrite length_map|]. split.
  - intros i r Hi. change (map ?g ?l) with (g <$> l) in Hi.
    rewrite list_lookup_fmap in Hi.
    destruct (company_rows report company_name !! i) as [a|] eqn:Ha; [|done].
    injection Hi as <-. exists a. split; [done|]. split; [|done].
    apply list_elem_of_lookup_2 in Ha. unfold company_rows in Ha.
    by apply list_elem_of_filter in Ha as [? _].
  - intros r s Hr Hs.
    apply list_elem_of_In, in_map_iff in Hr as (a & <- & _). simpl in Hs.
    assert (Py.strip s = s) as Hstrip.
    { destruct (Almighty.Ssnit a) as [|s0]; [done|].
      injection Hs as <-. apply strip_idemp. }
    split; [done|]. split.
    + rewrite key_of_strip. simpl. by rewrite Hs.
    + intros ssnit_set rows row Hset Hrow Hrs. unfold ssnit_in_file.
      rewrite elem_of_list_to_set, list_elem_of_filter. split.
      * simpl in Hset. by rewrite Hs in Hset.
      * apply list_elem_of_In, in_map_iff. exists row.
        split; [done|by apply list_elem_of_In].
Qed.


(** [Dashboard.vlookup] stops with the list of the required columns that
    the report lacks, when there is one, and otherwise with an error when
    no row of the report has the name of the folder as [Employer Name].
    The table it produces has one row for each such row of the report, in
    the order of the report; its [Accountno] is the report's
    [Client Account Number] and its [Accountno2] the report's [Accountno].
    Every identifier of the table is missing or trimmed text: it is the
    key under which [Dashboard.validation] stores the row, and the schedule
    scan of [multiple_ssnit] finds it in every schedule file that holds
    it. *)
Theorem vlookup_table_is_trimmed :
  (∀ report company_name,
     filter (λ col, col ∉ report_columns report) required_columns ≠ [] →
     vlookup report company_name
     = MissingColumns
         (filter (λ col, col ∉ report_columns report) required_columns))
  ∧ (∀ report company_name,
       Forall (λ col, col ∈ report_columns report) required_columns →
       company_rows report company_name = [] →
       vlookup report company_name = NoCompanyData)
  ∧ (∀ report company_name table,
       vlookup report company_name = VlookupTable table →
       Forall (λ col, col ∈ report_columns report) required_columns
       ∧ table ≠ []
       ∧ length table = length (company_rows report company_name)
       ∧ (∀ i r, table !! i = Some r →
            ∃ a, company_rows report company_name !! i = Some a
                 ∧ Almighty.Employer_Name a = Text company_name
                 ∧ Company.Accountno r = Almighty.Client_Account_Number a
                 ∧ Company.Accountno2 r = Almighty.Accountno a
                 ∧ Company.Surname r = Almighty.Surname a
                 ∧ Company.First_Name r = Almighty.First_Name a
                 ∧ Company.Other_Names r = Almighty.Other_Names a
                 ∧ Company.Ssnit r
                   = match Almighty.Ssnit a with
                     | NaN => NaN
                     | Text s => Text (Py.strip s)
                     end)
       ∧ (∀ r s, r ∈ table → Company.Ssnit r = Text s →
            Py.strip s = s
            ∧ Validation.key_of (Vlookup.Ssnit (as_vlookup_row r)) = s
            ∧ (∀ (ssnit_set : gset cell) rows row,
                 Company.Ssnit r ∈ ssnit_set → row ∈ rows →
                 Py.strip (str (Schedule.ssnit row)) = s →
                 s ∈ ssnit_in_file ssnit_set rows))).
Proof.
  split; [|split; [|exact vlookup_table_rows]].
  - intros report company_name Hne. unfold vlookup.
    by destruct (filter _ required_columns).
  - intros report company_name Hall Hrows. unfold vlookup.
    rewrite filter_none, Hrows; [done|].
    eapply Forall_impl; [exact Hall|]. by intros col Hcol Hn.
Qed.

Lemma vlookup_table_is_trimmed_witness :
  vlookup sample_report "Acme"
  = VlookupTable
      [Company.Row (Text "A1") (Text "Mensah") (Text "Ama") NaN (Text "111")
         (Text "x1");
       Company.Row NaN (Text "Boateng") NaN NaN (Text "333") (Text "x3")]
  ∧ Validation.key_of (Text "A1") = "A1".
Proof.
  assert (vlookup sample_report "Acme"
          = VlookupTable
              [Company.Row (Text "A1") (Text "Mensah") (Text "Ama") NaN
                 (Text "111") (Text "x1");
               Company.Row NaN (Text "Boateng") NaN NaN (Text "333") (Text "x3")])
    as H by (by vm_compute).
  split; [exact H|].
  destruct (proj2 (proj2 vlookup_table_is_trimmed) _ _ _ H)
    as (_ & _ & _ & _ & Hid).
  destruct (Hid _ "A1" (list_elem_of_here _ _) eq_refl) as (_ & Hkey & _).
  exact Hkey.
Defined.

(** ** Validation of a file that lacks a column *)

Lemma filter_ext_elem {A} (P Q : A → Prop) `{∀ x, Decision (P x)}
  `{∀ x, Decision (Q x)} (l : list A) :
  (∀ x, x ∈ l → P x ↔ Q x) → filter P l = filter Q l.
Proof.
  induction l as [|a l IH]; intros Hl; [done|].
  rewrite !filter_cons.
  assert (filter P l = filter Q l) as ->
    by (apply IH; intros x Hx; apply Hl; by apply list_elem_of_further).
  pose proof (Hl a (list_elem_of_here _ _)) as Ha.
  destruct (decide (P a)), (decide (Q a)); tauto.
Qed.

Lemma elem_of_assigned_fields dict rows f :
  f ∈ assigned_fields dict (map clean_schedule_row rows) ↔
  ∃ r data v, r ∈ rows
    ∧ dict !! Py.strip (str (Schedule.ssnit r)) = Some data
    ∧ (f, v) ∈ entry_items data ∧ Validation.truthy v = true.
Proof.
  unfold assigned_fields. rewrite list_elem_of_bind. split.
  - intros (c & Hf & Hc).
    apply elem_of_unique, list_elem_of_In, in_map_iff in Hc as (r' & <- & Hr').
    apply in_map_iff in Hr' as (r & <- & Hr). simpl in Hf.
    destruct (dict !! Py.strip (str (Schedule.ssnit r))) as [data|] eqn:Hd;
      [|by apply elem_of_nil in Hf].
    apply list_elem_of_In, in_map_iff in Hf as ([f' v] & <- & Hfv).
    apply list_elem_of_In, list_elem_of_filter in Hfv as [Hv Hfv].
    exists r, data, v. split; [by apply list_elem_of_In|done].
  - intros (r & data & v & Hr & Hd & Hfv & Hv).
    exists (Text (Py.strip (str (Schedule.ssnit r)))). split.
    + simpl. rewrite Hd. apply list_elem_of_In, in_map_iff.
      exists (f, v). split; [done|].
      apply list_elem_of_In, list_elem_of_filter. by split.
    + apply elem_of_unique, list_elem_of_In, in_map_iff.
      exists (clean_schedule_row r). split; [done|].
      apply in_map_iff. exists r. split; [done|by apply list_elem_of_In].
Qed.

Lemma assigned_fields_names dict rows f :
  f ∈ assigned_fields dict (map clean_schedule_row rows) →
  f ∈ ["accountno"; "surname"; "first_name"; "other_name"].
Proof.
  intros (r & data & v & _ & _ & Hfv & _)%elem_of_assigned_fields.
  unfold entry_items in Hfv. rewrite !elem_of_cons, elem_of_nil in Hfv.
  rewrite !elem_of_cons.
  destruct Hfv as [[= -> _]|[[= -> _]|[[= -> _]|[[= -> _]|[]]]]]; tauto.
Qed.

Lemma validate_sheet_with_salary dict sh :
  "ssnit" ∈ sheet_columns sh → "salary" ∈ sheet_columns sh →
  validate_sheet dict sh
  = match filter (λ col, col ∉ sheet_columns sh
                              ++ assigned_fields dict
                                   (map clean_schedule_row (sheet_rows sh)))
            ["accountno"; "surname"; "first_name"; "other_name"] with
    | [] => Written (map (validated_row dict) (sheet_rows sh))
    | (_ :: _) as missing => KeyError missing
    end.
Proof.
  intros Hssnit Hsalary. unfold validate_sheet.
  rewrite bool_decide_eq_true_2 by done. rewrite clean_frame.
  rewrite bool_decide_eq_true_2 by (apply elem_of_app; by left).
  pose proof (validate_file_rows dict (sheet_rows sh)) as Hrows.
  unfold validate_file in Hrows. rewrite clean_frame in Hrows.
  destruct (to_numeric errors_coerce _) as [salary|e]; [|done].
  injection Hrows as ->.
  set (columns1 := sheet_columns sh ++ assigned_fields dict _).
  assert (filter (λ col, col ∉ columns1 ++ ["tier1"; "tier2"]) output_columns
          = filter (λ col, col ∉ columns1)
              ["accountno"; "surname"; "first_name"; "other_name"]) as ->.
  { change output_columns
      with (["accountno"; "surname"; "first_name"; "other_name"]
            ++ ["ssnit"; "tier1"; "tier2"]).
    rewrite filter_app.
    rewrite (filter_none _ ["ssnit"; "tier1"; "tier2"]).
    2:{ repeat constructor; intros Hn; apply Hn; rewrite elem_of_app.
        - left. apply elem_of_app. by left.
        - right. apply list_elem_of_here.
        - right. apply list_elem_of_further, list_elem_of_here. }
    rewrite app_nil_r. apply filter_ext_elem. intros col Hcol.
    rewrite elem_of_app, !elem_of_cons, elem_of_nil.
    rewrite !elem_of_cons, elem_of_nil in Hcol.
    split; [tauto|]. intros Hn [?|[->|[->|[]]]]; [done| |].
    - destruct Hcol as [?|[?|[?|[?|[]]]]]; done.
    - destruct Hcol as [?|[?|[?|[?|[]]]]]; done. }
  done.
Qed.

(** [Dashboard.validation] on a file with any columns.  A file without an
    [ssnit] or a [salary] column fails with [KeyError] and is not written.
    A file that has both is written, with the rows of the typed model,
    exactly when each of the four identity columns is in the file or is
    assigned by the mapping loop, which creates a column when the lookup
    dictionary has a truthy value of that field for the trimmed identifier
    of some row; otherwise it fails on the columns that are still missing.
    The file written has the seven output columns and no [salary] column:
    validating it again fails, whatever the dictionary. *)
Theorem validation_needs_its_columns :
  (∀ dict sh,
     "ssnit" ∉ sheet_columns sh → validate_sheet dict sh = KeyError ["ssnit"])
  ∧ (∀ dict sh,
       "ssnit" ∈ sheet_columns sh → "salary" ∉ sheet_columns sh →
       validate_sheet dict sh = KeyError ["salary"])
  ∧ (∀ dict sh,
       "ssnit" ∈ sheet_columns sh → "salary" ∈ sheet_columns sh →
       validate_sheet dict sh
       = match filter (λ col, col ∉ sheet_columns sh
                                   ++ assigned_fields dict
                                        (map clean_schedule_row (sheet_rows sh)))
                 ["accountno"; "surname"; "first_name"; "other_name"] with
         | [] => Written (map (validated_row dict) (sheet_rows sh))
         | (_ :: _) as missing => KeyError missing
         end)
  ∧ (∀ dict rows f,
       f ∈ assigned_fields dict (map clean_schedule_row rows) ↔
       ∃ r data v, r ∈ rows
         ∧ dict !! Py.strip (str (Schedule.ssnit r)) = Some data
         ∧ (f, v) ∈ entry_items data ∧ Validation.truthy v = true)
  ∧ (∀ dict sh,
       Forall (λ col, col ∈ sheet_columns sh)
         ["ssnit"; "salary"; "accountno"; "surname"; "first_name"; "other_name"] →
       validate_sheet dict sh = Written (map (validated_row dict) (sheet_rows sh))
       ∧ validate_file dict (sheet_rows sh)
         = Ok (map (validated_row dict) (sheet_rows sh)))
  ∧ (∀ dict sh,
       sheet_columns sh = output_columns →
       validate_sheet dict sh = KeyError ["salary"])
  ∧ validate_sheet ∅ bare_sheet
    = KeyError ["accountno"; "surname"; "first_name"; "other_name"]
  ∧ validate_sheet sample_dict bare_sheet
    = Written (map (validated_row sample_dict) (sheet_rows bare_sheet)).
Proof.
  assert (∀ dict sh,
            "ssnit" ∈ sheet_columns sh → "salary" ∉ sheet_columns sh →
            validate_sheet dict sh = KeyError ["salary"]) as Hsalary.
  { intros dict sh Hssnit Hsalary. unfold validate_sheet.
    rewrite bool_decide_eq_true_2 by done. rewrite clean_frame.
    rewrite bool_decide_eq_false_2; [done|].
    intros [?|Hin%assigned_fields_names]%elem_of_app; [done|].
    rewrite !elem_of_cons, elem_of_nil in Hin.
    destruct Hin as [?|[?|[?|[?|[]]]]]; done. }
  split; [|split; [exact Hsalary|split; [exact validate_sheet_with_salary|]]].
  { intros dict sh Hssnit. unfold validate_sheet.
    by rewrite bool_decide_eq_false_2. }
  split; [exact elem_of_assigned_fields|]. split; [|split; [|split]].
  - intros dict sh Hall. split; [|apply validate_file_rows].
    rewrite !Forall_cons in Hall.
    destruct Hall as (H1 & H2 & H3 & H4 & H5 & H6 & _).
    rewrite validate_sheet_with_salary by done.
    rewrite filter_none; [done|].
    repeat constructor; intros Hn; apply Hn; apply elem_of_app; by left.
  - intros dict sh Hcols. apply Hsalary; rewrite Hcols.
    + unfold output_columns. rewrite !elem_of_cons. tauto.
    + unfold output_columns. rewrite !elem_of_cons, elem_of_nil.
      intros [?|[?|[?|[?|[?|[?|[?|[]]]]]]]]; done.
  - by vm_compute.
  - by vm_compute.
Qed.

(** ** The search of [find_my_schedule] *)

Lemma search_matches_app folder file number columns matches : ∀ found,
  search_matches folder file number columns matches found
  = (found ++ (search_matches folder file number columns matches []).1,
     (search_matches folder file number columns matches []).2).
Proof.
  induction matches as [|row rest IH]; intros found.
  - simpl. by rewrite app_nil_r.
  - cbn [search_matches]. destruct (bool_decide ("salary" ∈ columns)).
    + destruct (float _) as [v|]; [|simpl; by rewrite app_nil_r].
      rewrite (IH (found ++ _)), (IH ([] ++ _)). simpl.
      by rewrite <- app_assoc.
    + rewrite (IH (found ++ _)), (IH ([] ++ _)). simpl.
      by rewrite <- app_assoc.
Qed.

(** The salary read for the record of a row, and whether it can be read. *)
Lemma search_matches_all folder file number columns matches found :
  (∀ row, row ∈ matches →
     "salary" ∈ columns → is_Some (float (salary_str (Search.salary row)))) →
  search_matches folder file number columns matches found
  = (found
     ++ map (λ row, found_record folder file number columns row
                      (if bool_decide ("salary" ∈ columns)
                       then float (salary_str (Search.salary row)) else None))
          matches,
     None).
Proof.
  revert found. induction matches as [|row rest IH]; intros found Hok.
  - simpl. by rewrite app_nil_r.
  - cbn [search_matches map].
    assert (∀ row, row ∈ rest → "salary" ∈ columns →
                   is_Some (float (salary_str (Search.salary row)))) as Hrest
      by (intros r Hr; apply Hok; by apply list_elem_of_further).
    destruct (bool_decide ("salary" ∈ columns)) eqn:Hs.
    + apply bool_decide_eq_true in Hs.
      destruct (Hok row (list_elem_of_here _ _) Hs) as [v Hv]. rewrite Hv.
      rewrite IH by done. by rewrite <- app_assoc.
    + rewrite IH by done. by rewrite <- app_assoc.
Qed.

Lemma search_matches_stop folder file number columns pre bad post found :
  "salary" ∈ columns →
  (∀ row, row ∈ pre → is_Some (float (salary_str (Search.salary row)))) →
  float (salary_str (Search.salary bad)) = None →
  search_matches folder file number columns (pre ++ bad :: post) found
  = (found
     ++ map (λ row, found_record folder file number columns row
                      (float (salary_str (Search.salary row)))) pre,
     Some ValueError).
Proof.
  intros Hs Hpre Hbad. revert found.
  induction pre as [|row pre IH]; intros found.
  - cbn [app search_matches map]. rewrite bool_decide_eq_true_2 by done.
    by rewrite Hbad, app_nil_r.
  - cbn [app search_matches map]. rewrite bool_decide_eq_true_2 by done.
    destruct (Hpre row (list_elem_of_here _ _)) as [v Hv]. rewrite Hv.
    rewrite IH by (intros r Hr; apply Hpre; by apply list_elem_of_further).
    by rewrite <- app_assoc.
Qed.

Lemma search_schedules_from company number files : ∀ st,
  (foldl (search_step company number) st files).1
  = st.1
    ++ concat
         (map (λ f : string * string * Search.sheet,
                 if searched_file company f.1.2
                 then (search_file f.1.1 f.1.2 number f.2 []).1 else [])
            files).
Proof.
  induction files as [|[[folder file] sh] files IH]; intros st.
  - simpl. by rewrite app_nil_r.
  - cbn [foldl map concat]. rewrite IH. unfold search_step. simpl.
    destruct (searched_file company file); [|done].
    assert (search_file folder file number sh st.1
            = (st.1 ++ (search_file folder file number sh []).1,
               (search_file folder file number sh []).2)) as ->.
    { unfold search_file. destruct (bool_decide _).
      - apply search_matches_app.
      - simpl. by rewrite app_nil_r. }
    destruct (search_file folder file number sh []).2; simpl;
      by rewrite <- app_assoc.
Qed.

(** The schedule search of [find_my_schedule].  In a file that has an
    [ssnit] column, the rows searched are those whose trimmed identifier
    is the number asked for.  When the file has no [salary] column, or the
    salary of each of these rows is a number for [float] once its commas
    and blanks are removed, the file adds one record for each of them, in
    order, and no error.  Otherwise the loop stops at the first of these
    rows whose salary [float] refuses: the records of the rows before it
    are kept, those of the rows after it are lost, and an error is shown
    for the file.  A file without [ssnit] column adds nothing.  What a
    file adds does not depend on the other files: the records found are
    those of the files that pass the filter, one file after the other. *)
Theorem search_keeps_records_before_bad_salary
  (folder file ssnit_number : string) (sh : Search.sheet)
  (found : list Search.record) :
  ("ssnit" ∉ Search.columns sh →
     search_file folder file ssnit_number sh found = (found, None))
  ∧ ("ssnit" ∈ Search.columns sh →
     (∀ row, row ∈ ssnit_matches ssnit_number (Search.rows sh) →
        "salary" ∈ Search.columns sh →
        is_Some (float (salary_str (Search.salary row)))) →
     search_file folder file ssnit_number sh found
     = (found
        ++ map (λ row, found_record folder file ssnit_number (Search.columns sh)
                         row
                         (if bool_decide ("salary" ∈ Search.columns sh)
                          then float (salary_str (Search.salary row))
                          else None))
             (ssnit_matches ssnit_number (Search.rows sh)),
        None))
  ∧ (∀ pre bad post,
       "ssnit" ∈ Search.columns sh → "salary" ∈ Search.columns sh →
       ssnit_matches ssnit_number (Search.rows sh) = pre ++ bad :: post →
       (∀ row, row ∈ pre → is_Some (float (salary_str (Search.salary row)))) →
       float (salary_str (Search.salary bad)) = None →
       search_file folder file ssnit_number sh found
       = (found
          ++ map (λ row, found_record folder file ssnit_number
                           (Search.columns sh) row
                           (float (salary_str (Search.salary row)))) pre,
          Some ValueError))
  ∧ (∀ row, row ∈ ssnit_matches ssnit_number (Search.rows sh) ↔
            row ∈ Search.rows sh
            ∧ Py.strip (str (Search.ssnit row)) = ssnit_number)
  ∧ (∀ company_name files,
       (search_schedules company_name ssnit_number files).1
       = concat
           (map (λ f : string * string * Search.sheet,
                   if searched_file company_name f.1.2
                   then (search_file f.1.1 f.1.2 ssnit_number f.2 []).1 else [])
              files)).
Proof.
  split; [|split; [|split; [|split]]].
  - intros Hn. unfold search_file. by rewrite bool_decide_eq_false_2.
  - intros Hs Hok. unfold search_file. rewrite bool_decide_eq_true_2 by done.
    by apply search_matches_all.
  - intros pre bad post Hs Hsal Hm Hpre Hbad. unfold search_file.
    rewrite bool_decide_eq_true_2 by done. rewrite Hm.
    by apply search_matches_stop.
  - intros row. unfold ssnit_matches. rewrite list_elem_of_filter. tauto.
  - intros company files. unfold search_schedules.
    by rewrite search_schedules_from.
Qed.

Lemma search_keeps_records_before_bad_salary_witness :
  search_schedules "Acme" "A1" search_files
  = ([Search.Record "Jan" "jan.xlsx" "A1" (Some (Text "Ama Mensah"))
        (Some (decimal_to_float false 1000 0));
      Search.Record "Feb" "feb.xlsx" "A1" None
        (Some (decimal_to_float false 10005 (-1)))],
     [("Feb", "feb.xlsx")])
  ∧ search_file "Feb" "feb.xlsx" "A1"
      (Search.Sheet ["ssnit"; "salary"]
         [Search.Row (Text "A1") NaN (Text "1_000.5");
          Search.Row (Text "A1") NaN (Text "n/a");
          Search.Row (Text "A1") NaN (Text "300")]) []
    = ([Search.Record "Feb" "feb.xlsx" "A1" None
          (Some (decimal_to_float false 10005 (-1)))],
       Some ValueError).
Proof.
  split; [by vm_compute|].
  apply (proj1 (proj2 (proj2
           (search_keeps_records_before_bad_salary "Feb" "feb.xlsx" "A1"
              (Search.Sheet ["ssnit"; "salary"]
                 [Search.Row (Text "A1") NaN (Text "1_000.5");
                  Search.Row (Text "A1") NaN (Text "n/a");
                  Search.Row (Text "A1") NaN (Text "300")]) [])))
           [Search.Row (Text "A1") NaN (Text "1_000.5")]
           (Search.Row (Text "A1") NaN (Text "n/a"))
           [Search.Row (Text "A1") NaN (Text "300")]).
  - repeat constructor.
  - repeat constructor.
  - by vm_compute.
  - intros row Hrow. apply list_elem_of_singleton in Hrow as ->.
    vm_compute. eauto.
  - by vm_compute.
Defined.

(** [find_my_schedule] reads [vlookup_matches] in the condition of the
    export whenever the lookup table is among the places to search, and
    assigns it only when the table exists.  Asked to search the table of a
    folder that has none, it ends with [UnboundLocalError], after the
    schedule files have been searched when both were asked for: the
    export is not offered, whatever was found.  In every other case the
    export is offered exactly when the table or the schedule files have a
    match. *)
Theorem search_without_lookup_table_fails :
  (∀ search_type company_name ssnit_number files,
     search_type ≠ Search.Schedule_Files →
     (find_my_schedule search_type company_name ssnit_number None files).2
     = UnboundLocalError)
  ∧ (∀ company_name ssnit_number files,
       (find_my_schedule Search.Both company_name ssnit_number None files).1
       = (search_schedules company_name ssnit_number files).1)
  ∧ (∀ company_name ssnit_number vlookup_file files,
       find_my_schedule Search.Schedule_Files company_name ssnit_number
         vlookup_file files
       = ((search_schedules company_name ssnit_number files).1,
          ExportOffered
            (bool_decide
               ((search_schedules company_name ssnit_number files).1 ≠ []))))
  ∧ (∀ search_type company_name ssnit_number vlookup_db files,
       search_type ≠ Search.Schedule_Files →
       (find_my_schedule search_type company_name ssnit_number
          (Some vlookup_db) files).2
       = ExportOffered
           (bool_decide
              (filter (λ r, Py.strip (str (Vlookup.Ssnit r)) = ssnit_number)
                 vlookup_db ≠ []
               ∨ found_records search_type company_name ssnit_number files ≠ []))).
Proof.
  split; [|split; [|split]].
  - by intros [] company number files Hst.
  - done.
  - done.
  - intros st company number vl files Hst.
    unfold find_my_schedule, export_condition, vlookup_matches.
    destruct st; [|done|]; simpl.
    + destruct (filter _ vl) as [|r rs]; [done|].
      solve [done | f_equal; symmetry; apply bool_decide_eq_true; by left].
    + destruct (filter _ vl) as [|r rs].
      * f_equal. apply bool_decide_ext. split; [by right|]. by intros [?|?].
      * solve [done | f_equal; symmetry; apply bool_decide_eq_true; by left].
Qed.

(** ** The total of a validated file *)



(** ** A second run of append-total *)

Lemma step_state_keys p fs f k :
  is_Some (step_state p fs f !! k) →
  is_Some (fs !! k) ∨ Py.contains_char "_" k.2 = true.
Proof.
  unfold step_state.
  destruct (append_total_file p fs f) as [fs1|e] eqn:Hf; [|by left].
  apply append_total_file_Ok in Hf as (wb & col & _ & _ & _ & ->).
  destruct (decide (k = target_key f col)) as [->|Hk].
  - intros _. right. apply new_filename_underscore.
  - rewrite lookup_insert_ne by done. intros [w Hw]. left.
    apply lookup_delete_Some in Hw as [_ Hw]. by eexists.
Qed.

Lemma append_total_loop_keys p files : ∀ fs k,
  is_Some ((append_total_loop p fs files).1 !! k) →
  is_Some (fs !! k) ∨ Py.contains_char "_" k.2 = true.
Proof.
  induction files as [|f rest IH]; intros fs k; [by left|].
  rewrite append_total_loop_cons. simpl.
  intros [H|H]%IH; [|by right]. by apply step_state_keys in H.
Qed.

(** What a second run of append-total finds in the folders of a first run:
    exactly the files that the first run has marked as failed.  A file that
    has been processed is never processed again, and after a run without
    failure a second run has no file to process and changes nothing. *)
Theorem second_run_retries_failed_files
  (p : platform) (fs : filesystem) (folders : list string) :
  NoDup folders →
  (∀ g, g ∈ all_files (append_total_loop p fs (all_files fs folders)).1 folders ↔
        g ∈ all_files fs folders
        ∧ is_Some ((append_total_loop p fs (all_files fs folders)).1 !! g))
  ∧ (∀ i f, all_files fs folders !! i = Some f →
       (f ∈ all_files (append_total_loop p fs (all_files fs folders)).1 folders ↔
        (append_total_loop p fs (all_files fs folders)).2 !! i = Some Failed))
  ∧ (Forall (λ s, s = Processed)
       (append_total_loop p fs (all_files fs folders)).2 →
     all_files (append_total_loop p fs (all_files fs folders)).1 folders = []
     ∧ append_total_loop p (append_total_loop p fs (all_files fs folders)).1
         (all_files (append_total_loop p fs (all_files fs folders)).1 folders)
       = ((append_total_loop p fs (all_files fs folders)).1, [])).
Proof.
  intros Hnd.
  set (files := all_files fs folders).
  set (fs' := (append_total_loop p fs files).1).
  set (statuses := (append_total_loop p fs files).2).
  assert (∀ g, g ∈ all_files fs' folders ↔ g ∈ files ∧ is_Some (fs' !! g)) as H1.
  { intros g. unfold files. rewrite !elem_of_all_files. split.
    - intros (Hfolder & Hsel & Hg). repeat split; [done..| |done].
      apply append_total_loop_keys in Hg as [Hg|Hg]; [done|].
      by rewrite (selected_no_underscore _ Hsel) in Hg.
    - intros [(Hfolder & Hsel & _) Hg]. by repeat split. }
  assert (∀ i f, files !! i = Some f →
            (f ∈ all_files fs' folders ↔ statuses !! i = Some Failed)) as H2.
  { intros i f Hi. rewrite H1.
    assert (f ∈ files) as Hf by (by eapply list_elem_of_lookup_2).
    pose proof Hf as Hf'. unfold files in Hf'.
    apply elem_of_all_files in Hf' as (_ & _ & [wb Hwb]).
    assert (∀ g, g ∈ files → selected g.2 = true) as Hsel.
    { intros g Hg. unfold files in Hg.
      by apply elem_of_all_files in Hg as (_ & ? & _). }
    destruct (append_total_file_outcome p files fs i f wb
                (NoDup_all_files fs folders Hnd) Hsel Hi Hwb) as [Hnone Hsome].
    fold fs' statuses in Hnone, Hsome.
    destruct (tier2 wb) as [col|] eqn:Hcol.
    - destruct (Hsome col eq_refl) as [[[Hs Hg]|(_ & Hs & Hg)] _].
      + rewrite Hs, Hg. split; [|done]. by intros [_ [? ?]].
      + rewrite Hs, Hg. split; [done|]. intros _. split; [done|by eexists].
    - destruct (Hnone eq_refl) as [Hs Hg]. rewrite Hs, Hg.
      split; [done|]. intros _. split; [done|by eexists]. }
  split; [exact H1|]. split; [exact H2|].
  intros Hall.
  assert (all_files fs' folders = []) as Hnil.
  { apply elem_of_nil_inv. intros g Hin.
    pose proof Hin as Hin'. apply H1 in Hin' as [Hfiles _].
    apply list_elem_of_lookup in Hfiles as [i Hi].
    apply (H2 i g Hi) in Hin.
    apply list_elem_of_lookup_2 in Hin.
    by apply (proj1 (Forall_forall _ _) Hall) in Hin. }
  split; [exact Hnil|]. by rewrite Hnil.
Qed.

Lemma second_run_retries_failed_files_witness :
  ("Jan", "b.xlsx")
  ∈ all_files
      (append_total_loop Posix three_files
         (all_files three_files ["Jan"; "Feb"])).1
      ["Jan"; "Feb"].
Proof.
  assert (NoDup ["Jan"; "Feb"]) as Hnd.
  { repeat constructor; rewrite ?elem_of_cons, ?elem_of_nil;
      intros H; repeat destruct H as [H|H]; done. }
  destruct (second_run_retries_failed_files Posix three_files
              ["Jan"; "Feb"] Hnd) as (_ & H2 & _).
  assert (∃ i, all_files three_files ["Jan"; "Feb"] !! i = Some ("Jan", "b.xlsx")
               ∧ (append_total_loop Posix three_files
                    (all_files three_files ["Jan"; "Feb"])).2 !! i = Some Failed)
    as (i & Hi & Hs).
  { assert (all_files three_files ["Jan"; "Feb"]
            = [("Jan", "a.xlsx"); ("Jan", "b.xlsx"); ("Feb", "c.xlsx")]
            ∨ all_files three_files ["Jan"; "Feb"]
              = [("Jan", "b.xlsx"); ("Jan", "a.xlsx"); ("Feb", "c.xlsx")]) as [->| ->]
      by (vm_compute; tauto).
    - exists 1%nat. split; [done|]. by vm_compute.
    - exists 0%nat. split; [done|]. by vm_compute. }
  by apply (H2 i _ Hi).
Defined.

(** ** The two readers of a salary *)



























(** ** [ssnit_search]: one handler around the whole search *)

Lemma ssnit_search_file_Stop number f e :
  ssnit_search_file number f = Stop e ↔
  existsb (λ p, Py.startswith p f.1) ["vlookup_"; "duplicate_ssnit_"] = false
  ∧ "ssnit" ∈ Search.columns f.2
  ∧ ssnit_matches number (Search.rows f.2) ≠ []
  ∧ ((("name" ∉ Search.columns f.2) ∧ e = NameKeyError)
     ∨ ("name" ∈ Search.columns f.2 ∧ e = JoinTypeError
        ∧ ∃ r, r ∈ ssnit_matches number (Search.rows f.2)
               ∧ Search.name r = NaN)).
Proof.
  unfold ssnit_search_file.
  destruct (existsb _ _); [split; [done|by intros [? _]]|].
  case_bool_decide as Hs; [|split; [done|by intros (_ & ? & _)]].
  destruct (ssnit_matches number (Search.rows f.2)) as [|m ms] eqn:Hm;
    [split; [done|by intros (_ & _ & ? & _)]|].
  case_bool_decide as Hn.
  - destruct (match_names (m :: ms)) as [names|] eqn:Hnames.
    + split; [done|].
      intros (_ & _ & _ & [[? _]|(_ & _ & r & Hr & Hnan)]); [done|].
      assert (is_Some (match_names (m :: ms))) as Hsome by (by eexists).
      apply mapM_is_Some in Hsome.
      apply (proj1 (Forall_forall _ _) Hsome) in Hr. simpl in Hr.
      rewrite Hnan in Hr. by destruct Hr.
    + split.
      * intros [= <-]. split; [done|]. split; [done|]. split; [done|].
        right. split; [done|]. split; [done|].
        destruct (decide (Exists (λ r, Search.name r = NaN) (m :: ms)))
          as [Hex|Hno].
        { apply Exists_exists in Hex as (r & Hr & Hnan). by exists r. }
        assert (is_Some (match_names (m :: ms))) as [? Hsome]; [|congruence].
        apply mapM_is_Some, Forall_forall. intros r Hr. simpl.
        destruct (Search.name r) eqn:Hname; [|by eexists].
        destruct Hno. apply Exists_exists. by exists r.
      * intros (_ & _ & _ & [[? _]|(_ & -> & _)]); done.
  - split.
    + intros [= <-]. split; [done|]. split; [done|]. split; [done|]. by left.
    + intros (_ & _ & _ & [[_ ->]|(? & _)]); done.
Qed.

Lemma ssnit_search_loop_entries number files : ∀ results,
  (∀ f e, f ∈ files → ssnit_search_file number f ≠ Stop e) →
  ssnit_search_loop number files results
  = match results ++ search_entries number files with
    | [] => NoMatchesFound
    | (_ :: _) as table => ResultsTable table
    end.
Proof.
  induction files as [|f rest IH]; intros results Hok.
  - simpl. rewrite app_nil_r. by destruct results.
  - assert (∀ f e, f ∈ rest → ssnit_search_file number f ≠ Stop e) as Hrest
      by (intros g e Hg; apply Hok; by apply list_elem_of_further).
    cbn [ssnit_search_loop]. unfold search_entries. cbn [mbind list_bind].
    fold (search_entries number rest).
    destruct (ssnit_search_file number f) as [|File Names|e] eqn:Hf.
    + by rewrite IH.
    + rewrite IH by done. by rewrite <- app_assoc.
    + by destruct (Hok f e (list_elem_of_here _ _)).
Qed.

Lemma ssnit_search_loop_Stop number files : ∀ results f e,
  f ∈ files → ssnit_search_file number f = Stop e →
  ssnit_search_loop number files results = NameKeyError
  ∨ ssnit_search_loop number files results = JoinTypeError.
Proof.
  induction files as [|g rest IH]; intros results f e Hf He.
  - by apply elem_of_nil in Hf.
  - cbn [ssnit_search_loop].
    destruct (ssnit_search_file number g) as [|File Names|e'] eqn:Hg.
    + apply elem_of_cons in Hf as [->|Hf]; [congruence|]. by eapply IH.
    + apply elem_of_cons in Hf as [->|Hf]; [congruence|]. by eapply IH.
    + apply ssnit_search_file_Stop in Hg as (_ & _ & _ & [[_ ->]|(_ & -> & _)]);
        tauto.
Qed.

(** [ssnit_search] has one handler around the whole search.  A file raises
    when it has a row of the number asked for and either no [name] column
    or a missing name in such a row; as soon as one file raises, the search
    ends with the error and shows none of the matches, those of the other
    files included.  When no file raises, the table has one line for each
    file that has a row of the number, in the order of the files, with the
    names of these rows joined by commas.  The number is compared as it was
    typed with the trimmed identifiers: a number typed with a blank before
    or after it finds nothing. *)
Theorem ssnit_search_is_all_or_nothing
  (ssnit_number : string) (files : list (string * Search.sheet)) :
  (∀ f e, ssnit_search_file ssnit_number f = Stop e ↔
     existsb (λ p, Py.startswith p f.1) ["vlookup_"; "duplicate_ssnit_"] = false
     ∧ "ssnit" ∈ Search.columns f.2
     ∧ ssnit_matches ssnit_number (Search.rows f.2) ≠ []
     ∧ ((("name" ∉ Search.columns f.2) ∧ e = NameKeyError)
        ∨ ("name" ∈ Search.columns f.2 ∧ e = JoinTypeError
           ∧ ∃ r, r ∈ ssnit_matches ssnit_number (Search.rows f.2)
                  ∧ Search.name r = NaN)))
  ∧ ((∃ f e, f ∈ files ∧ ssnit_search_file ssnit_number f = Stop e) →
     ssnit_search ssnit_number files = NameKeyError
     ∨ ssnit_search ssnit_number files = JoinTypeError)
  ∧ ((∀ f e, f ∈ files → ssnit_search_file ssnit_number f ≠ Stop e) →
     ssnit_search ssnit_number files
     = match search_entries ssnit_number files with
       | [] => NoMatchesFound
       | (_ :: _) as table => ResultsTable table
       end)
  ∧ (Py.strip ssnit_number ≠ ssnit_number →
     ssnit_search ssnit_number files = NoMatchesFound).
Proof.
  split; [intros f e; apply ssnit_search_file_Stop|]. split; [|split].
  - intros (f & e & Hf & He). by eapply ssnit_search_loop_Stop.
  - intros Hok. unfold ssnit_search. by rewrite ssnit_search_loop_entries.
  - intros Hnumber.
    assert (∀ rows, ssnit_matches ssnit_number rows = []) as Hnone.
    { intros rows. unfold ssnit_matches. apply filter_none, Forall_forall.
      intros r _ Hr. apply Hnumber. rewrite <- Hr. apply strip_idemp. }
    assert (∀ f, ssnit_search_file ssnit_number f = Nothing) as Hfile.
    { intros f. unfold ssnit_search_file. rewrite Hnone.
      destruct (existsb _ _); [done|]. by case_bool_decide. }
    unfold ssnit_search. rewrite ssnit_search_loop_entries.
    + assert (search_entries ssnit_number files = []) as ->; [|done].
      unfold search_entries. induction files as [|f rest IH]; [done|].
      cbn [mbind list_bind]. by rewrite Hfile, IH.
    + intros f e _. by rewrite Hfile.
Qed.

Lemma ssnit_search_is_all_or_nothing_witness :
  ssnit_search "A1" searched_folder = NameKeyError
  ∧ ssnit_search "A1" (take 2 searched_folder)
    = ResultsTable [("jan.xlsx", "Ama Mensah, A. Mensah")]
  ∧ ssnit_search "A1 " searched_folder = NoMatchesFound.
Proof.
  destruct (ssnit_search_is_all_or_nothing "A1 " searched_folder)
    as (_ & _ & _ & Hblank).
  split; [by vm_compute|]. split; [by vm_compute|].
  apply Hblank. by vm_compute.
Defined.

(** ** [Dashboard.validation] from the lookup table to the file *)

Lemma validation_primary_last vl1 v vl2 :
  Forall (λ v', Validation.key_of (Vlookup.Ssnit v')
                ≠ Validation.key_of (Vlookup.Ssnit v)) vl2 →
  Validation.primary_dict (vl1 ++ v :: vl2) !! Validation.key_of (Vlookup.Ssnit v)
  = Some (Validation.vlookup_entry v).
Proof.
  intros Hrest. unfold Validation.primary_dict.
  rewrite (foldl_lookup _ validation_vlookup_at validation_vlookup_step_lookup).
  rewrite foldl_app. cbn [foldl].
  assert (validation_vlookup_at (Validation.key_of (Vlookup.Ssnit v))
            (foldl (validation_vlookup_at (Validation.key_of (Vlookup.Ssnit v)))
               (∅ !! Validation.key_of (Vlookup.Ssnit v)) vl1) v
          = Some (Validation.vlookup_entry v)) as ->
    by (unfold validation_vlookup_at; by rewrite bool_decide_eq_true_2).
  induction Hrest as [|v' vl2 Hv' _ IH]; [done|]. cbn [foldl].
  unfold validation_vlookup_at at 2. by rewrite bool_decide_eq_false_2.
Qed.

(** [Dashboard.validation] from the lookup table to the file written.  A
    schedule row receives the trimmed account number, and the names as
    they are written, of the last row of the lookup table whose trimmed
    identifier is the trimmed identifier of the row, whenever that row has
    them, whatever the fallback source holds.  The identifier written back
    is the trimmed text, ["nan"] for a missing one; rows without identifier
    are matched like any other row, with the rows of the lookup table that
    have no identifier. *)
Theorem validation_matches_last_lookup_row
  (vl1 vl2 : list Vlookup.row) (v : Vlookup.row) (ms : list MasterReport.row)
  (rows : list Schedule.row) (i : nat) (r : Schedule.row) (a : string) :
  Validation.key_of (Vlookup.Ssnit v) = Py.strip (str (Schedule.ssnit r)) →
  Forall (λ v', Validation.key_of (Vlookup.Ssnit v')
                ≠ Validation.key_of (Vlookup.Ssnit v)) vl2 →
  Vlookup.Accountno v = Text a → Py.strip a ≠ "" →
  rows !! i = Some r →
  ∃ outs o,
    validate_file (Validation.vlookup_dict (vl1 ++ v :: vl2) ms) rows = Ok outs
    ∧ outs !! i = Some o
    ∧ Output.accountno o = Text (Py.strip a)
    ∧ Output.ssnit o = Text (Py.strip (str (Schedule.ssnit r)))
    ∧ (∀ s, Vlookup.Surname v = Text s → s ≠ "" → Output.surname o = Text s)
    ∧ (∀ s, Vlookup.First_Name v = Text s → s ≠ "" →
            Output.first_name o = Text s)
    ∧ (∀ s, Vlookup.Other_Names v = Text s → s ≠ "" →
            Output.other_name o = Text s)
    ∧ (Schedule.ssnit r = NaN → Output.ssnit o = Text "nan").
Proof.
  intros Hkey Hrest Ha Hne Hi.
  set (d := Validation.vlookup_dict (vl1 ++ v :: vl2) ms).
  assert (∃ e, d !! Py.strip (str (Schedule.ssnit r)) = Some e
               ∧ Validation.accountno e = Some (Text (Py.strip a))
               ∧ (∀ f, Validation.truthy (entry_name f (Validation.vlookup_entry v))
                       = true →
                       entry_name f e = entry_name f (Validation.vlookup_entry v)))
    as (e & He & Hacc & Hnames).
  { unfold d. rewrite <- Hkey, validation_dict_lookup.
    rewrite (validation_primary_last vl1 v vl2 Hrest).
    destruct (validation_master_at_Some (Validation.key_of (Vlookup.Ssnit v))
                (Validation.vlookup_entry v) _
                (Forall_filter_true
                   (validation_has_key (Validation.key_of (Vlookup.Ssnit v))) ms))
      as (e & -> & Hacc & Hs & Hf & Ho).
    exists e. split; [done|]. split.
    - rewrite Hacc. simpl. rewrite Ha. apply fill_from_truthy.
      simpl. by destruct (Py.strip a).
    - intros [] Ht; simpl in *.
      + rewrite Hs. by apply fill_from_truthy.
      + rewrite Hf. by apply fill_from_truthy.
      + rewrite Ho. by apply fill_from_truthy. }
  exists (map (validated_row d) rows), (validated_row d r).
  split; [apply validate_file_rows|]. split.
  { change (map ?g rows) with (g <$> rows). by rewrite list_lookup_fmap, Hi. }
  assert (validated_row d r
          = output_row
              (update_row e
                 (set_schedule_ssnit r (Text (Py.strip (str (Schedule.ssnit r))))))
              (salary_of r)) as ->.
  { unfold validated_row, annotate_row. simpl. by rewrite He. }
  simpl. split; [|split; [done|]].
  { rewrite Hacc. simpl. by destruct (Py.strip a). }
  assert (∀ f s, master_name f (MasterReport.Row NaN NaN
                                  (Vlookup.Surname v) (Vlookup.First_Name v)
                                  (Vlookup.Other_Names v)) = Text s →
                 s ≠ "" → entry_name f e = Some (Text s)) as Hname.
  { intros f s Hs Hs'. rewrite Hnames.
    - destruct f; simpl in *; by rewrite Hs.
    - destruct f; simpl in *; rewrite Hs; simpl; by destruct s. }
  split; [|split; [|split]].
  - intros s Hs Hs'. pose proof (Hname surname_field s Hs Hs') as Hn.
    simpl in Hn. rewrite Hn. by destruct s.
  - intros s Hs Hs'. pose proof (Hname first_name_field s Hs Hs') as Hn.
    simpl in Hn. rewrite Hn. by destruct s.
  - intros s Hs Hs'. pose proof (Hname other_name_field s Hs Hs') as Hn.
    simpl in Hn. rewrite Hn. by destruct s.
  - by intros ->.
Qed.

Lemma validation_matches_last_lookup_row_witness :
  ∃ outs o,
    validate_file
      (Validation.vlookup_dict (sample_vlookup ++ [unidentified_vlookup_row])
         sample_master)
      [unidentified_schedule_row] = Ok outs
    ∧ outs !! 0%nat = Some o
    ∧ Output.accountno o = Text "777"
    ∧ Output.surname o = Text "Ghost"
    ∧ Output.ssnit o = Text "nan".
Proof.
  destruct (validation_matches_last_lookup_row sample_vlookup []
              unidentified_vlookup_row sample_master
              [unidentified_schedule_row] 0%nat unidentified_schedule_row " 777 "
              eq_refl (Forall_nil_2 _) eq_refl)
    as (outs & o & Hout & Ho & Hacc & _ & Hsur & _ & _ & Hnan); [done|done|].
  exists outs, o. split; [exact Hout|]. split; [exact Ho|].
  split; [exact Hacc|]. split; [by apply Hsur|by apply Hnan].
Defined.
